(** * kml2msfs: a verified model of the KML to MSFS2020 flight-plan converter

    The development embeds [kml2msfs.py] function by function.

    - Python [float] values are IEEE-754 binary64 numbers; they are modelled
      by [spec_float] with the operations of [SpecFloat] at precision 53 and
      maximal exponent 1024, so every arithmetic step rounds as the
      interpreter does.
    - Python [int] values are [Z].
    - Python [str] values are [string], the bytes of the text in UTF-8.
      On a text in ASCII the bytes are the characters, and [len], slices
      and the character classes ([str.isalpha], [str.upper], [str.strip],
      [float] and the regular-expression classes [\w] and [\s]) are those
      of Python.  Beyond ASCII Python counts and classifies characters,
      not bytes, so every statement that depends on a length, a slice or a
      class of characters assumes that the text concerned is in ASCII
      ([Str.isascii]); splitting and joining at ASCII characters, as in
      the paths and in the coordinates, needs no such assumption.  The
      degree sign of the DMS format is its two-byte UTF-8 encoding.
    - Exceptions are values of [exn] carried by the [result] monad.
    - [xml.etree.ElementTree] elements are the inductive type [element]. *)

From Stdlib Require Import ZArith QArith Qabs Qpower Lia Lqa List String Ascii Bool.
From Stdlib Require Import SpecFloat.
Import ListNotations.

Open Scope string_scope.
Open Scope Z_scope.

(** ** Exceptions and the result monad *)

Inductive exn : Type :=
| FileNotFoundError
| ParseError
| AttributeError
| IndexError
| OverflowError
| ValueError (msg : string).

Inductive result (A : Type) : Type :=
| Ok (a : A)
| Raise (e : exn).

Arguments Ok {A} a.
Arguments Raise {A} e.

Definition bind {A B : Type} (r : result A) (k : A -> result B) : result B :=
  match r with
  | Ok a => k a
  | Raise e => Raise e
  end.

Notation "x <- c ;; k" := (bind c (fun x => k))
  (at level 61, c at next level, right associativity).

Definition is_ok {A : Type} (r : result A) : bool :=
  match r with Ok _ => true | Raise _ => false end.

(** ** Python numbers *)

Module Py.

Definition prec : Z := 53.
Definition emax : Z := 1024.

Definition float : Type := spec_float.

Definition fmul : float -> float -> float := SFmul prec emax.
Definition fsub : float -> float -> float := SFsub prec emax.
Definition fabs : float -> float := SFabs.

(** [x >= y] on floats; false as soon as one side is a NaN. *)
Definition fge (x y : float) : bool :=
  match SFcompare x y with
  | Some Gt | Some Eq => true
  | _ => false
  end.

Definition fzero : float := S754_zero false.

Definition is_finite (x : float) : bool :=
  match x with
  | S754_zero _ | S754_finite _ _ _ => true
  | _ => false
  end.

(** Sign bit clear, on the finite values. *)
Definition is_nonneg (x : float) : bool :=
  match x with
  | S754_zero false | S754_finite false _ _ => true
  | _ => false
  end.

(** The well-formed binary64 values: canonical mantissa, exponent in range. *)
Definition is_binary64 (x : float) : bool := valid_binary prec emax x.

(** Conversion of an [int] operand in mixed arithmetic: correctly rounded,
    [OverflowError] when the integer is beyond the largest float. *)
Definition float_of_int (z : Z) : result float :=
  match binary_normalize prec emax z 0 false with
  | S754_infinity _ => Raise OverflowError
  | f => Ok f
  end.

(** [int(x)] on a float: truncation toward zero. *)
Definition int_of_float (x : float) : result Z :=
  match x with
  | S754_nan => Raise (ValueError "cannot convert float NaN to integer")
  | S754_infinity _ => Raise OverflowError
  | S754_zero _ => Ok 0
  | S754_finite s m e => Ok (cond_Zopp s (Z.shiftl (Zpos m) e))
  end.

(** Nearest integer to [m / 2^k], ties to the even neighbour. *)
Definition div_half_even (m : Z) (k : Z) : Z :=
  let q := Z.shiftr m k in
  let r := m - Z.shiftl q k in
  match Z.compare (2 * r) (Z.shiftl 1 k) with
  | Lt => q
  | Gt => q + 1
  | Eq => if Z.even q then q else q + 1
  end.

(** Nearest integer to [m * 2^e], ties to even, for [m >= 0]. *)
Definition round_half_even (m : Z) (e : Z) : Z :=
  if 0 <=? e then Z.shiftl m e else div_half_even m (- e).

(** [round(x)] with one argument: an [int], ties to even. *)
Definition round (x : float) : result Z :=
  match x with
  | S754_nan => Raise (ValueError "cannot convert float NaN to integer")
  | S754_infinity _ => Raise OverflowError
  | S754_zero _ => Ok 0
  | S754_finite s m e => Ok (cond_Zopp s (round_half_even (Zpos m) e))
  end.

(** The exact rational value of a float (0 for the non-finite ones). *)
Definition Q_of_float (x : float) : Q :=
  match x with
  | S754_finite s m e => inject_Z (cond_Zopp s (Zpos m)) * (2 ^ e)%Q
  | _ => 0%Q
  end.

End Py.

(** ** Python strings *)

Module Str.

Definition digit_char (d : Z) : ascii := ascii_of_N (Z.to_N (48 + d)).

Definition is_digit (c : ascii) : bool :=
  let n := N_of_ascii c in ((48 <=? n) && (n <=? 57))%N.

Definition is_upper (c : ascii) : bool :=
  let n := N_of_ascii c in ((65 <=? n) && (n <=? 90))%N.

Definition is_lower (c : ascii) : bool :=
  let n := N_of_ascii c in ((97 <=? n) && (n <=? 122))%N.

Definition is_alpha (c : ascii) : bool := is_upper c || is_lower c.

(** [\w], among the characters of ASCII. *)
Definition is_word (c : ascii) : bool :=
  is_alpha c || is_digit c || Ascii.eqb c "_".

(** [\s] and the characters removed by [str.strip()], among the
    characters of ASCII: tab, newline, vertical tab, form feed, carriage
    return, the four separators 28..31 and the space. *)
Definition is_space (c : ascii) : bool :=
  let n := N_of_ascii c in
  (((9 <=? n) && (n <=? 13)) || ((28 <=? n) && (n <=? 32)))%N.

Definition upper_char (c : ascii) : ascii :=
  if is_lower c then ascii_of_N (N_of_ascii c - 32) else c.

Definition lower_char (c : ascii) : ascii :=
  if is_upper c then ascii_of_N (N_of_ascii c + 32) else c.

Fixpoint forallb (p : ascii -> bool) (s : string) : bool :=
  match s with
  | EmptyString => true
  | String c s' => p c && forallb p s'
  end.

Fixpoint map (f : ascii -> ascii) (s : string) : string :=
  match s with
  | EmptyString => EmptyString
  | String c s' => String (f c) (map f s')
  end.

(** [s.upper()] for a text in ASCII. *)
Definition upper (s : string) : string := map upper_char s.

(** [s.isascii()]: every character below 128. *)
Definition isascii (s : string) : bool :=
  forallb (fun c => (N_of_ascii c <? 128)%N) s.

(** [s.isalpha()] for a text in ASCII: every character alphabetic and at
    least one character. *)
Definition isalpha (s : string) : bool :=
  match s with
  | EmptyString => false
  | _ => forallb is_alpha s
  end.

Fixpoint rev_acc (s acc : string) : string :=
  match s with
  | EmptyString => acc
  | String c s' => rev_acc s' (String c acc)
  end.

Definition rev (s : string) : string := rev_acc s EmptyString.

Fixpoint lstrip (p : ascii -> bool) (s : string) : string :=
  match s with
  | String c s' => if p c then lstrip p s' else s
  | EmptyString => EmptyString
  end.

Definition rstrip (p : ascii -> bool) (s : string) : string :=
  rev (lstrip p (rev s)).

(** [s.strip()], for the blanks of ASCII, and [s.strip(chars)] for a
    one-character [chars]. *)
Definition strip_by (p : ascii -> bool) (s : string) : string :=
  rstrip p (lstrip p s).

Definition strip (s : string) : string := strip_by is_space s.

Definition strip_char (c : ascii) (s : string) : string :=
  strip_by (Ascii.eqb c) s.

(** [s[:n]] for a text in ASCII. *)
Fixpoint take (n : nat) (s : string) : string :=
  match n, s with
  | S n', String c s' => String c (take n' s')
  | _, _ => EmptyString
  end.

Fixpoint repeat (c : ascii) (n : nat) : string :=
  match n with
  | O => EmptyString
  | S n' => String c (repeat c n')
  end.

(** Left padding with zeros up to [width] characters. *)
Definition zfill (width : nat) (s : string) : string :=
  repeat "0" (width - String.length s) ++ s.

(** Decimal digits of a non-negative integer, most significant first. *)
Fixpoint digits_fuel (fuel : nat) (n : Z) (acc : string) : string :=
  let acc' := String (digit_char (n mod 10)) acc in
  match fuel with
  | O => acc'
  | S fuel' => if n <? 10 then acc' else digits_fuel fuel' (n / 10) acc'
  end.

Definition digits (n : Z) : string :=
  digits_fuel (Z.to_nat (Z.log2 n)) n EmptyString.

(** [str(n)] and the [d] presentation type. *)
Definition of_int (n : Z) : string :=
  if n <? 0 then String "-" (digits (- n)) else digits n.

(** [format(n, "0<w>d")]: sign first, zeros between sign and digits. *)
Definition format_0d (width : nat) (n : Z) : string :=
  if n <? 0 then String "-" (zfill (width - 1) (digits (- n)))
  else zfill width (digits n).

(** [s.split(sep)] for a one-character separator. *)
Fixpoint split (sep : ascii) (s : string) : list string :=
  match s with
  | EmptyString => [EmptyString]
  | String c s' =>
      if Ascii.eqb c sep then EmptyString :: split sep s'
      else match split sep s' with
           | h :: t => String c h :: t
           | [] => [String c EmptyString]
           end
  end.

(** [c in s] for a character [c]. *)
Fixpoint contains (c : ascii) (s : string) : bool :=
  match s with
  | EmptyString => false
  | String a s' => Ascii.eqb a c || contains c s'
  end.

Definition hex_digit (n : N) : ascii :=
  ascii_of_N (if (n <? 10)%N then 48 + n else 87 + n).

(** One character of [repr(s)]: the quote in use and the backslash take a
    backslash, tab, newline and carriage return their letter, any other
    control character its code in hexadecimal. *)
Definition repr_char (quote c : ascii) : string :=
  let n := N_of_ascii c in
  if Ascii.eqb c quote || Ascii.eqb c "092" then String "092" (String c "")
  else if Ascii.eqb c "009" then String "092" "t"
  else if Ascii.eqb c "010" then String "092" "n"
  else if Ascii.eqb c "013" then String "092" "r"
  else if (n <? 32)%N || (n =? 127)%N
  then String "092" (String "x" (String (hex_digit (n / 16))
                                   (String (hex_digit (n mod 16)) "")))
  else String c "".

Fixpoint repr_body (quote : ascii) (s : string) : string :=
  match s with
  | EmptyString => EmptyString
  | String c s' => repr_char quote c ++ repr_body quote s'
  end.

(** [repr(s)] for a text in ASCII: between single quotes, or between
    double quotes when the text holds a single quote and no double
    quote. *)
Definition repr (s : string) : string :=
  let quote :=
    if contains "'" s && negb (contains "034" s) then "034"%char else "'"%char in
  String quote (repr_body quote s ++ String quote "").

(** [s.rfind(c)]: index of the last occurrence, [-1] when there is none. *)
Fixpoint rfind_from (c : ascii) (s : string) (i : Z) (found : Z) : Z :=
  match s with
  | EmptyString => found
  | String a s' => rfind_from c s' (i + 1) (if Ascii.eqb a c then i else found)
  end.

Definition rfind (c : ascii) (s : string) : Z := rfind_from c s 0 (-1).

(** [s[i:j]] for [0 <= i <= j]. *)
Definition slice (i j : Z) (s : string) : string :=
  String.substring (Z.to_nat i) (Z.to_nat (j - i)) s.

(** Reading back a run of decimal digits. *)
Fixpoint parse_digits_acc (s : string) (acc : Z) : option Z :=
  match s with
  | EmptyString => Some acc
  | String c s' =>
      if is_digit c
      then parse_digits_acc s' (10 * acc + (Z.of_N (N_of_ascii c) - 48))
      else None
  end.

Definition parse_digits (s : string) : option Z :=
  match s with
  | EmptyString => None
  | _ => parse_digits_acc s 0
  end.

End Str.

(** ** Conversions between numbers and strings *)

Module Fmt.

(** [format(x, "05.2f")]: two decimals, correctly rounded from the exact
    binary value with ties to even, sign first, zeros up to width 5. *)
Definition fixed2 (m : Z) (e : Z) : string :=
  let n := Py.round_half_even (100 * m) e in
  Str.digits (n / 100) ++ "." ++ Str.zfill 2 (Str.digits (n mod 100)).

Definition pad_signed (width : nat) (neg : bool) (body : string) : string :=
  if neg then String "-" (Str.zfill (width - 1) body) else Str.zfill width body.

Definition format_05_2f (x : Py.float) : string :=
  match x with
  | S754_nan => pad_signed 5 false "nan"
  | S754_infinity s => pad_signed 5 s "inf"
  | S754_zero s => pad_signed 5 s (fixed2 0 0)
  | S754_finite s m e => pad_signed 5 s (fixed2 (Zpos m) e)
  end.

(** *** [float(s)] on a string *)

(** A [digitpart]: digits, single underscores allowed between two digits.
    Returns the accumulated value, the number of digits read and the rest. *)
Fixpoint scan_digits (s : string) (started : bool) (acc cnt : Z)
  : Z * Z * string :=
  match s with
  | String c s' =>
      if Str.is_digit c
      then scan_digits s' true (10 * acc + (Z.of_N (N_of_ascii c) - 48)) (cnt + 1)
      else if Ascii.eqb c "_" && started
      then match s' with
           | String c' _ =>
               if Str.is_digit c' then scan_digits s' false acc cnt
               else (acc, cnt, s)
           | EmptyString => (acc, cnt, s)
           end
      else (acc, cnt, s)
  | EmptyString => (acc, cnt, s)
  end.

Definition scan_sign (s : string) : bool * string :=
  match s with
  | String "-" r => (true, r)
  | String "+" r => (false, r)
  | _ => (false, s)
  end.

(** [exponent ::= ("e" | "E") [sign] digitpart], then the end of the text. *)
Definition scan_exponent (s : string) : option Z :=
  match s with
  | EmptyString => Some 0
  | String c r =>
      if Ascii.eqb (Str.lower_char c) "e"
      then let '(neg, r1) := scan_sign r in
           let '(ev, ec, r2) := scan_digits r1 false 0 0 in
           match r2 with
           | EmptyString => if 0 <? ec then Some (cond_Zopp neg ev) else None
           | _ => None
           end
      else None
  end.

(** [floatnumber]: the decimal mantissa [n] and exponent [k] of [n * 10^k]. *)
Definition scan_number (s : string) : option (Z * Z) :=
  let '(iv, ic, r1) := scan_digits s false 0 0 in
  match r1 with
  | String "." r2 =>
      let '(fv, fc, r3) := scan_digits r2 false iv 0 in
      if (0 <? ic) || (0 <? fc)
      then match scan_exponent r3 with
           | Some ex => Some (fv, ex - fc)
           | None => None
           end
      else None
  | _ =>
      if 0 <? ic
      then match scan_exponent r1 with
           | Some ex => Some (iv, ex)
           | None => None
           end
      else None
  end.

(** The blanks that [float] skips at both ends of its argument: tab,
    newline, vertical tab, form feed, carriage return and space. *)
Definition is_float_space (c : ascii) : bool :=
  let n := N_of_ascii c in (((9 <=? n) && (n <=? 13)) || (n =? 32))%N.

(** The binary64 value nearest to [n * 10^k], ties to even. *)
Definition round_decimal (neg : bool) (n k : Z) : Py.float :=
  match n with
  | Zpos p =>
      if 0 <=? k
      then binary_normalize Py.prec Py.emax (cond_Zopp neg (n * 10 ^ k)) 0 false
      else SFdiv Py.prec Py.emax
             (S754_finite neg p 0) (S754_finite false (Z.to_pos (10 ^ (- k))) 0)
  | _ => S754_zero neg
  end.

Definition float_of_string (s : string) : result Py.float :=
  let '(neg, body) := scan_sign (Str.strip_by is_float_space s) in
  let low := Str.map Str.lower_char body in
  if String.eqb low "inf" || String.eqb low "infinity"
  then Ok (S754_infinity neg)
  else if String.eqb low "nan" then Ok S754_nan
  else match scan_number body with
       | Some (n, k) => Ok (round_decimal neg n k)
       | None =>
           Raise (ValueError ("could not convert string to float: " ++ Str.repr s))
       end.

End Fmt.

(** ** [os.path] on POSIX paths *)

Module Path.

Definition basename (p : string) : string :=
  List.last (Str.split "/" p) EmptyString.

(** [os.path.splitext]: the extension starts at the last dot of the last
    component, unless only dots precede it there. *)
Definition splitext (p : string) : string * string :=
  let sepIndex := Str.rfind "/" p in
  let dotIndex := Str.rfind "." p in
  if (sepIndex <? dotIndex)
     && negb (Str.forallb (Ascii.eqb ".") (Str.slice (sepIndex + 1) dotIndex p))
  then (Str.slice 0 dotIndex p,
        Str.slice dotIndex (Z.of_nat (String.length p)) p)
  else (p, EmptyString).

End Path.

(** ** The formatter *)

(** The literal [3.28084]: the binary64 value nearest to 328084/100000. *)
Definition FT_PER_M : Py.float := S754_finite false 7387794900731109 (-51).

(** The operand [60] once converted to a float. *)
Definition SIXTY : Py.float := S754_finite false 8444249301319680 (-47).

Definition DEGREE_SIGN : string := String "194" (String "176" EmptyString).
Definition DQUOTE : string := String "034" EmptyString.

(** [dec_to_dms] *)
Definition dec_to_dms (value : Py.float) (is_lat : bool) : result string :=
  let hem :=
    if is_lat then (if Py.fge value Py.fzero then "N" else "S")
    else (if Py.fge value Py.fzero then "E" else "W") in
  let value := Py.fabs value in
  d <- Py.int_of_float value ;;
  d_f <- Py.float_of_int d ;;
  let m_full := Py.fmul (Py.fsub value d_f) SIXTY in
  m <- Py.int_of_float m_full ;;
  m_f <- Py.float_of_int m ;;
  let s := Py.fmul (Py.fsub m_full m_f) SIXTY in
  Ok (hem ++ Str.of_int d ++ DEGREE_SIGN ++ " " ++ Str.of_int m ++ "' "
          ++ Fmt.format_05_2f s ++ DQUOTE).

(** [alt_m_to_ft_str] *)
Definition alt_m_to_ft_str (alt_m : Py.float) : result string :=
  ft <- Py.round (Py.fmul alt_m FT_PER_M) ;;
  Ok ("+" ++ Str.format_0d 6 ft ++ ".00").


(** ** Element trees *)

#[warnings="-register-all"]
Inductive element : Type :=
| Element (tag : string) (attrib : list (string * string))
          (text : option string) (children : list element).

Definition tag (e : element) : string :=
  match e with Element t _ _ _ => t end.

Definition attrib (e : element) : list (string * string) :=
  match e with Element _ a _ _ => a end.

Definition text (e : element) : option string :=
  match e with Element _ _ x _ => x end.

Definition children (e : element) : list element :=
  match e with Element _ _ _ c => c end.

(** [e.iter()]: the element and all its descendants in document order. *)
Fixpoint iter (e : element) : list element :=
  match e with
  | Element _ _ _ cs => e :: List.flat_map iter cs
  end.

Definition has_tag (t : string) (e : element) : bool := String.eqb (tag e) t.

(** [e.findall("t")] and [e.find("t")]: direct children with tag [t]. *)
Definition findall_child (t : string) (e : element) : list element :=
  List.filter (has_tag t) (children e).

Definition find_child (t : string) (e : element) : option element :=
  List.hd_error (findall_child t e).

(** [e.findall(".//t")]: proper descendants with tag [t], document order. *)
Definition findall_desc (t : string) (e : element) : list element :=
  List.filter (has_tag t) (List.flat_map iter (children e)).

(** [e.find(".//t/u")] *)
Definition find_desc_child (t u : string) (e : element) : option element :=
  List.hd_error (List.flat_map (findall_child u) (findall_desc t e)).

(** [e.text], an [AttributeError] when [e] is [None]. *)
Definition text_of (e : option element) : result (option string) :=
  match e with
  | Some el => Ok (text el)
  | None => Raise AttributeError
  end.

(** [t.strip()], an [AttributeError] when [t] is [None]. *)
Definition strip_of (t : option string) : result string :=
  match t with
  | Some s => Ok (Str.strip s)
  | None => Raise AttributeError
  end.

(** ** The reader *)

Record waypoint : Type := mkWaypoint {
  wp_name : string;
  wp_lat : Py.float;
  wp_lon : Py.float;
  wp_alt : Py.float
}.

Definition NS_KML : string := "http://www.opengis.net/kml/2.2".

(** The qualified tag that the prefix [kml:] stands for. *)
Definition kml (name : string) : string := "{" ++ NS_KML ++ "}" ++ name.

Definition NO_WAYPOINTS : exn :=
  ValueError "未在 KML 中找到任何航点 (Placemark with <Point>).".

(** [lon, lat, alt = map(float, parts)] for [parts] of at most 3 items. *)
Definition unpack3 (parts : list string)
  : result (Py.float * Py.float * Py.float) :=
  match parts with
  | [a; b; c] =>
      lon <- Fmt.float_of_string a ;;
      lat <- Fmt.float_of_string b ;;
      alt <- Fmt.float_of_string c ;;
      Ok (lon, lat, alt)
  | [a; b] =>
      _ <- Fmt.float_of_string a ;;
      _ <- Fmt.float_of_string b ;;
      Raise (ValueError "not enough values to unpack (expected 3, got 2)")
  | [a] =>
      _ <- Fmt.float_of_string a ;;
      Raise (ValueError "not enough values to unpack (expected 3, got 1)")
  | _ => Raise (ValueError "not enough values to unpack (expected 3, got 0)")
  end.

(** The body of the placemark loop: [None] stands for [continue]. *)
Definition read_placemark (pm : element) : result (option waypoint) :=
  match find_child (kml "Point") pm with
  | None => Ok None
  | Some point =>
      coord <- text_of (find_child (kml "coordinates") point) ;;
      coord_text <- strip_of coord ;;
      lla <- unpack3 (List.firstn 3 (Str.split "," coord_text)) ;;
      let '(lon, lat, alt) := lla in
      nm <- text_of (find_child (kml "name") pm) ;;
      name <- strip_of nm ;;
      Ok (Some (mkWaypoint name lat lon alt))
  end.

Fixpoint read_placemarks (pms : list element) (waypoints : list waypoint)
  : result (list waypoint) :=
  match pms with
  | [] => Ok waypoints
  | pm :: rest =>
      r <- read_placemark pm ;;
      match r with
      | None => read_placemarks rest waypoints
      | Some w => read_placemarks rest (waypoints ++ [w])%list
      end
  end.

Definition read_title (kml_path : string) (root : element) : result string :=
  match find_desc_child (kml "Document") (kml "name") root with
  | Some title_el => strip_of (text title_el)
  | None => Ok (Path.basename kml_path)
  end.

(** A file holds a well-formed document or something else. *)
Inductive file : Type :=
| NotXml
| Xml (root : element).

(** The file system: the regular files by path. *)
Definition filesystem : Type := string -> option file.

(** [ET.parse(path).getroot()], for a file that can be read. *)
Definition et_parse (fs : filesystem) (path : string) : result element :=
  match fs path with
  | Some (Xml root) => Ok root
  | Some NotXml => Raise ParseError
  | None => Raise FileNotFoundError
  end.

(** [parse_kml] *)
Definition parse_kml (fs : filesystem) (kml_path : string)
  : result (string * list waypoint) :=
  root <- et_parse fs kml_path ;;
  title <- read_title kml_path root ;;
  waypoints <- read_placemarks (findall_desc (kml "Placemark") root) [] ;;
  match waypoints with
  | [] => Raise NO_WAYPOINTS
  | _ => Ok (title, waypoints)
  end.

(** ** Regular expressions

    A backtracking matcher in continuation-passing style for the fragment
    of [re] that the converter uses: character classes, literals compared
    without regard to case (the flag [re.I]), concatenation, a greedy
    [+] on a class, a counted repetition and capturing groups. *)

Module Re.

Inductive regex : Type :=
| Class (p : ascii -> bool)
| Lit (c : ascii)
| Seq (r1 r2 : regex)
| PlusClass (p : ascii -> bool)
| Times (n : nat) (r : regex)
| Group (r : regex).

Definition K : Type := string -> list string -> option (list string).

(** The text consumed between [s] and its suffix [s']. *)
Definition consumed (s s' : string) : string :=
  Str.take (String.length s - String.length s') s.

Fixpoint plus_class (p : ascii -> bool) (s : string) (gs : list string) (k : K)
  : option (list string) :=
  match s with
  | String c s' =>
      if p c
      then match plus_class p s' gs k with
           | Some r => Some r
           | None => k s' gs
           end
      else None
  | EmptyString => None
  end.

Fixpoint run (r : regex) (s : string) (gs : list string) (k : K)
  : option (list string) :=
  match r with
  | Class p =>
      match s with
      | String c s' => if p c then k s' gs else None
      | EmptyString => None
      end
  | Lit a =>
      match s with
      | String c s' =>
          if Ascii.eqb (Str.lower_char c) (Str.lower_char a) then k s' gs else None
      | EmptyString => None
      end
  | Seq r1 r2 => run r1 s gs (fun s' gs' => run r2 s' gs' k)
  | PlusClass p => plus_class p s gs k
  | Times n r1 =>
      (fix times (n : nat) (s : string) (gs : list string) (k : K) :=
         match n with
         | O => k s gs
         | S n' => run r1 s gs (fun s' gs' => times n' s' gs' k)
         end) n s gs k
  | Group r1 => run r1 s gs (fun s' gs' => k s' (gs' ++ [consumed s s'])%list)
  end.

(** [re.match(r, s, re.I)]: a match must start at the first character;
    the result lists the captured groups. *)
Definition match_ (r : regex) (s : string) : option (list string) :=
  run r s [] (fun _ gs => Some gs).

(** [m.group(i)] for [i >= 1]. *)
Definition group (m : list string) (i : nat) : string :=
  List.nth (i - 1) m EmptyString.

End Re.

(** ** The builder *)

(** [(\w{4})\s+to\s+(\w{4})] *)
Definition ROUTE_RE : Re.regex :=
  Re.Seq (Re.Group (Re.Times 4 (Re.Class Str.is_word)))
    (Re.Seq (Re.PlusClass Str.is_space)
       (Re.Seq (Re.Lit "t")
          (Re.Seq (Re.Lit "o")
             (Re.Seq (Re.PlusClass Str.is_space)
                (Re.Group (Re.Times 4 (Re.Class Str.is_word))))))).

Inductive wp_type : Type := Airport | Intersection | User.

Definition wp_type_name (t : wp_type) : string :=
  match t with
  | Airport => "Airport"
  | Intersection => "Intersection"
  | User => "User"
  end.

(** [ET.SubElement(parent, tag).text = s] builds a leaf. *)
Definition leaf (t : string) (s : string) : element :=
  Element t [] (Some s) [].

(** [wpts[0]] and [wpts[-1]] *)
Definition first_wp (wpts : list waypoint) : result waypoint :=
  match wpts with
  | w :: _ => Ok w
  | [] => Raise IndexError
  end.

Definition last_wp (wpts : list waypoint) : result waypoint :=
  match wpts with
  | w :: rest => Ok (List.last rest w)
  | [] => Raise IndexError
  end.

(** The value of the [...LLA] and [WorldPosition] fields. *)
Definition lla_str (lat lon alt : Py.float) : result string :=
  a <- dec_to_dms lat true ;;
  b <- dec_to_dms lon false ;;
  c <- alt_m_to_ft_str alt ;;
  Ok (a ++ "," ++ b ++ "," ++ c).

(** The departure and destination identifiers. *)
Definition route_ids (title : string) (wpts : list waypoint)
  : result (string * string) :=
  match Re.match_ ROUTE_RE title with
  | Some m => Ok (Str.upper (Re.group m 1), Str.upper (Re.group m 2))
  | None =>
      w0 <- first_wp wpts ;;
      wN <- last_wp wpts ;;
      Ok (wp_name w0, wp_name wN)
  end.

(** The branch of the waypoint loop that chooses [wp_type]. *)
Definition classify (idx : Z) (n : Z) (name : string) : wp_type :=
  if (idx =? 0) || (idx =? n - 1) then Airport
  else if (Z.of_nat (String.length name) =? 5) && Str.isalpha name
       then Intersection
       else User.

(** The [ICAO] container, present for two of the three types. *)
Definition icao_of (t : wp_type) (name : string) : list element :=
  match t with
  | Airport => [Element "ICAO" [] None [leaf "ICAOIdent" (Str.take 4 name)]]
  | Intersection => [Element "ICAO" [] None [leaf "ICAOIdent" name]]
  | User => []
  end.

(** One turn of the waypoint loop. *)
Definition atc_waypoint (idx : Z) (n : Z) (w : waypoint) : result element :=
  let t := classify idx n (wp_name w) in
  pos <- lla_str (wp_lat w) (wp_lon w) (wp_alt w) ;;
  Ok (Element "ATCWaypoint" [("id", wp_name w)] None
        ([leaf "ATCWaypointType" (wp_type_name t); leaf "WorldPosition" pos]
           ++ icao_of t (wp_name w))%list).

Fixpoint atc_waypoints (idx : Z) (n : Z) (wpts : list waypoint)
  : result (list element) :=
  match wpts with
  | [] => Ok []
  | w :: rest =>
      e <- atc_waypoint idx n w ;;
      es <- atc_waypoints (idx + 1) n rest ;;
      Ok (e :: es)
  end.

(** [build_pln_xml] *)
Definition build_pln_xml (title : string) (wpts : list waypoint)
  : result element :=
  ids <- route_ids title wpts ;;
  let '(dep_id, dest_id) := ids in
  w0 <- first_wp wpts ;;
  wN <- last_wp wpts ;;
  dep_lla <- lla_str (wp_lat w0) (wp_lon w0) (wp_alt w0) ;;
  dest_lla <- lla_str (wp_lat wN) (wp_lon wN) (wp_alt wN) ;;
  nodes <- atc_waypoints 0 (Z.of_nat (List.length wpts)) wpts ;;
  Ok (Element "SimBase.Document" [("Type", "AceXML"); ("version", "1,0")] None
        [leaf "Descr" "AceXML Document";
         Element "FlightPlan.FlightPlan" [] None
           ([leaf "Title" title;
             leaf "FPType" "IFR";
             leaf "RouteType" "Direct";
             leaf "CruisingAlt" "00000";
             leaf "DepartureID" dep_id;
             leaf "DepartureLLA" dep_lla;
             leaf "DestinationID" dest_id;
             leaf "DestinationLLA" dest_lla;
             leaf "Descr" (title ++ " Created by KML2MSFS");
             leaf "DepartureName" dep_id;
             leaf "DestinationName" dest_id;
             Element "AppVersion" [] None
               [leaf "AppVersionMajor" "11"; leaf "AppVersionBuild" "282174"]]
              ++ nodes)%list]).

(** ** The program *)

(** [os.path.isfile] *)
Definition isfile (fs : filesystem) (path : string) : bool :=
  match fs path with Some _ => true | None => false end.

(** [write_pln]: the document is serialised and stored at [out_path].
    The model is that of a write that succeeds; what the file holds is
    kept as the document, not as its bytes. *)
Definition write_pln (fs : filesystem) (root : element) (out_path : string)
  : filesystem :=
  fun p => if String.eqb p out_path then Some (Xml root) else fs p.

(** How a run ends: normally with the lines printed, or with an exception
    that nothing catches. *)
Inductive outcome : Type :=
| Returned (printed : list string)
| Uncaught (e : exn).

(** [main], from the line typed at the prompt and the file system before
    to the outcome and the file system after. *)
Definition main (typed : string) (fs : filesystem) : outcome * filesystem :=
  let kml_path := Str.strip_char "'" (Str.strip_char "034" (Str.strip typed)) in
  if negb (isfile fs kml_path)
  then (Returned ["找不到文件: " ++ kml_path], fs)
  else
    match parse_kml fs kml_path with
    | Raise e => (Uncaught e, fs)
    | Ok (title, waypoints) =>
        match build_pln_xml title waypoints with
        | Raise e => (Uncaught e, fs)
        | Ok pln_root =>
            let out_path := fst (Path.splitext kml_path) ++ "_MSFS2020.pln" in
            (Returned ["✅ 已生成: " ++ out_path],
             write_pln fs pln_root out_path)
        end
    end.

(** ** Reading the output back

    Observations on formatted strings and on the built document, in which
    the properties of the converter are stated. *)

(** A pattern in which [D] stands for any decimal digit and every other
    character for itself. *)
Fixpoint matches_shape (pat s : string) : bool :=
  match pat, s with
  | EmptyString, EmptyString => true
  | String p pat', String c s' =>
      (if Ascii.eqb p "D" then Str.is_digit c else Ascii.eqb p c)
      && matches_shape pat' s'
  | _, _ => false
  end.

(** The longest prefix of digits and what follows it. *)
Fixpoint span_digits (s : string) : string * string :=
  match s with
  | String c s' =>
      if Str.is_digit c
      then let '(ds, rest) := span_digits s' in (String c ds, rest)
      else (EmptyString, s)
  | EmptyString => (EmptyString, EmptyString)
  end.

(** [s] without the prefix [pre], when it has it. *)
Fixpoint drop_prefix (pre s : string) : option string :=
  match pre, s with
  | EmptyString, _ => Some s
  | String a pre', String c s' =>
      if Ascii.eqb a c then drop_prefix pre' s' else None
  | _, EmptyString => None
  end.

(** The fields of a DMS string: hemisphere letter, degrees, minutes and
    the seconds in hundredths. *)
Definition read_dms (s : string) : option (ascii * Z * Z * Z) :=
  match s with
  | EmptyString => None
  | String hem s1 =>
      let '(dd, r1) := span_digits s1 in
      match drop_prefix (DEGREE_SIGN ++ " ") r1 with
      | None => None
      | Some r2 =>
          let '(mm, r3) := span_digits r2 in
          match drop_prefix "' " r3 with
          | None => None
          | Some r4 =>
              let '(ss, r5) := span_digits r4 in
              match drop_prefix "." r5 with
              | None => None
              | Some r6 =>
                  let '(cc, r7) := span_digits r6 in
                  match Str.parse_digits dd, Str.parse_digits mm,
                        Str.parse_digits ss, Str.parse_digits cc with
                  | Some d, Some m, Some sec, Some c =>
                      if String.eqb r7 DQUOTE && (String.length cc =? 2)%nat
                      then Some (hem, d, m, 100 * sec + c)
                      else None
                  | _, _, _, _ => None
                  end
              end
          end
      end
  end.

(** The decimal degrees that a DMS string denotes: degrees, minutes and
    seconds recombined, negative in the southern and western hemispheres. *)
Definition dms_value (s : string) : option Q :=
  match read_dms s with
  | Some (hem, d, m, c) =>
      let q := (inject_Z d + inject_Z m / 60 + inject_Z c / 360000)%Q in
      if Ascii.eqb hem "S" || Ascii.eqb hem "W" then Some (- q)%Q else Some q
  | None => None
  end.

(** The hemisphere letter that the sign of a value calls for. *)
Definition hemisphere (v : Q) (is_lat : bool) : ascii :=
  if Qle_bool 0 v then (if is_lat then "N" else "E")
  else (if is_lat then "S" else "W").

(** The flight-plan node of a built document and its fields. *)
Definition flight_plan (root : element) : option element :=
  find_child "FlightPlan.FlightPlan" root.

Definition child_text (t : string) (e : element) : option string :=
  match find_child t e with
  | Some c => text c
  | None => None
  end.

Definition field (t : string) (root : element) : option string :=
  match flight_plan root with
  | Some fp => child_text t fp
  | None => None
  end.

Definition waypoint_nodes (root : element) : list element :=
  match flight_plan root with
  | Some fp => findall_child "ATCWaypoint" fp
  | None => []
  end.

Fixpoint get_attr (k : string) (a : list (string * string)) : option string :=
  match a with
  | [] => None
  | (k', v) :: a' => if String.eqb k' k then Some v else get_attr k a'
  end.


(** A waypoint the formatter can convert: finite binary64 coordinates and
    an altitude whose value in feet is finite. *)
Definition convertible (w : waypoint) : bool :=
  Py.is_binary64 (wp_lat w) && Py.is_finite (wp_lat w)
  && Py.is_binary64 (wp_lon w) && Py.is_finite (wp_lon w)
  && Py.is_finite (Py.fmul (wp_alt w) FT_PER_M).


(** ** Notions used in the statements and in the proofs *)

(** A record [mrs] stands for [m] shifted right by [n >= 1] bits, with
    [half = 2^(n-1)]: the round bit tells whether the remainder reaches
    one half, the sticky bit whether anything lies beyond. *)
Definition shifted (m half : Z) (mrs : shr_record) : Prop :=
  0 <= shr_m mrs
  /\ exists t, 0 <= t < half
     /\ m = shr_m mrs * (2 * half) + (if shr_r mrs then half else 0) + t
     /\ shr_s mrs = negb (t =? 0).

(** What rounding the exact value [p * 2^e] with sign [s] yields: the
    mantissa is brought to the exponent [e + n] prescribed by the format,
    [m1] is one of the two neighbours of [p / 2^n], the nearer one, and the
    result carries [m1] at that exponent or, after a carry, at the next. *)
Definition rounds_to (s : bool) (p : positive) (e : Z) (r : spec_float) : Prop :=
  let f := SpecFloat.fexp Py.prec Py.emax (Zdigits2 (Zpos p) + e) in
  let n := Z.max 0 (f - e) in
  let q := Zpos p / 2 ^ n in
  exists m1,
    (m1 = q \/ m1 = q + 1)
    /\ 2 * Z.abs (m1 * 2 ^ n - Zpos p) <= 2 ^ n
    /\ (Zpos p mod 2 ^ n = 0 -> m1 = q)
    /\ ((m1 = 0 /\ r = S754_zero s)
        \/ exists m2 e2,
             Zpos m2 * 2 ^ (e2 - (e + n)) = m1
             /\ (e2 = e + n \/ (e2 = e + n + 1 /\ m1 = q + 1))
             /\ (e <= f -> canonical_mantissa Py.prec Py.emax m2 e2 = true)
             /\ r = if e2 <=? Py.emax - Py.prec
                    then S754_finite s m2 e2 else S754_infinity s).

(** The route pattern in words: four word characters (letters, digits or
    underscore), whitespace, the word [to] in any case, whitespace, four
    word characters, from the first character of the title on. *)
Definition route_phrase (title a b : string) : Prop :=
  exists ws1 t o ws2 rest,
    title = a ++ ws1 ++ String t (String o (ws2 ++ b ++ rest))
    /\ String.length a = 4%nat /\ Str.forallb Str.is_word a = true
    /\ ws1 <> "" /\ Str.forallb Str.is_space ws1 = true
    /\ Str.lower_char t = "t"%char /\ Str.lower_char o = "o"%char
    /\ ws2 <> "" /\ Str.forallb Str.is_space ws2 = true
    /\ String.length b = 4%nat /\ Str.forallb Str.is_word b = true.



(** The route pattern matched by hand, one character class after another. *)
Definition route_split (title : string) : option (string * string) :=
  match title with
  | String c1 (String c2 (String c3 (String c4 (String w s5)))) =>
      if Str.is_word c1 && Str.is_word c2 && Str.is_word c3 && Str.is_word c4
         && Str.is_space w
      then match Str.lstrip Str.is_space s5 with
           | String t (String o (String w2 s6)) =>
               if Ascii.eqb (Str.lower_char t) "t"
                  && Ascii.eqb (Str.lower_char o) "o" && Str.is_space w2
               then match Str.lstrip Str.is_space s6 with
                    | String d1 (String d2 (String d3 (String d4 _))) =>
                        if Str.is_word d1 && Str.is_word d2
                           && Str.is_word d3 && Str.is_word d4
                        then Some (String c1 (String c2 (String c3 (String c4 ""))),
                                   String d1 (String d2 (String d3 (String d4 ""))))
                        else None
                    | _ => None
                    end
               else None
           | _ => None
           end
      else None
  | _ => None
  end.

(** The document that [build_pln_xml] assembles from its parts. *)
Definition pln_document (title dep_id dest_id dep_lla dest_lla : string)
  (nodes : list element) : element :=
  Element "SimBase.Document" [("Type", "AceXML"); ("version", "1,0")] None
    [leaf "Descr" "AceXML Document";
     Element "FlightPlan.FlightPlan" [] None
       ([leaf "Title" title;
         leaf "FPType" "IFR";
         leaf "RouteType" "Direct";
         leaf "CruisingAlt" "00000";
         leaf "DepartureID" dep_id;
         leaf "DepartureLLA" dep_lla;
         leaf "DestinationID" dest_id;
         leaf "DestinationLLA" dest_lla;
         leaf "Descr" (title ++ " Created by KML2MSFS");
         leaf "DepartureName" dep_id;
         leaf "DestinationName" dest_id;
         Element "AppVersion" [] None
           [leaf "AppVersionMajor" "11"; leaf "AppVersionBuild" "282174"]]
          ++ nodes)%list].

(** The waypoint node of a waypoint of type [t] at position [pos]. *)
Definition waypoint_node (t : wp_type) (name pos : string) : element :=
  Element "ATCWaypoint" [("id", name)] None
    ([leaf "ATCWaypointType" (wp_type_name t); leaf "WorldPosition" pos]
       ++ icao_of t name)%list.

(** Sample data: a waypoint given by the texts of its coordinates. *)
Definition float_lit (s : string) : Py.float :=
  match Fmt.float_of_string s with
  | Ok f => f
  | Raise _ => S754_nan
  end.

Definition sample_wp (name lat lon alt : string) : waypoint :=
  mkWaypoint name (float_lit lat) (float_lit lon) (float_lit alt).

Definition KLAX : waypoint := sample_wp "KLAX" "33.9425" "-118.408" "38.1".
Definition BRAVO : waypoint := sample_wp "BRAVO" "34.5" "-117.9" "1500.0".
Definition KJFK : waypoint := sample_wp "KJFK" "40.6398" "-73.7789" "4.0".
Definition ALPHA : waypoint := sample_wp "ALPHA" "33.9425" "-118.408" "38.1".
Definition ZULU5 : waypoint := sample_wp "ZULU5" "40.6398" "-73.7789" "4.0".


(** Sample documents in the KML namespace. *)
Definition kml_node (name : string) (cs : list element) : element :=
  Element (kml name) [] None cs.

Definition kml_text (name t : string) : element :=
  Element (kml name) [] (Some t) [].

Definition point_placemark (name coords : string) : element :=
  kml_node "Placemark"
    [kml_text "name" name; kml_node "Point" [kml_text "coordinates" coords]].

Definition line_placemark (name coords : string) : element :=
  kml_node "Placemark"
    [kml_text "name" name; kml_node "LineString" [kml_text "coordinates" coords]].

(** A named document with three points and a path. *)
Definition doc_route : element :=
  kml_node "kml"
    [kml_node "Document"
       [kml_text "name" " KLAX to KJFK ";
        point_placemark "KLAX" "-118.408,33.9425,38.1";
        kml_node "Folder"
          [point_placemark " BRAVO " " -117.9,34.5,1500.0,7 ";
           line_placemark "track" "1,2,3 4,5,6"];
        point_placemark "KJFK" "-73.7789,40.6398,4.0"]].


(** A named document with a path and no point. *)
Definition doc_no_points : element :=
  kml_node "kml"
    [kml_node "Document"
       [kml_text "name" "Trip"; line_placemark "track" "1,2,3 4,5,6"]].

(** A document whose name element is empty, with no placemark at all. *)
Definition doc_empty_name : element :=
  kml_node "kml" [kml_node "Document" [kml_node "name" []]].

(** The placemarks that qualify as waypoints: those with a point. *)
Definition qualifying (root : element) : list element :=
  List.filter
    (fun pm => match find_child (kml "Point") pm with
               | Some _ => true
               | None => false
               end)
    (findall_desc (kml "Placemark") root).

(** A file system holding one file. *)
Definition one_file (path : string) (content : file) : filesystem :=
  fun p => if String.eqb p path then Some content else None.


(** The seconds in hundredths, as the format [05.2f] prints them. *)
Definition hundredths (x : Py.float) : Z :=
  match x with
  | S754_finite _ m e => Py.round_half_even (100 * Zpos m) e
  | _ => 0
  end.

(** ** Further notions used in the statements *)

(** The exception of [int(x)] and [round(x)] on a NaN. *)
Definition NAN_TO_INT : exn := ValueError "cannot convert float NaN to integer".

(** The exceptions that the arithmetic of the formatters can raise. *)
Definition arithmetic_error (e : exn) : Prop :=
  e = NAN_TO_INT \/ e = OverflowError.

(** The text of the [WorldPosition] field of a waypoint node. *)
Definition world_position (node : element) : option string :=
  child_text "WorldPosition" node.

(** A waypoint whose position can be printed: finite latitude and
    longitude, and an altitude whose value in feet is finite. *)
Definition finite_position (w : waypoint) : bool :=
  Py.is_finite (wp_lat w) && Py.is_finite (wp_lon w)
  && Py.is_finite (Py.fmul (wp_alt w) FT_PER_M).

(** The characters of an identifier taken from the title: a word
    character that is not a lower-case letter. *)
Definition is_code_char (c : ascii) : bool :=
  Str.is_word c && negb (Str.is_lower c).

(** A text without the separator of the position fields. *)
Definition no_comma (s : string) : bool :=
  Str.forallb (fun c => negb (Ascii.eqb c ",")) s.

(** Reading a signed integer: an optional minus sign, then digits. *)
Definition parse_int (s : string) : option Z :=
  match s with
  | String c r =>
      if Ascii.eqb c "-" then option_map Z.opp (Str.parse_digits r)
      else Str.parse_digits s
  | EmptyString => None
  end.

(** The feet printed in an altitude string: what stands between the
    leading plus sign and the three characters of the suffix. *)
Definition read_alt (s : string) : option Z :=
  match s with
  | String c r =>
      if Ascii.eqb c "+"
      then parse_int (Str.slice 0 (Z.of_nat (String.length r) - 3) r)
      else None
  | EmptyString => None
  end.

(** A placemark with a point, the kind the reader keeps. *)
Definition has_point (pm : element) : bool :=
  match find_child (kml "Point") pm with
  | Some _ => true
  | None => false
  end.

(** The name of a placemark as the reader takes it: the stripped text of
    its name element. *)
Definition name_of (pm : element) : option string :=
  option_map Str.strip (child_text (kml "name") pm).

(** The comma-separated fields of the coordinates of its point. *)
Definition fields_of (pm : element) : option (list string) :=
  match find_child (kml "Point") pm with
  | Some point =>
      option_map (fun t => Str.split "," (Str.strip t))
        (child_text (kml "coordinates") point)
  | None => None
  end.

(** A placemark the reader can turn into a waypoint: a name with text,
    coordinates with text and at least three fields, of which the first
    three are numbers. *)
Definition placemark_ok (pm : element) : bool :=
  match fields_of pm, name_of pm with
  | Some (a :: b :: c :: _), Some _ =>
      is_ok (Fmt.float_of_string a) && is_ok (Fmt.float_of_string b)
      && is_ok (Fmt.float_of_string c)
  | _, _ => false
  end.

(** A text in ASCII, or no text at all. *)
Definition ascii_text (t : option string) : bool :=
  match t with
  | Some s => Str.isascii s
  | None => true
  end.

(** A placemark whose name is in ASCII. *)
Definition ascii_name (pm : element) : bool :=
  ascii_text (child_text (kml "name") pm).

(** A placemark the coordinates of whose point are in ASCII. *)
Definition ascii_coordinates (pm : element) : bool :=
  match find_child (kml "Point") pm with
  | Some point => ascii_text (child_text (kml "coordinates") point)
  | None => true
  end.

(** A [ValueError] other than the no-waypoints error: the exceptions of
    the conversion and of the unpacking of the coordinates. *)
Definition value_error (e : exn) : Prop :=
  (exists msg, e = ValueError msg) /\ e <> NO_WAYPOINTS.

(** A document whose title can be read: it has no document-level name,
    or one with text. *)
Definition title_ok (root : element) : bool :=
  match find_desc_child (kml "Document") (kml "name") root with
  | Some el => match text el with Some _ => true | None => false end
  | None => true
  end.

(** The sample route without its path and without its folder. *)
Definition doc_points_only : element :=
  kml_node "kml"
    [kml_node "Document"
       [kml_text "name" "KLAX to KJFK";
        point_placemark "KLAX" "-118.408,33.9425,38.1";
        point_placemark " BRAVO " " -117.9,34.5,1500.0,7 ";
        point_placemark "KJFK" "-73.7789,40.6398,4.0"]].

(** A document whose second point has a longitude and a latitude but no
    altitude. *)
Definition doc_two_fields : element :=
  kml_node "kml"
    [kml_node "Document"
       [point_placemark "KLAX" "-118.408,33.9425,38.1";
        point_placemark "KJFK" "-73.7789,40.6398"]].

(** A placemark whose position can be printed: the first three fields
    of its coordinates are a finite longitude, a finite latitude and an
    altitude whose value in feet is finite. *)
Definition placemark_finite (pm : element) : bool :=
  match fields_of pm with
  | Some (a :: b :: c :: _) =>
      match Fmt.float_of_string a, Fmt.float_of_string b,
            Fmt.float_of_string c with
      | Ok lon, Ok lat, Ok alt =>
          Py.is_finite lon && Py.is_finite lat
          && Py.is_finite (Py.fmul alt FT_PER_M)
      | _, _, _ => false
      end
  | _ => false
  end.

(** A document with a point 1e308 m above the sea. *)
Definition doc_far : element :=
  kml_node "kml"
    [kml_node "Document"
       [point_placemark "KLAX" "-118.408,33.9425,38.1";
        point_placemark "FAR" "-73.7789,40.6398,1e308"]].

(** A document with a point whose latitude is not a number. *)
Definition doc_nan : element :=
  kml_node "kml"
    [kml_node "Document"
       [point_placemark "KLAX" "-118.408,nan,38.1"]].

(** The sample route written in the namespace of KML 2.1. *)
Definition doc_kml21 : element :=
  let q := fun name => "{http://earth.google.com/kml/2.1}" ++ name in
  Element (q "kml") [] None
    [Element (q "Document") [] None
       [Element (q "name") [] (Some "KLAX to KJFK") [];
        Element (q "Placemark") [] None
          [Element (q "name") [] (Some "KLAX") [];
           Element (q "Point") [] None
             [Element (q "coordinates") [] (Some "-118.408,33.9425,38.1") []]]]].

(** The path that [main] reads, from the line typed at the prompt. *)
Definition typed_path (typed : string) : string :=
  Str.strip_char "'" (Str.strip_char "034" (Str.strip typed)).

(** The path that [main] writes, from the path that it reads. *)
Definition output_path (kml_path : string) : string :=
  fst (Path.splitext kml_path) ++ "_MSFS2020.pln".

(** A non-empty text whose first and last character are not among the
    characters [p]: a strip of [p] leaves it as it is. *)
Definition clean_ends (p : ascii -> bool) (s : string) : bool :=
  match s, Str.rev s with
  | String a _, String b _ => negb (p a) && negb (p b)
  | _, _ => false
  end.

(** The characters that the three strips of [main] may remove at the
    ends of a line: a blank, a double quote, a single quote, or a byte of
    a character outside ASCII, which may belong to a blank of another
    script. *)
Definition strippable (c : ascii) : bool :=
  Str.is_space c || Ascii.eqb "034" c || Ascii.eqb "'" c
  || (128 <=? N_of_ascii c)%N.

(** A text without the character [c]. *)
Definition lacks (c : ascii) (s : string) : bool :=
  Str.forallb (fun a => negb (Ascii.eqb a c)) s.

(** * Properties *)

(** ** The model on concrete values *)

Section Checks.

Example FT_PER_M_literal : Fmt.float_of_string "3.28084" = Ok FT_PER_M.
Proof. reflexivity. Qed.

Example FT_PER_M_nearest :
  (Qabs (Py.Q_of_float FT_PER_M - (328084 # 100000)) <= 2 ^ (-52))%Q.
Proof. vm_compute. discriminate. Qed.

Example SIXTY_literal : Fmt.float_of_string "60" = Ok SIXTY.
Proof. reflexivity. Qed.

Example float_of_string_checks :
  List.map Fmt.float_of_string ["0.1"; "-0.0"; "1e23"; "5e-324"; "1e309"; " 1_0.5e+1 "; "nan"]
  = [Ok (S754_finite false 7205759403792794 (-56)); Ok (S754_zero true);
     Ok (S754_finite false 5960464477539062 24); Ok (S754_finite false 1 (-1074));
     Ok (S754_infinity false); Ok (S754_finite false 7388718138654720 (-46));
     Ok S754_nan].
Proof. vm_compute. reflexivity. Qed.

Example dec_to_dms_checks :
  dec_to_dms (float_lit "33.9425") true
  = Ok ("N33" ++ DEGREE_SIGN ++ " 56' 33.00" ++ DQUOTE)
  /\ dec_to_dms (float_lit "-118.408") false
     = Ok ("W118" ++ DEGREE_SIGN ++ " 24' 28.80" ++ DQUOTE)
  /\ dec_to_dms (float_lit "-0.0") true
     = Ok ("N0" ++ DEGREE_SIGN ++ " 0' 00.00" ++ DQUOTE)
  /\ dec_to_dms (float_lit "nan") true
     = Raise (ValueError "cannot convert float NaN to integer")
  /\ dec_to_dms (float_lit "inf") false = Raise OverflowError.
Proof. repeat split; vm_compute; reflexivity. Qed.

Example format_checks :
  List.map (fun s => Fmt.format_05_2f (float_lit s))
    ["0.125"; "0.375"; "5.2"; "59.995"; "59.9951"; "123.456"]
  = ["00.12"; "00.38"; "05.20"; "59.99"; "60.00"; "123.46"].
Proof. vm_compute. reflexivity. Qed.

Example splitext_checks :
  List.map Path.splitext ["a/b.kml"; "a.b/c"; ".bashrc"; "foo.tar.gz"]
  = [("a/b", ".kml"); ("a.b/c", ""); (".bashrc", ""); ("foo.tar", ".gz")].
Proof. reflexivity. Qed.

(** The scenario of the three waypoints KLAX, BRAVO and KJFK. *)
Example route_scenario :
  exists root,
    (wps <- parse_kml (one_file "routes/flight.kml" (Xml doc_route)) "routes/flight.kml" ;;
     build_pln_xml (fst wps) (snd wps)) = Ok root
    /\ field "DepartureID" root = Some "KLAX"
    /\ field "DestinationID" root = Some "KJFK"
    /\ field "DepartureLLA" root
       = Some ("N33" ++ DEGREE_SIGN ++ " 56' 33.00" ++ DQUOTE ++ ",W118"
                 ++ DEGREE_SIGN ++ " 24' 28.80" ++ DQUOTE ++ ",+000125.00")
    /\ List.map (child_text "ATCWaypointType") (waypoint_nodes root)
       = [Some "Airport"; Some "Intersection"; Some "Airport"].
Proof. eexists. repeat split; vm_compute; reflexivity. Qed.

End Checks.

(** ** Strings and decimal digits *)

Section StringFacts.

Lemma length_app (a b : string) :
  String.length (a ++ b) = (String.length a + String.length b)%nat.
Proof. induction a as [|c a IH]; simpl; [reflexivity | now rewrite IH]. Qed.

Lemma app_assoc (a b c : string) : (a ++ b) ++ c = a ++ (b ++ c).
Proof. induction a as [|x a IH]; simpl; [reflexivity | now rewrite IH]. Qed.

Lemma app_nil_r (a : string) : a ++ "" = a.
Proof. induction a as [|x a IH]; simpl; [reflexivity | now rewrite IH]. Qed.

Lemma forallb_app (p : ascii -> bool) (a b : string) :
  Str.forallb p (a ++ b) = Str.forallb p a && Str.forallb p b.
Proof.
  induction a as [|c a IH]; simpl; [reflexivity|].
  rewrite IH. now rewrite andb_assoc.
Qed.

Lemma length_repeat (c : ascii) (n : nat) : String.length (Str.repeat c n) = n.
Proof. induction n as [|n IH]; simpl; [reflexivity | now rewrite IH]. Qed.

Lemma forallb_repeat (p : ascii -> bool) (c : ascii) (n : nat) :
  p c = true -> Str.forallb p (Str.repeat c n) = true.
Proof. intros H. induction n as [|n IH]; simpl; [reflexivity | now rewrite H, IH]. Qed.

Lemma length_zfill (w : nat) (s : string) :
  (String.length s <= w)%nat -> String.length (Str.zfill w s) = w.
Proof.
  intros H. unfold Str.zfill. rewrite length_app, length_repeat. lia.
Qed.

Lemma forallb_zfill (w : nat) (s : string) :
  Str.forallb Str.is_digit s = true ->
  Str.forallb Str.is_digit (Str.zfill w s) = true.
Proof.
  intros H. unfold Str.zfill. rewrite forallb_app, H.
  now rewrite forallb_repeat.
Qed.

Lemma is_digit_digit_char (d : Z) :
  0 <= d < 10 -> Str.is_digit (Str.digit_char d) = true.
Proof.
  intros H. unfold Str.is_digit, Str.digit_char.
  rewrite N_ascii_embedding by lia.
  apply andb_true_iff; split; apply N.leb_le; lia.
Qed.

Lemma value_digit_char (d : Z) :
  0 <= d < 10 -> Z.of_N (N_of_ascii (Str.digit_char d)) - 48 = d.
Proof.
  intros H. unfold Str.digit_char. rewrite N_ascii_embedding by lia. lia.
Qed.

Lemma parse_digits_acc_app (a b : string) (acc : Z) :
  Str.forallb Str.is_digit a = true ->
  Str.parse_digits_acc (a ++ b) acc =
  match Str.parse_digits_acc a acc with
  | Some v => Str.parse_digits_acc b v
  | None => None
  end.
Proof.
  revert acc. induction a as [|c a IH]; intros acc H; simpl in *.
  - reflexivity.
  - apply andb_true_iff in H as [Hc Ha]. rewrite Hc. now apply IH.
Qed.

Lemma parse_digits_acc_shift (s : string) :
  forall a b va,
    Str.parse_digits_acc s a = Some va ->
    Str.parse_digits_acc s b
    = Some (va + (b - a) * 10 ^ Z.of_nat (String.length s)).
Proof.
  induction s as [|c s IH]; intros a b va H.
  - cbn in *. injection H as <-. f_equal. lia.
  - cbn [Str.parse_digits_acc] in *. destruct (Str.is_digit c); [|discriminate].
    rewrite (IH _ (10 * b + (Z.of_N (N_of_ascii c) - 48)) _ H). f_equal.
    cbn [String.length]. rewrite Nat2Z.inj_succ, Z.pow_succ_r by lia. ring.
Qed.

Lemma parse_digits_acc_zeros (n : nat) (acc : Z) :
  Str.parse_digits_acc (Str.repeat "0" n) acc = Some (acc * 10 ^ Z.of_nat n).
Proof.
  revert acc. induction n as [|n IH]; intros acc.
  - simpl. f_equal. lia.
  - cbn [Str.repeat Str.parse_digits_acc].
    change (Str.is_digit "0") with true. cbv iota.
    rewrite IH. f_equal.
    change (Z.of_N (N_of_ascii "0") - 48) with 0.
    rewrite Nat2Z.inj_succ, Z.pow_succ_r by lia. ring.
Qed.

(** The digits of [n]: all decimal, no leading zero, and they read back
    as [n] after any accumulated prefix. *)
Lemma digits_fuel_spec (fuel : nat) :
  forall n acc, 0 <= n < 2 ^ (Z.of_nat fuel + 1) ->
  exists ds,
    Str.digits_fuel fuel n acc = ds ++ acc
    /\ Str.forallb Str.is_digit ds = true
    /\ (0 < String.length ds)%nat
    /\ n < 10 ^ Z.of_nat (String.length ds)
    /\ (0 < n -> 10 ^ (Z.of_nat (String.length ds) - 1) <= n)
    /\ (n = 0 -> ds = "0")
    /\ forall a, Str.parse_digits_acc ds a
                 = Some (a * 10 ^ Z.of_nat (String.length ds) + n).
Proof.
  induction fuel as [|fuel IH]; intros n acc Hn.
  - assert (n < 10) by (change (2 ^ (Z.of_nat 0 + 1)) with 2 in Hn; lia).
    exists (String (Str.digit_char n) "").
    simpl String.length.
    split; [cbn [Str.digits_fuel]; now rewrite Z.mod_small by lia|].
    split; [cbn [Str.forallb]; now rewrite is_digit_digit_char by lia|].
    split; [lia|]. split; [simpl; lia|]. split; [simpl; lia|].
    split; [intros ->; reflexivity|].
    intros a. cbn [Str.parse_digits_acc].
    rewrite is_digit_digit_char, value_digit_char by lia. f_equal.
      change (10 ^ Z.of_nat 1) with 10. lia.
  - cbn [Str.digits_fuel]. destruct (Z.ltb_spec n 10) as [Hlt|Hge].
    + exists (String (Str.digit_char n) "").
      simpl String.length.
      split; [now rewrite Z.mod_small by lia|].
      split; [cbn [Str.forallb]; now rewrite is_digit_digit_char by lia|].
      split; [lia|]. split; [simpl; lia|]. split; [simpl; lia|].
      split; [intros ->; reflexivity|].
      intros a. cbn [Str.parse_digits_acc].
      rewrite is_digit_digit_char, value_digit_char by lia. f_equal.
      change (10 ^ Z.of_nat 1) with 10. lia.
    + assert (Hq : 0 <= n / 10 < 2 ^ (Z.of_nat fuel + 1)).
      { split; [apply Z.div_pos; lia|].
        apply Z.div_lt_upper_bound; [lia|].
        rewrite Nat2Z.inj_succ in Hn.
        replace (Z.succ (Z.of_nat fuel) + 1) with (Z.succ (Z.of_nat fuel + 1)) in Hn by lia.
        rewrite Z.pow_succ_r in Hn by lia. lia. }
      destruct (IH (n / 10) (String (Str.digit_char (n mod 10)) acc) Hq)
        as (ds & Heq & Hdig & Hlen & Hub & Hlb & _ & Hparse).
      assert (Hm : 0 <= n mod 10 < 10) by (apply Z.mod_pos_bound; lia).
      exists (ds ++ String (Str.digit_char (n mod 10)) "").
      rewrite length_app. simpl String.length.
      replace (Z.of_nat (String.length ds + 1)) with (Z.of_nat (String.length ds) + 1) by lia.
      rewrite Z.pow_add_r, Z.pow_1_r by lia.
      replace (Z.of_nat (String.length ds) + 1 - 1) with (Z.of_nat (String.length ds)) by lia.
      pose proof (Z.div_mod n 10 ltac:(lia)) as Hdm.
      assert (Hq0 : 0 < n / 10) by (apply Z.div_str_pos; lia).
      specialize (Hlb Hq0).
      replace (10 ^ Z.of_nat (String.length ds))
        with (10 * 10 ^ (Z.of_nat (String.length ds) - 1)) in *
        by (rewrite <- Z.pow_succ_r by lia; f_equal; lia).
      repeat split.
      * rewrite Heq. now rewrite app_assoc.
      * rewrite forallb_app, Hdig. cbn [Str.forallb]. now rewrite is_digit_digit_char.
      * lia.
      * lia.
      * intros _. lia.
      * intros ->. simpl in Hge. lia.
      * intros a. rewrite parse_digits_acc_app by assumption.
        rewrite Hparse. cbn [Str.parse_digits_acc].
        rewrite is_digit_digit_char, value_digit_char by lia. f_equal. lia.
Qed.

Lemma digits_spec (n : Z) :
  0 <= n ->
  Str.forallb Str.is_digit (Str.digits n) = true
  /\ (0 < String.length (Str.digits n))%nat
  /\ n < 10 ^ Z.of_nat (String.length (Str.digits n))
  /\ (0 < n -> 10 ^ (Z.of_nat (String.length (Str.digits n)) - 1) <= n)
  /\ (n = 0 -> Str.digits n = "0")
  /\ forall a, Str.parse_digits_acc (Str.digits n) a
               = Some (a * 10 ^ Z.of_nat (String.length (Str.digits n)) + n).
Proof.
  intros Hn. unfold Str.digits.
  assert (Hb : 0 <= n < 2 ^ (Z.of_nat (Z.to_nat (Z.log2 n)) + 1)).
  { split; [assumption|].
    rewrite Z2Nat.id by apply Z.log2_nonneg.
    destruct (Z.eq_dec n 0) as [->|Hz]; [reflexivity|].
    replace (Z.log2 n + 1) with (Z.succ (Z.log2 n)) by lia.
    apply Z.log2_spec. lia. }
  destruct (digits_fuel_spec _ n "" Hb) as (ds & Heq & H).
  rewrite Heq, app_nil_r. exact H.
Qed.

End StringFacts.

(** ** Powers of two and exact values *)

Lemma inject_Z_sub (a b : Z) : (inject_Z (a - b) == inject_Z a - inject_Z b)%Q.
Proof.
  unfold Z.sub. rewrite inject_Z_plus, inject_Z_opp. reflexivity.
Qed.

Ltac push_inject_in H :=
  repeat first [ rewrite inject_Z_plus in H | rewrite inject_Z_sub in H
               | rewrite inject_Z_mult in H | rewrite inject_Z_opp in H ].

Ltac push_inject :=
  repeat first [ rewrite inject_Z_plus | rewrite inject_Z_sub
               | rewrite inject_Z_mult | rewrite inject_Z_opp ].

Section ExactValues.

Open Scope Q_scope.

Lemma Qpow2_pos (e : Z) : 0 < 2 ^ e.
Proof. apply Qpower_0_lt. reflexivity. Qed.

Lemma Qpow2_add (a b : Z) : 2 ^ (a + b) == 2 ^ a * 2 ^ b.
Proof. apply Qpower_plus. discriminate. Qed.

Lemma Qpow2_nonneg (e : Z) : (0 <= e)%Z -> 2 ^ e == inject_Z (2 ^ e).
Proof. intros H. now rewrite Zpower_Qpower. Qed.

Lemma Qpow2_opp (e : Z) : 2 ^ (- e) * 2 ^ e == 1.
Proof. rewrite <- Qpow2_add. now replace (- e + e)%Z with 0%Z by lia. Qed.

Lemma Qpow2_sub (a b : Z) : 2 ^ (a - b) * 2 ^ b == 2 ^ a.
Proof. rewrite <- Qpow2_add. now replace (a - b + b)%Z with a by lia. Qed.

Lemma Qpow2_le (a b : Z) : (a <= b)%Z -> 2 ^ a <= 2 ^ b.
Proof.
  intros H. replace b with ((b - a) + a)%Z by lia. rewrite Qpow2_add.
  assert (1 <= 2 ^ (b - a)).
  { rewrite Qpow2_nonneg by lia. change 1 with (inject_Z 1).
    rewrite <- Zle_Qle. pose proof (Z.pow_pos_nonneg 2 (b - a)). lia. }
  pose proof (Qpow2_pos a). nra.
Qed.

Lemma inject_Z_cond_Zopp (s : bool) (z : Z) :
  inject_Z (cond_Zopp s z) == (if s then - inject_Z z else inject_Z z).
Proof. destruct s; simpl; [now rewrite inject_Z_opp | reflexivity]. Qed.

(** Comparisons of integers carried to the rationals. *)
Lemma Zle_Q (a b : Z) : (a <= b)%Z -> inject_Z a <= inject_Z b.
Proof. intros H. now rewrite <- Zle_Qle. Qed.

Lemma Zlt_Q (a b : Z) : (a < b)%Z -> inject_Z a < inject_Z b.
Proof. intros H. now rewrite <- Zlt_Qlt. Qed.

End ExactValues.

(** ** Rounding to an integer *)

Section RoundHalfEven.

Lemma shiftl_pow2 (a n : Z) : 0 <= n -> Z.shiftl a n = a * 2 ^ n.
Proof. apply Z.shiftl_mul_pow2. Qed.

Lemma shiftr_pow2 (a n : Z) : 0 <= n -> Z.shiftr a n = a / 2 ^ n.
Proof. apply Z.shiftr_div_pow2. Qed.

(** [div_half_even m k] is within one half of [m / 2^k], and even on a tie. *)
Lemma div_half_even_spec (m k : Z) :
  0 <= k ->
  let r := Py.div_half_even m k in
  2 * Z.abs (r * 2 ^ k - m) <= 2 ^ k
  /\ (2 * Z.abs (r * 2 ^ k - m) = 2 ^ k -> Z.even r = true)
  /\ m / 2 ^ k <= r <= m / 2 ^ k + 1.
Proof.
  intros Hk. unfold Py.div_half_even.
  rewrite shiftr_pow2, !shiftl_pow2 by lia.
  assert (Hp : 0 < 2 ^ k) by (apply Z.pow_pos_nonneg; lia).
  pose proof (Z.div_mod m (2 ^ k) ltac:(lia)) as Hdm.
  pose proof (Z.mod_pos_bound m (2 ^ k) Hp) as Hmod.
  set (q := m / 2 ^ k) in *. set (P := 2 ^ k) in *.
  replace (m - q * P) with (m mod P) by lia.
  rewrite Z.mul_1_l.
  destruct (Z.compare_spec (2 * (m mod P)) P) as [He|Hl|Hg]; cbv zeta.
  - destruct (Z.even q) eqn:Hev.
    + repeat split; try lia. intros _. exact Hev.
    + repeat split; try lia. intros _.
      rewrite Z.even_add, Hev. reflexivity.
  - repeat split; lia.
  - repeat split; try lia.
Qed.

Lemma round_half_even_nonneg (m e : Z) : 0 <= m -> 0 <= Py.round_half_even m e.
Proof.
  intros Hm. unfold Py.round_half_even.
  destruct (Z.leb_spec 0 e) as [He|He].
  - rewrite shiftl_pow2 by lia. apply Z.mul_nonneg_nonneg; [lia|].
    apply Z.pow_nonneg; lia.
  - pose proof (div_half_even_spec m (- e) ltac:(lia)) as (_ & _ & Hq).
    cbv zeta in Hq.
    assert (0 <= m / 2 ^ (- e)) by (apply Z.div_pos; [lia | apply Z.pow_pos_nonneg; lia]).
    lia.
Qed.

(** [round_half_even m e] is within one half of [m * 2^e]. *)
Lemma round_half_even_spec (m e : Z) :
  (Qabs (inject_Z (Py.round_half_even m e) - inject_Z m * 2 ^ e) <= 1 # 2)%Q.
Proof.
  unfold Py.round_half_even. destruct (Z.leb_spec 0 e) as [He|He].
  - rewrite shiftl_pow2 by lia. rewrite Qpow2_nonneg by lia.
    rewrite inject_Z_mult.
    setoid_replace (inject_Z m * inject_Z (2 ^ e) - inject_Z m * inject_Z (2 ^ e))%Q
      with 0%Q by ring.
    discriminate.
  - pose proof (div_half_even_spec m (- e) ltac:(lia)) as (Hc & _ & _).
    cbv zeta in Hc. set (r := Py.div_half_even m (- e)) in *.
    assert (HP : (0 < 2 ^ (- e))%Z) by (apply Z.pow_pos_nonneg; lia).
    pose proof (Qpow2_opp e) as Hinv. rewrite (Qpow2_nonneg (- e)) in Hinv by lia.
    pose proof (Qpow2_pos e) as Hpos.
    assert (H1 : (- (2 ^ (- e)) <= 2 * (r * 2 ^ (- e) - m))%Z) by lia.
    assert (H2 : (2 * (r * 2 ^ (- e) - m) <= 2 ^ (- e))%Z) by lia.
    apply Zle_Q in H1, H2. push_inject_in H1. push_inject_in H2.
    apply Zlt_Q in HP.
    set (P := inject_Z (2 ^ (- e))) in *. set (x := (2 ^ e)%Q) in *.
    set (qr := inject_Z r) in *. set (qm := inject_Z m) in *.
    change (inject_Z 2) with 2%Q in *. change (inject_Z 0) with 0%Q in *.
    apply Qabs_Qle_condition. split.
    + assert (E : (qr - qm * x == (qr * P - qm) * x)%Q).
      { setoid_replace ((qr * P - qm) * x)%Q with (qr * (P * x) - qm * x)%Q by ring.
        rewrite Hinv. ring. }
      rewrite E. nra.
    + assert (E : (qr - qm * x == (qr * P - qm) * x)%Q).
      { setoid_replace ((qr * P - qm) * x)%Q with (qr * (P * x) - qm * x)%Q by ring.
        rewrite Hinv. ring. }
      rewrite E. nra.
Qed.

(** [round] returns the integer nearest to the exact value. *)
Lemma round_nearest (x : Py.float) (n : Z) :
  Py.round x = Ok n ->
  (Qabs (inject_Z n - Py.Q_of_float x) <= 1 # 2)%Q.
Proof.
  destruct x as [s|s| |s m e]; cbn [Py.round Py.Q_of_float]; try discriminate.
  - intros [= <-]. vm_compute. discriminate.
  - intros [= <-].
    pose proof (round_half_even_spec (Zpos m) e) as H.
    destruct s; cbn [cond_Zopp].
    + rewrite inject_Z_opp.
      setoid_replace (- inject_Z (Py.round_half_even (Z.pos m) e)
                      - inject_Z (Z.neg m) * 2 ^ e)%Q
        with (- (inject_Z (Py.round_half_even (Z.pos m) e)
                 - inject_Z (Z.pos m) * 2 ^ e))%Q.
      * now rewrite Qabs_opp.
      * change (Z.neg m) with (- Z.pos m)%Z. rewrite inject_Z_opp. ring.
    + exact H.
Qed.

Lemma round_finite (x : Py.float) :
  Py.is_finite x = true -> exists n, Py.round x = Ok n.
Proof. destruct x; simpl; try discriminate; eauto. Qed.

End RoundHalfEven.

(** ** The altitude string *)

Section Altitude.

Lemma length_digits_le (n : Z) (k : nat) :
  0 <= n < 10 ^ Z.of_nat k -> (0 < k)%nat ->
  (String.length (Str.digits n) <= k)%nat.
Proof.
  intros [Hn Hlt] Hk.
  destruct (digits_spec n Hn) as (_ & _ & _ & Hlb & Hz & _).
  destruct (Z.eq_dec n 0) as [->|Hnz].
  - rewrite (Hz eq_refl). simpl. lia.
  - assert (H : 10 ^ (Z.of_nat (String.length (Str.digits n)) - 1) < 10 ^ Z.of_nat k)
      by (specialize (Hlb ltac:(lia)); lia).
    apply Z.pow_lt_mono_r_iff in H; lia.
Qed.

Lemma parse_digits_nonempty (s : string) :
  (0 < String.length s)%nat -> Str.parse_digits s = Str.parse_digits_acc s 0.
Proof. destruct s; simpl; [lia | reflexivity]. Qed.

(** A zero-padded number: the width, only digits, and the value read back. *)
Lemma zfill_digits (k : nat) (n : Z) :
  0 <= n < 10 ^ Z.of_nat k -> (0 < k)%nat ->
  String.length (Str.zfill k (Str.digits n)) = k
  /\ Str.forallb Str.is_digit (Str.zfill k (Str.digits n)) = true
  /\ Str.parse_digits (Str.zfill k (Str.digits n)) = Some n.
Proof.
  intros Hn Hk.
  pose proof (length_digits_le n k Hn Hk) as Hlen.
  destruct (digits_spec n (proj1 Hn)) as (Hdig & _ & _ & _ & _ & Hparse).
  split; [now apply length_zfill|].
  split; [now apply forallb_zfill|].
  rewrite parse_digits_nonempty by (rewrite length_zfill; lia).
  unfold Str.zfill.
  rewrite parse_digits_acc_app by (now apply forallb_repeat).
  rewrite parse_digits_acc_zeros, Hparse. f_equal; lia.
Qed.

Lemma shape_plus6 (d : string) :
  String.length d = 6%nat -> Str.forallb Str.is_digit d = true ->
  matches_shape "+DDDDDD.DD" ("+" ++ d ++ ".00") = true
  /\ Str.slice 1 7 ("+" ++ d ++ ".00") = d.
Proof.
  intros Hl Hd.
  do 6 (destruct d as [|? d]; [discriminate|]).
  destruct d; [|discriminate].
  cbn [Str.forallb] in Hd.
  repeat (apply andb_true_iff in Hd as [? Hd]).
  split; [|reflexivity].
  cbn -[Str.is_digit].
  repeat match goal with H : Str.is_digit _ = true |- _ => rewrite H; clear H end.
  reflexivity.
Qed.

(** C1 (amended): for every altitude whose value in feet is finite, with
    [ft] the integer nearest to the float [alt_m * 3.28084] (ties to
    even), the formatter returns ["+"], then [ft] in the format [06d],
    then [".00"]; for [0 <= ft <= 999999] that is a string of exactly 10
    characters of the shape [+DDDDDD.DD] whose six digits read back as
    [ft]. *)
Theorem C1_alt_format (alt_m : Py.float) :
  Py.is_finite (Py.fmul alt_m FT_PER_M) = true ->
  exists ft s,
    Py.round (Py.fmul alt_m FT_PER_M) = Ok ft
    /\ (Qabs (inject_Z ft - Py.Q_of_float (Py.fmul alt_m FT_PER_M)) <= 1 # 2)%Q
    /\ alt_m_to_ft_str alt_m = Ok s
    /\ s = "+" ++ Str.format_0d 6 ft ++ ".00"
    /\ (0 <= ft <= 999999 ->
        s = "+" ++ Str.zfill 6 (Str.digits ft) ++ ".00"
        /\ String.length s = 10%nat
        /\ matches_shape "+DDDDDD.DD" s = true
        /\ Str.parse_digits (Str.slice 1 7 s) = Some ft).
Proof.
  intros Hfin.
  destruct (round_finite _ Hfin) as [ft Hft].
  exists ft, ("+" ++ Str.format_0d 6 ft ++ ".00").
  split; [exact Hft|].
  split; [now apply round_nearest|].
  split; [unfold alt_m_to_ft_str; now rewrite Hft|].
  split; [reflexivity|].
  intros Hr. unfold Str.format_0d.
  destruct (Z.ltb_spec ft 0) as [?|_]; [lia|].
  destruct (zfill_digits 6 ft) as (Hl & Hd & Hp); [simpl; lia | lia |].
  destruct (shape_plus6 _ Hl Hd) as [Hs Hsl].
  split; [reflexivity|]. split.
  - rewrite !length_app, Hl. reflexivity.
  - split; [exact Hs | now rewrite Hsl].
Qed.

(** The altitude 38.1 m: 125 ft. *)
Lemma C1_alt_format_witness :
  Py.is_finite (Py.fmul (float_lit "38.1") FT_PER_M) = true
  /\ exists ft s,
    Py.round (Py.fmul (float_lit "38.1") FT_PER_M) = Ok ft
    /\ alt_m_to_ft_str (float_lit "38.1") = Ok s.
Proof.
  split; [reflexivity|].
  destruct (C1_alt_format (float_lit "38.1") eq_refl)
    as (ft & s & H1 & _ & H2 & _).
  exists ft, s. split; assumption.
Defined.

(** C1 as stated fails: at 38.1 m the string is [+000125.00], which has
    10 characters, not 11; at -38.1 m the character after the sign is a
    minus, and at 304800 m the magnitude has seven digits, so that neither
    string has the shape [+DDDDDD.DD]. *)
Lemma C1_counterexample :
  alt_m_to_ft_str (float_lit "38.1") = Ok "+000125.00"
  /\ String.length "+000125.00" <> 11%nat
  /\ alt_m_to_ft_str (float_lit "-38.1") = Ok "+-00125.00"
  /\ matches_shape "+DDDDDD.DD" "+-00125.00" = false
  /\ alt_m_to_ft_str (float_lit "304800") = Ok "+1000000.00"
  /\ matches_shape "+DDDDDD.DD" "+1000000.00" = false.
Proof.
  split; [reflexivity|]. split; [discriminate|]. repeat split; reflexivity.
Qed.

End Altitude.

(** ** Binary64 rounding

    What [binary_round_aux] computes on an exact integer mantissa: the
    mantissa is shifted to the exponent that the format prescribes, the
    shifted-out bits decide the rounding to nearest even, and the result is
    canonical again. *)

Section Binary64.

Abbreviation prec := Py.prec.
Abbreviation emax := Py.emax.
Abbreviation fexp := (SpecFloat.fexp Py.prec Py.emax).
Abbreviation digits := Zdigits2.

Lemma fexp_eq (k : Z) : fexp k = Z.max (k - 53) (-1074).
Proof. reflexivity. Qed.

Lemma digits_log2 (p : positive) :
  Zpos (digits2_pos p) = Z.log2 (Zpos p) + 1.
Proof.
  assert (Hsize : forall q, digits2_pos q = Pos.size q)
    by (induction q; simpl; congruence).
  destruct p as [p|p|]; simpl; try reflexivity;
    rewrite Pos.add_1_r, Hsize; reflexivity.
Qed.

Lemma digits_bounds (p : positive) :
  2 ^ (digits (Zpos p) - 1) <= Zpos p < 2 ^ digits (Zpos p).
Proof.
  cbn [Zdigits2]. rewrite digits_log2.
  replace (Z.log2 (Z.pos p) + 1 - 1) with (Z.log2 (Z.pos p)) by lia.
  replace (Z.log2 (Z.pos p) + 1) with (Z.succ (Z.log2 (Z.pos p))) by lia.
  apply Z.log2_spec. lia.
Qed.

Lemma digits_pos (p : positive) : 1 <= digits (Zpos p).
Proof.
  cbn [Zdigits2]. rewrite digits_log2. pose proof (Z.log2_nonneg (Zpos p)). lia.
Qed.

Lemma digits_unique (z k : Z) :
  2 ^ (k - 1) <= z < 2 ^ k -> 1 <= k -> digits z = k.
Proof.
  intros H Hk.
  assert (0 < z) by (pose proof (Z.pow_pos_nonneg 2 (k - 1)); lia).
  destruct z as [|p|p]; try lia.
  cbn [Zdigits2]. rewrite digits_log2.
  rewrite (Z.log2_unique (Zpos p) (k - 1)); [lia | lia |].
  replace (Z.succ (k - 1)) with k by lia. exact H.
Qed.

Lemma digits_le (z k : Z) : 0 < z < 2 ^ k -> digits z <= k.
Proof.
  intros [H0 H]. destruct z as [|p|p]; try lia.
  pose proof (digits_bounds p) as [Hl _].
  assert (Hlt : 2 ^ (digits (Zpos p) - 1) < 2 ^ k) by lia.
  assert (0 <= k).
  { destruct (Z.lt_ge_cases k 0) as [Hn|]; [|lia].
    rewrite Z.pow_neg_r in H by lia. lia. }
  apply Z.pow_lt_mono_r_iff in Hlt; lia.
Qed.

Lemma digits_ge (z k : Z) : 2 ^ (k - 1) <= z -> 1 <= k -> k <= digits z.
Proof.
  intros H Hk.
  assert (0 < z) by (pose proof (Z.pow_pos_nonneg 2 (k - 1)); lia).
  destruct z as [|p|p]; try lia.
  pose proof (digits_bounds p) as [_ Hu]. pose proof (digits_pos p).
  assert (Hlt : 2 ^ (k - 1) < 2 ^ digits (Zpos p)) by lia.
  apply Z.pow_lt_mono_r_iff in Hlt; lia.
Qed.

(** *** Iterated right shifts *)

Lemma iter_pos_nat {A : Type} (f : A -> A) (p : positive) (x : A) :
  iter_pos f p x = Nat.iter (Pos.to_nat p) f x.
Proof.
  revert x. induction p as [p IH|p IH|]; intros x; cbn [iter_pos].
  - rewrite !IH, Pos2Nat.inj_xI.
    rewrite <- Nat.iter_add, <- Nat.iter_succ_r. f_equal. lia.
  - rewrite !IH, Pos2Nat.inj_xO. rewrite <- Nat.iter_add. f_equal. lia.
  - reflexivity.
Qed.

Lemma shr_1_first (m : Z) :
  0 <= m -> shifted m 1 (shr_1 (Build_shr_record m false false)).
Proof.
  intros Hm. unfold shifted.
  destruct m as [|[p|p|]|]; cbn; try lia;
    (split; [lia | exists 0; repeat split; lia]).
Qed.

Lemma shr_1_next (m half : Z) (mrs : shr_record) :
  0 < half -> shifted m half mrs -> shifted m (2 * half) (shr_1 mrs).
Proof.
  intros Hh (Hq & t & Ht & Hm & Hs).
  destruct mrs as [q r s]. cbn [shr_m shr_r shr_s] in *.
  unfold shifted.
  destruct q as [|[p|p|]|]; cbn [shr_1 shr_m shr_r shr_s]; try lia;
    (split; [lia|]);
    exists ((if r then half else 0) + t);
    (split; [destruct r; lia|]);
    (split; [destruct r; lia|]);
    subst s; destruct r; cbn [orb];
    try reflexivity;
    destruct (Z.eqb_spec t 0); destruct (Z.eqb_spec (half + t) 0);
    destruct (Z.eqb_spec (0 + t) 0); try reflexivity; lia.
Qed.

Lemma shr_iter (m : Z) (n : nat) :
  0 <= m ->
  shifted m (2 ^ Z.of_nat n)
    (Nat.iter (S n) shr_1 (Build_shr_record m false false)).
Proof.
  intros Hm. induction n as [|n IH].
  - apply shr_1_first. exact Hm.
  - rewrite Nat2Z.inj_succ, Z.pow_succ_r by lia.
    cbn [Nat.iter nat_rect] in *. apply shr_1_next; [|exact IH].
    apply Z.pow_pos_nonneg; lia.
Qed.

(** *** One call of [shr_fexp] on an exact mantissa *)

Lemma shr_fexp_noshift (m e : Z) :
  fexp (digits m + e) <= e ->
  shr_fexp prec emax m e loc_Exact = (Build_shr_record m false false, e).
Proof.
  intros H. unfold shr_fexp, shr. cbn [shr_record_of_loc].
  destruct (fexp (digits m + e) - e) eqn:E; try reflexivity. lia.
Qed.

Lemma shr_fexp_shift (m e : Z) :
  0 <= m -> e < fexp (digits m + e) ->
  exists mrs,
    shr_fexp prec emax m e loc_Exact = (mrs, fexp (digits m + e))
    /\ shifted m (2 ^ (fexp (digits m + e) - e - 1)) mrs.
Proof.
  intros Hm H. unfold shr_fexp, shr. cbn [shr_record_of_loc].
  destruct (fexp (digits m + e) - e) as [|n|n] eqn:E; try lia.
  rewrite iter_pos_nat.
  destruct (Pos2Nat.is_succ n) as [k Hk]. rewrite Hk.
  eexists. split.
  - f_equal. lia.
  - replace (Z.pos n - 1) with (Z.of_nat k) by lia.
    apply shr_iter. exact Hm.
Qed.

(** Rounding to nearest even once the bits are shifted out. *)
Lemma round_shifted (m half : Z) (mrs : shr_record) :
  0 < half -> shifted m half mrs ->
  let q := m / (2 * half) in
  let m1 := round_nearest_even (shr_m mrs) (loc_of_shr_record mrs) in
  (m1 = q \/ m1 = q + 1)
  /\ 2 * Z.abs (m1 * (2 * half) - m) <= 2 * half
  /\ (m mod (2 * half) = 0 -> m1 = q).
Proof.
  intros Hh (Hq & t & Ht & Hm & Hs). cbv zeta.
  destruct mrs as [q r s]. cbn [shr_m shr_r shr_s] in *.
  assert (Hdiv : m / (2 * half) = q).
  { symmetry. apply (Z.div_unique_pos m (2 * half) q ((if r then half else 0) + t));
      destruct r; lia. }
  assert (Hmod : m mod (2 * half) = (if r then half else 0) + t).
  { symmetry. apply (Z.mod_unique_pos m (2 * half) q); destruct r; lia. }
  rewrite Hdiv, Hmod.
  destruct r, s; cbn [loc_of_shr_record round_nearest_even];
    destruct (Z.eqb_spec t 0); try discriminate;
    try destruct (Z.even q); repeat split; try lia.
Qed.

(** *** The rounding step *)

Lemma finish_pos (s : bool) (m e : Z) :
  0 < m ->
  match m with
  | Z0 => S754_zero s
  | Zpos m' => if e <=? emax - prec then S754_finite s m' e else S754_infinity s
  | Zneg _ => S754_nan
  end = if e <=? emax - prec then S754_finite s (Z.to_pos m) e
        else S754_infinity s.
Proof. destruct m; try lia. reflexivity. Qed.

Lemma canonical_intro (m : positive) (e : Z) :
  fexp (digits (Zpos m) + e) = e -> canonical_mantissa prec emax m e = true.
Proof. intros H. unfold canonical_mantissa. apply Z.eqb_eq. exact H. Qed.

Lemma binary_round_aux_rounds (s : bool) (p : positive) (e : Z) :
  rounds_to s p e (binary_round_aux prec emax s (Zpos p) e loc_Exact).
Proof.
  unfold rounds_to, binary_round_aux.
  pose proof (digits_bounds p) as Hd. pose proof (digits_pos p) as Hd1.
  set (d := digits (Zpos p)) in *.
  set (f := fexp (d + e)).
  assert (Hf : f = Z.max (d + e - 53) (-1074)) by reflexivity.
  destruct (Z.le_gt_cases f e) as [Hle|Hgt].
  - (* the mantissa already fits *)
    rewrite shr_fexp_noshift by exact Hle.
    cbn [shr_m loc_of_shr_record round_nearest_even].
    rewrite shr_fexp_noshift by exact Hle. cbn [shr_m].
    replace (Z.max 0 (f - e)) with 0 by lia.
    rewrite Z.pow_0_r, Z.div_1_r, Z.add_0_r.
    exists (Zpos p). split; [now left|]. split; [lia|]. split; [reflexivity|].
    right. exists p, e. rewrite Z.sub_diag, Z.pow_0_r.
    split; [lia|]. split; [now left|]. split; [|reflexivity].
    intros He. apply canonical_intro. fold d. fold f. lia.
  - (* [n = f - e] bits are shifted out *)
    destruct (shr_fexp_shift (Zpos p) e ltac:(lia) Hgt) as (mrs & Heq & Hsh).
    fold d in Heq, Hsh. fold f in Heq, Hsh. rewrite Heq.
    replace (Z.max 0 (f - e)) with (f - e) by lia.
    set (n := f - e) in *.
    assert (Hn : 0 < n) by (unfold n; lia).
    assert (Hhalf : 0 < 2 ^ (n - 1)) by (apply Z.pow_pos_nonneg; lia).
    assert (H2n : 2 * 2 ^ (n - 1) = 2 ^ n).
    { rewrite <- Z.pow_succ_r by lia. f_equal. lia. }
    pose proof (round_shifted _ _ _ Hhalf Hsh) as Hr. cbv zeta in Hr.
    rewrite H2n in Hr. destruct Hr as (Hm1 & Herr & Hex).
    set (m1 := round_nearest_even (shr_m mrs) (loc_of_shr_record mrs)) in *.
    set (q := Zpos p / 2 ^ n) in *.
    assert (HP : 0 < 2 ^ n) by (apply Z.pow_pos_nonneg; lia).
    assert (Hq0 : 0 <= q) by (apply Z.div_pos; lia).
    replace (e + n) with f by (unfold n; lia).
    exists m1. split; [exact Hm1|]. split; [exact Herr|]. split; [exact Hex|].
    destruct (Z.eq_dec m1 0) as [Hz|Hnz].
    + left. split; [exact Hz|]. rewrite Hz.
      rewrite shr_fexp_noshift by (cbn [Zdigits2]; rewrite fexp_eq; lia).
      reflexivity.
    + right. assert (Hm1pos : 0 < m1) by lia.
      destruct (Z.le_gt_cases d n) as [Hdn|Hdn].
      * (* everything is shifted out: the result is the smallest subnormal *)
        assert (Hq : q = 0).
        { apply Z.div_small. split; [lia|].
          assert (2 ^ d <= 2 ^ n) by (apply Z.pow_le_mono_r; lia). lia. }
        assert (Hone : m1 = 1) by lia.
        assert (Hfm : f = -1074) by (unfold n in Hdn; lia).
        rewrite Hone.
        rewrite shr_fexp_noshift by (cbn [Zdigits2 digits2_pos]; rewrite fexp_eq; lia).
        cbn [shr_m]. exists 1%positive, f.
        rewrite Z.sub_diag, Z.pow_0_r.
        split; [lia|]. split; [now left|]. split; [|reflexivity].
        intros _. apply canonical_intro. cbn [Zdigits2 digits2_pos].
        rewrite fexp_eq. lia.
      * (* [q] keeps [d - n] digits *)
        assert (Hsplit : 2 ^ d = 2 ^ (d - n) * 2 ^ n).
        { rewrite <- Z.pow_add_r by lia. f_equal. lia. }
        assert (Hsplit' : 2 ^ (d - 1) = 2 ^ (d - n - 1) * 2 ^ n).
        { rewrite <- Z.pow_add_r by lia. f_equal. lia. }
        assert (Hqlo : 2 ^ (d - n - 1) <= q).
        { apply Z.div_le_lower_bound; lia. }
        assert (Hqhi : q < 2 ^ (d - n)).
        { apply Z.div_lt_upper_bound; lia. }
        assert (Hpow : 2 ^ (d - n) = 2 * 2 ^ (d - n - 1)).
        { rewrite <- Z.pow_succ_r by lia. f_equal. lia. }
        destruct (Z.eq_dec m1 (2 ^ (d - n))) as [Hcarry|Hnocarry].
        -- (* the carry makes a power of two *)
           assert (Hdm : digits m1 = d - n + 1).
           { apply digits_unique; [|lia].
             replace (d - n + 1 - 1) with (d - n) by lia.
             rewrite Z.pow_add_r, Z.pow_1_r by lia. lia. }
           assert (HfE : fexp (digits m1 + f) = Z.max (d + e + 1 - 53) (-1074)).
           { rewrite Hdm, fexp_eq. f_equal. unfold n. lia. }
           destruct (Z.le_gt_cases (fexp (digits m1 + f)) f) as [Hns|Hs1].
           ++ rewrite shr_fexp_noshift by exact Hns. cbn [shr_m].
              rewrite finish_pos by exact Hm1pos.
              exists (Z.to_pos m1), f.
              rewrite Z2Pos.id, Z.sub_diag, Z.pow_0_r by exact Hm1pos.
              split; [lia|]. split; [now left|]. split; [|reflexivity].
              intros _. apply canonical_intro.
              rewrite Z2Pos.id by exact Hm1pos. lia.
           ++ destruct (shr_fexp_shift m1 f ltac:(lia) Hs1) as (mrs2 & Heq2 & Hsh2).
              rewrite Heq2.
              replace (fexp (digits m1 + f) - f - 1) with 0 in Hsh2 by lia.
              rewrite Z.pow_0_r in Hsh2.
              destruct Hsh2 as (Hm2 & t & Ht & Hmt & _).
              assert (Hhalfm : shr_m mrs2 = 2 ^ (d - n - 1)).
              { destruct (shr_r mrs2); lia. }
              assert (Hm2pos : 0 < shr_m mrs2)
                by (rewrite Hhalfm; apply Z.pow_pos_nonneg; lia).
              rewrite finish_pos by exact Hm2pos.
              exists (Z.to_pos (shr_m mrs2)), (fexp (digits m1 + f)).
              rewrite Z2Pos.id by exact Hm2pos.
              replace (fexp (digits m1 + f) - f) with 1 by lia.
              split; [rewrite Hhalfm; lia|].
              split; [right; split; [lia|]; destruct Hm1 as [->| ->]; lia|].
              split; [|reflexivity].
              intros _. apply canonical_intro.
              rewrite Z2Pos.id by exact Hm2pos. rewrite Hhalfm.
              rewrite (digits_unique (2 ^ (d - n - 1)) (d - n)); [| |lia].
              ** rewrite fexp_eq. lia.
              ** split; [lia|]. lia.
        -- assert (Hdm : digits m1 = d - n).
           { apply digits_unique; [|lia]. lia. }
           assert (HfE : fexp (digits m1 + f) = f).
           { rewrite Hdm. unfold f. f_equal. unfold n. lia. }
           rewrite shr_fexp_noshift by lia. cbn [shr_m].
           rewrite finish_pos by exact Hm1pos.
           exists (Z.to_pos m1), f.
           rewrite Z2Pos.id, Z.sub_diag, Z.pow_0_r by exact Hm1pos.
           split; [lia|]. split; [now left|]. split; [|reflexivity].
           intros _. apply canonical_intro.
           rewrite Z2Pos.id by exact Hm1pos. exact HfE.
Qed.

(** *** Exact values of the results *)

Lemma Q_scale (a b k e : Z) :
  0 <= k -> a = b * 2 ^ k ->
  (inject_Z a * 2 ^ e == inject_Z b * 2 ^ (e + k))%Q.
Proof.
  intros Hk ->. rewrite inject_Z_mult, Qpow2_add, <- (Qpow2_nonneg k) by exact Hk.
  ring.
Qed.

Lemma Q_of_finite (s : bool) (m : positive) (e : Z) :
  (Py.Q_of_float (S754_finite s m e)
   == (if s then - 1 else 1) * (inject_Z (Zpos m) * 2 ^ e))%Q.
Proof.
  cbn [Py.Q_of_float]. rewrite inject_Z_cond_Zopp. destruct s; ring.
Qed.

Lemma valid_finite (s : bool) (m : positive) (e : Z) :
  canonical_mantissa prec emax m e = true -> e <= emax - prec ->
  Py.is_binary64 (S754_finite s m e) = true.
Proof.
  intros Hc He. unfold Py.is_binary64, valid_binary, bounded.
  rewrite Hc. apply Z.leb_le. exact He.
Qed.

(** A valid finite float: at most 53 digits, and exactly 53 above the
    subnormal range. *)
Lemma valid_inv (s : bool) (m : positive) (e : Z) :
  Py.is_binary64 (S754_finite s m e) = true ->
  digits (Zpos m) <= 53 /\ -1074 <= e <= 971
  /\ (digits (Zpos m) = 53 \/ e = -1074)
  /\ Zpos m < 2 ^ 53.
Proof.
  unfold Py.is_binary64, valid_binary, bounded, canonical_mantissa.
  intros H. apply andb_true_iff in H as [Hc He].
  apply Z.eqb_eq in Hc. apply Z.leb_le in He.
  change (Zpos (digits2_pos m)) with (digits (Zpos m)) in Hc.
  rewrite fexp_eq in Hc. change (emax - prec) with 971 in He.
  pose proof (digits_bounds m) as [_ Hu].
  assert (Hd : digits (Zpos m) <= 53) by lia.
  repeat split; try lia.
  assert (2 ^ digits (Zpos m) <= 2 ^ 53) by (apply Z.pow_le_mono_r; lia).
  lia.
Qed.

(** The exact case: nothing but zeros is shifted out. *)
Lemma rounds_to_exact (s : bool) (p : positive) (e : Z) (r : spec_float) :
  let f := fexp (digits (Zpos p) + e) in
  let n := Z.max 0 (f - e) in
  rounds_to s p e r ->
  Zpos p mod 2 ^ n = 0 -> e + n <= 971 ->
  exists m2,
    r = S754_finite s m2 (e + n)
    /\ Zpos m2 * 2 ^ n = Zpos p
    /\ (e <= f -> canonical_mantissa prec emax m2 (e + n) = true).
Proof.
  cbv zeta. unfold rounds_to. cbv zeta.
  set (f := fexp (digits (Zpos p) + e)). set (n := Z.max 0 (f - e)).
  intros (m1 & Hm1 & _ & Hex & Hr) Hmod Hov.
  assert (HP : 0 < 2 ^ n) by (apply Z.pow_pos_nonneg; lia).
  specialize (Hex Hmod).
  pose proof (Z.div_mod (Zpos p) (2 ^ n) ltac:(lia)) as Hdm.
  rewrite Hmod in Hdm.
  assert (Hq : 0 < Zpos p / 2 ^ n) by nia.
  destruct Hr as [[Hz _]|(m2 & e2 & Hv & He2 & Hc & ->)]; [lia|].
  destruct He2 as [->|[_ ?]]; [|lia].
  rewrite Z.sub_diag, Z.pow_0_r in Hv.
  exists m2. split.
  - destruct (Z.leb_spec (e + n) (emax - prec)); [reflexivity|].
    change (emax - prec) with 971 in *. lia.
  - split; [|exact Hc]. lia.
Qed.

(** The general case: the result is within half a unit of its last place. *)
Lemma rounds_to_bound (s : bool) (p : positive) (e : Z) (r : spec_float) :
  let f := fexp (digits (Zpos p) + e) in
  let n := Z.max 0 (f - e) in
  rounds_to s p e r -> e + n + 1 <= 971 ->
  Py.is_finite r = true
  /\ (s = false -> Py.is_nonneg r = true)
  /\ (e <= f -> Py.is_binary64 r = true)
  /\ (exists m1, 0 <= m1
        /\ (Py.Q_of_float r
            == (if s then - 1 else 1) * (inject_Z m1 * 2 ^ (e + n)))%Q
        /\ 2 * Z.abs (m1 * 2 ^ n - Zpos p) <= 2 ^ n).
Proof.
  cbv zeta. unfold rounds_to. cbv zeta.
  set (f := fexp (digits (Zpos p) + e)). set (n := Z.max 0 (f - e)).
  intros (m1 & Hm1 & Herr & _ & Hr) Hov.
  assert (HP : 0 < 2 ^ n) by (apply Z.pow_pos_nonneg; lia).
  assert (Hq : 0 <= Zpos p / 2 ^ n) by (apply Z.div_pos; lia).
  destruct Hr as [[Hz ->]|(m2 & e2 & Hv & He2 & Hc & ->)].
  - split; [reflexivity|]. split; [now intros ->|]. split; [reflexivity|].
    exists m1. split; [lia|]. split; [|exact Herr].
    subst m1. cbn [Py.Q_of_float]. destruct s; ring.
  - assert (He2' : e + n <= e2 <= e + n + 1) by lia.
    destruct (Z.leb_spec e2 (emax - prec)) as [Hle|Hgt];
      [|change (emax - prec) with 971 in *; lia].
    split; [reflexivity|]. split; [now intros ->|].
    split; [intros Hef; apply valid_finite; auto|].
    exists m1. split; [lia|]. split; [|exact Herr].
    rewrite Q_of_finite.
    rewrite (Q_scale m1 (Zpos m2) (e2 - (e + n)) (e + n)) by lia.
    replace (e + n + (e2 - (e + n))) with e2 by lia. reflexivity.
Qed.

(** *** Exact operations: conversion of integers, subtraction *)

Lemma digits_shift (p : positive) (j : Z) :
  0 <= j -> digits (Zpos p * 2 ^ j) = digits (Zpos p) + j.
Proof.
  intros Hj. pose proof (digits_bounds p) as [Hl Hu].
  pose proof (digits_pos p) as Hd.
  assert (HP : 0 < 2 ^ j) by (apply Z.pow_pos_nonneg; lia).
  apply digits_unique; [|lia]. split.
  - replace (digits (Zpos p) + j - 1) with (digits (Zpos p) - 1 + j) by lia.
    rewrite Z.pow_add_r by lia. nia.
  - rewrite Z.pow_add_r by lia. nia.
Qed.

Lemma shl_align_spec (mx : positive) (ex ex' : Z) :
  snd (shl_align mx ex ex') = Z.min ex ex'
  /\ Zpos (fst (shl_align mx ex ex')) = Zpos mx * 2 ^ (ex - Z.min ex ex').
Proof.
  unfold shl_align. destruct (ex' - ex) as [|d|d] eqn:E; cbn [fst snd].
  - split; [lia|]. replace (ex - Z.min ex ex') with 0 by lia. lia.
  - split; [lia|]. replace (ex - Z.min ex ex') with 0 by lia. lia.
  - split; [lia|]. replace (ex - Z.min ex ex') with (Zpos d) by lia.
    change (Pos.iter xO mx d) with (shift_pos d mx).
    rewrite shift_pos_correct. rewrite Z.pow_pos_fold. lia.
Qed.

(** Rounding a value that the format can hold changes nothing. *)
Lemma binary_round_exact (s : bool) (p p0 : positive) (k e : Z) :
  Zpos p = Zpos p0 * 2 ^ k -> 0 <= k -> Zpos p0 < 2 ^ 53 ->
  -1074 <= e + k -> digits (Zpos p) + e <= 1024 ->
  exists m2 e2,
    binary_round prec emax s p e = S754_finite s m2 e2
    /\ Py.is_binary64 (S754_finite s m2 e2) = true
    /\ (inject_Z (Zpos m2) * 2 ^ e2 == inject_Z (Zpos p) * 2 ^ e)%Q.
Proof.
  intros Hp Hk Hp0 Hek Hd. unfold binary_round.
  change (Zpos (digits2_pos p)) with (digits (Zpos p)).
  set (f := fexp (digits (Zpos p) + e)).
  assert (Hf : f = Z.max (digits (Zpos p) + e - 53) (-1074)) by reflexivity.
  destruct (shl_align_spec p e f) as [Hez Hmz].
  destruct (shl_align p e f) as [mz ez]. cbn [fst snd] in Hez, Hmz.
  rewrite <- Hez in Hmz.
  assert (Hdz : digits (Zpos mz) + ez = digits (Zpos p) + e).
  { rewrite Hmz, digits_shift by lia. lia. }
  pose proof (binary_round_aux_rounds s mz ez) as Hr.
  assert (Hdp : digits (Zpos p) = digits (Zpos p0) + k)
    by (rewrite Hp; apply digits_shift; exact Hk).
  assert (Hd0 : digits (Zpos p0) <= 53) by (apply digits_le; lia).
  destruct (rounds_to_exact s mz ez _ Hr) as (m2 & Heq & Hv & Hc);
    rewrite ?Hdz; fold f.
  - destruct (Z.le_gt_cases f e) as [Hle|Hgt].
    + replace (Z.max 0 (f - ez)) with 0 by lia. apply Z.mod_1_r.
    + replace (Z.max 0 (f - ez)) with (f - e) by lia.
      replace (e - ez) with 0 in Hmz by lia.
      rewrite Z.pow_0_r, Z.mul_1_r in Hmz.
      rewrite Hmz, Hp.
      replace k with ((k - (f - e)) + (f - e)) at 1 by lia.
      rewrite Z.pow_add_r, Z.mul_assoc by lia.
      apply Z.mod_mul. apply Z.pow_nonzero; lia.
  - lia.
  - rewrite Hdz in Heq, Hv, Hc. fold f in Heq, Hv, Hc.
    exists m2, (ez + Z.max 0 (f - ez)).
    split; [exact Heq|].
    split; [apply valid_finite; [apply Hc; lia | change (emax - prec) with 971; lia]|].
    rewrite <- (Q_scale (Zpos mz) (Zpos m2) (Z.max 0 (f - ez)) ez) by lia.
    rewrite (Q_scale (Zpos mz) (Zpos p) (e - ez) ez) by lia.
    replace (ez + (e - ez)) with e by lia. reflexivity.
Qed.

(** Integers that a float can hold are converted exactly. *)
Lemma float_of_int_exact (z : Z) (p0 : positive) (k : Z) :
  z = Zpos p0 * 2 ^ k -> 0 <= k -> Zpos p0 < 2 ^ 53 -> z < 2 ^ 1024 ->
  exists m e,
    Py.float_of_int z = Ok (S754_finite false m e)
    /\ Py.is_binary64 (S754_finite false m e) = true
    /\ (Py.Q_of_float (S754_finite false m e) == inject_Z z)%Q.
Proof.
  intros Hz Hk Hp0 Hlt.
  assert (HP : 0 < 2 ^ k) by (apply Z.pow_pos_nonneg; lia).
  assert (Hzpos : 0 < z) by nia.
  destruct z as [|p|p]; try lia.
  destruct (binary_round_exact false p p0 k 0 Hz Hk Hp0 ltac:(lia))
    as (m & e & Heq & Hv & HQ).
  { pose proof (digits_le (Zpos p) 1024 ltac:(lia)). lia. }
  exists m, e. unfold Py.float_of_int. cbn [binary_normalize].
  rewrite Heq. split; [reflexivity|]. split; [exact Hv|].
  rewrite Q_of_finite, HQ. change (2 ^ 0)%Q with 1%Q. ring.
Qed.

(** *** Values of valid floats *)

Lemma Qpow2_lt_inv (a b : Z) : (2 ^ a < 2 ^ b)%Q -> a < b.
Proof.
  intros H. destruct (Z.lt_ge_cases a b) as [|Hge]; [assumption|].
  apply Qpow2_le in Hge. lra.
Qed.

Lemma Q_of_finite_pos (m : positive) (e : Z) :
  (0 < Py.Q_of_float (S754_finite false m e))%Q.
Proof.
  cbn [Py.Q_of_float cond_Zopp]. pose proof (Qpow2_pos e).
  assert (0 < inject_Z (Zpos m))%Q by (apply (Zlt_Q 0); lia). nra.
Qed.

(** A valid float of value at least one has an exponent of -52 or more. *)
Lemma valid_ge_1 (m : positive) (e : Z) :
  Py.is_binary64 (S754_finite false m e) = true ->
  (1 <= Py.Q_of_float (S754_finite false m e))%Q -> -52 <= e.
Proof.
  intros Hv H1. destruct (valid_inv _ _ _ Hv) as (_ & _ & _ & Hm).
  destruct (Z.lt_ge_cases e (-52)) as [Hlt|]; [|lia]. exfalso.
  cbn [Py.Q_of_float cond_Zopp] in H1.
  assert (Hle : (2 ^ e <= 2 ^ (-53))%Q) by (apply Qpow2_le; lia).
  apply Zlt_Q in Hm. pose proof (Qpow2_pos e) as Hpe.
  assert (Hone : (inject_Z (2 ^ 53) * 2 ^ (-53) == 1)%Q) by reflexivity.
  assert (0 < inject_Z (Zpos m))%Q by (apply (Zlt_Q 0); lia).
  nra.
Qed.

(** A float below one has a negative exponent. *)
Lemma lt_1_exponent (m : positive) (e : Z) :
  (Py.Q_of_float (S754_finite false m e) < 1)%Q -> e < 0.
Proof.
  intros H. cbn [Py.Q_of_float cond_Zopp] in H.
  apply Qpow2_lt_inv. change (2 ^ 0)%Q with 1%Q.
  assert (1 <= inject_Z (Zpos m))%Q by (apply (Zle_Q 1); lia).
  pose proof (Qpow2_pos e). nra.
Qed.

(** [int(x)] is the floor of a non-negative [x]. *)
Lemma int_of_float_floor (x : Py.float) :
  Py.is_finite x = true -> Py.is_nonneg x = true ->
  exists d, Py.int_of_float x = Ok d /\ 0 <= d
    /\ (inject_Z d <= Py.Q_of_float x < inject_Z d + 1)%Q.
Proof.
  destruct x as [[|]|[|]| |[|] m e]; try discriminate; intros _ _.
  - exists 0. split; [reflexivity|]. split; [lia|].
    cbn [Py.Q_of_float]. change (inject_Z 0) with 0%Q. lra.
  - cbn [Py.int_of_float cond_Zopp Py.Q_of_float].
    exists (Z.shiftl (Zpos m) e). split; [reflexivity|].
    destruct (Z.le_gt_cases 0 e) as [He|He].
    + rewrite shiftl_pow2 by exact He.
      assert (0 < 2 ^ e) by (apply Z.pow_pos_nonneg; lia).
      split; [nia|]. rewrite inject_Z_mult, <- Qpow2_nonneg by exact He. lra.
    + rewrite Z.shiftl_div_pow2 by lia.
      assert (HP : 0 < 2 ^ (- e)) by (apply Z.pow_pos_nonneg; lia).
      pose proof (Z.div_mod (Zpos m) (2 ^ (- e)) ltac:(lia)) as Hdm.
      pose proof (Z.mod_pos_bound (Zpos m) (2 ^ (- e)) HP) as Hmod.
      set (d := Zpos m / 2 ^ (- e)) in *.
      assert (Hd0 : 0 <= d) by (apply Z.div_pos; lia).
      split; [exact Hd0|].
      assert (Hlo : d * 2 ^ (- e) <= Zpos m) by lia.
      assert (Hhi : Zpos m < (d + 1) * 2 ^ (- e)) by lia.
      apply Zle_Q in Hlo. apply Zlt_Q in Hhi.
      rewrite inject_Z_mult in Hlo, Hhi. rewrite inject_Z_plus in Hhi.
      rewrite <- (Qpow2_nonneg (- e)) in Hlo, Hhi by lia.
      pose proof (Qpow2_opp e) as Hinv. pose proof (Qpow2_pos e) as Hpe.
      pose proof (Qpow2_pos (- e)) as Hpne.
      set (a := (2 ^ (- e))%Q) in *. set (b := (2 ^ e)%Q) in *.
      set (qm := inject_Z (Zpos m)) in *. set (qd := inject_Z d) in *.
      change (inject_Z 1) with 1%Q in Hhi.
      assert (E1 : (qd == qd * a * b)%Q) by (rewrite <- Qmult_assoc, Hinv; ring).
      assert (E2 : (qd + 1 == (qd + 1) * a * b)%Q)
        by (rewrite <- Qmult_assoc, Hinv; ring).
      split.
      * rewrite E1. apply Qmult_le_compat_r; lra.
      * rewrite E2. apply Qmult_lt_compat_r; lra.
Qed.

(** *** Subtracting the integer part *)

(** [x - y] is exact when [y] is zero or at least one and the difference
    lies in [0, 1): the case of a value and its integer part. *)
Lemma fsub_frac (x y : Py.float) :
  Py.is_binary64 x = true -> Py.is_finite x = true -> Py.is_nonneg x = true ->
  Py.is_binary64 y = true -> Py.is_finite y = true -> Py.is_nonneg y = true ->
  (0 <= Py.Q_of_float x - Py.Q_of_float y < 1)%Q ->
  (Py.Q_of_float y == 0 \/ 1 <= Py.Q_of_float y)%Q ->
  Py.is_binary64 (Py.fsub x y) = true
  /\ Py.is_finite (Py.fsub x y) = true
  /\ Py.is_nonneg (Py.fsub x y) = true
  /\ (Py.Q_of_float (Py.fsub x y) == Py.Q_of_float x - Py.Q_of_float y)%Q.
Proof.
  intros Hvx Hfx Hnx Hvy Hfy Hny Hfrac Hy.
  destruct x as [[|]|[|]| |[|] mx ex]; try discriminate;
    destruct y as [[|]|[|]| |[|] my ey]; try discriminate.
  - (* 0 - 0 *)
    repeat split; try reflexivity.
  - (* 0 - y, y > 0: excluded *)
    exfalso. pose proof (Q_of_finite_pos my ey) as Hpos.
    change (Py.Q_of_float (S754_zero false)) with 0%Q in Hfrac. lra.
  - (* x - 0 *)
    cbn [Py.fsub SFsub]. repeat split; try assumption.
    cbn [Py.Q_of_float]. ring.
  - (* both finite *)
    pose proof (Q_of_finite_pos my ey) as Hypos.
    assert (Hy1 : (1 <= Py.Q_of_float (S754_finite false my ey))%Q)
      by (destruct Hy; lra).
    assert (Hx1 : (1 <= Py.Q_of_float (S754_finite false mx ex))%Q) by lra.
    pose proof (valid_ge_1 _ _ Hvx Hx1) as Hex.
    pose proof (valid_ge_1 _ _ Hvy Hy1) as Hey.
    destruct (valid_inv _ _ _ Hvx) as (_ & Hexr & _ & _).
    destruct (valid_inv _ _ _ Hvy) as (_ & Heyr & _ & _).
    unfold Py.fsub. cbn [SFsub cond_Zopp].
    set (ez := Z.min ex ey).
    destruct (shl_align_spec mx ex ez) as [_ Hax].
    destruct (shl_align_spec my ey ez) as [_ Hay].
    replace (Z.min ex ez) with ez in Hax by (unfold ez; lia).
    replace (Z.min ey ez) with ez in Hay by (unfold ez; lia).
    set (ax := Zpos (fst (shl_align mx ex ez))) in *.
    set (ay := Zpos (fst (shl_align my ey ez))) in *.
    assert (HQ : (inject_Z (ax - ay) * 2 ^ ez
                  == Py.Q_of_float (S754_finite false mx ex)
                     - Py.Q_of_float (S754_finite false my ey))%Q).
    { cbn [Py.Q_of_float cond_Zopp]. rewrite inject_Z_sub.
      setoid_replace ((inject_Z ax - inject_Z ay) * 2 ^ ez)%Q
        with (inject_Z ax * 2 ^ ez - inject_Z ay * 2 ^ ez)%Q by ring.
      rewrite (Q_scale ax (Zpos mx) (ex - ez) ez ltac:(unfold ez; lia) Hax).
      rewrite (Q_scale ay (Zpos my) (ey - ez) ez ltac:(unfold ez; lia) Hay).
      replace (ez + (ex - ez)) with ex by lia.
      replace (ez + (ey - ez)) with ey by lia. reflexivity. }
    pose proof (Qpow2_pos ez) as Hpz.
    assert (Hz0 : 0 <= ax - ay).
    { destruct (Z.lt_ge_cases (ax - ay) 0) as [Hneg|]; [|lia]. exfalso.
      apply Zlt_Q in Hneg. change (inject_Z 0) with 0%Q in Hneg.
      rewrite <- HQ in Hfrac. nra. }
    assert (Hz53 : ax - ay < 2 ^ 53).
    { destruct (Z.lt_ge_cases (ax - ay) (2 ^ 53)) as [|Hge]; [assumption|].
      exfalso. apply Zle_Q in Hge.
      assert (Hle : (2 ^ (-52) <= 2 ^ ez)%Q) by (apply Qpow2_le; unfold ez; lia).
      assert (Hone : (2 <= inject_Z (2 ^ 53) * 2 ^ (-52))%Q) by discriminate.
      rewrite <- HQ in Hfrac.
      assert (0 < inject_Z (2 ^ 53))%Q by reflexivity.
      pose proof (Qpow2_pos (-52)). nra. }
    destruct (ax - ay) as [|p|p] eqn:Ez; try lia.
    + cbn [binary_normalize]. repeat split; try reflexivity.
      rewrite <- HQ. cbn [Py.Q_of_float]. ring.
    + cbn [binary_normalize].
      destruct (binary_round_exact false p p 0 ez) as (m2 & e2 & Heq & Hv & HQ2).
      * lia.
      * lia.
      * exact Hz53.
      * unfold ez. lia.
      * pose proof (digits_le (Zpos p) 53 ltac:(lia)). unfold ez. lia.
      * rewrite Heq. split; [exact Hv|]. split; [reflexivity|].
        split; [reflexivity|].
        rewrite Q_of_finite, HQ2, <- HQ. ring.
Qed.

(** *** Multiplying a fraction by sixty *)

Lemma Q_of_SIXTY : (Py.Q_of_float SIXTY == 60)%Q.
Proof. reflexivity. Qed.

Lemma float_of_int_60 : Py.float_of_int 60 = Ok SIXTY.
Proof. reflexivity. Qed.

(** For [x] in [0, 1) the product [x * 60] is a valid float within
    [2^-48] of the exact product. *)
Lemma fmul_sixty (x : Py.float) :
  Py.is_binary64 x = true -> Py.is_finite x = true -> Py.is_nonneg x = true ->
  (Py.Q_of_float x < 1)%Q ->
  Py.is_binary64 (Py.fmul x SIXTY) = true
  /\ Py.is_finite (Py.fmul x SIXTY) = true
  /\ Py.is_nonneg (Py.fmul x SIXTY) = true
  /\ (Qabs (Py.Q_of_float (Py.fmul x SIXTY) - 60 * Py.Q_of_float x)
       <= 2 ^ (-48))%Q.
Proof.
  intros Hv Hf Hn Hlt.
  destruct x as [[|]|[|]| |[|] mx ex]; try discriminate.
  - repeat split; try reflexivity. vm_compute. discriminate.
  - pose proof (lt_1_exponent _ _ Hlt) as Hex.
    destruct (valid_inv _ _ _ Hv) as (Hdx & Hexr & Hnorm & Hmx).
    pose proof (digits_bounds mx) as [Hdlo _].
    pose proof (digits_pos mx) as Hd1.
    unfold Py.fmul, SIXTY. cbn [SFmul xorb].
    set (M := 8444249301319680%positive).
    set (P := (mx * M)%positive). set (e := ex + -47).
    assert (HP : Zpos P = Zpos mx * Zpos M) by reflexivity.
    assert (HM : 2 ^ 52 <= Zpos M < 2 ^ 53) by (unfold M; lia).
    (* the mantissa of [x] is below [2^-ex] *)
    assert (Hmx' : Zpos mx < 2 ^ (- ex)).
    { destruct (Z.lt_ge_cases (Zpos mx) (2 ^ (- ex))) as [|Hge]; [assumption|].
      exfalso. apply Zle_Q in Hge. rewrite <- Qpow2_nonneg in Hge by lia.
      cbn [Py.Q_of_float cond_Zopp] in Hlt.
      pose proof (Qpow2_opp ex). pose proof (Qpow2_pos ex).
      pose proof (Qpow2_pos (- ex)). nra. }
    assert (Hpne : 0 < 2 ^ (- ex)) by (apply Z.pow_pos_nonneg; lia).
    assert (Hdhi : digits (Zpos P) <= 53 - ex).
    { apply digits_le. split; [lia|].
      rewrite HP. replace (53 - ex) with (- ex + 53) by lia.
      rewrite Z.pow_add_r by lia. nia. }
    assert (Hdlo' : digits (Zpos mx) + 52 <= digits (Zpos P)).
    { apply digits_ge; [|lia].
      replace (digits (Zpos mx) + 52 - 1) with (digits (Zpos mx) - 1 + 52) by lia.
      rewrite Z.pow_add_r by lia. rewrite HP.
      assert (0 < 2 ^ (digits (Zpos mx) - 1)) by (apply Z.pow_pos_nonneg; lia).
      nia. }
    set (f := fexp (digits (Zpos P) + e)).
    assert (Hfeq : f = Z.max (digits (Zpos P) + e - 53) (-1074)) by reflexivity.
    assert (Hef : e <= f) by (unfold e in *; lia).
    assert (Hf47 : f <= -47) by (unfold e in *; lia).
    pose proof (binary_round_aux_rounds false P e) as Hr.
    pose proof (rounds_to_bound false P e _ Hr) as Hb. cbv zeta in Hb.
    fold f in Hb. replace (Z.max 0 (f - e)) with (f - e) in Hb by lia.
    destruct (Hb ltac:(lia)) as (Hfin & Hnn & Hval & m1 & Hm1 & HQ & Herr).
    clear Hb.
    split; [apply Hval; exact Hef|]. split; [exact Hfin|].
    split; [apply Hnn; reflexivity|].
    replace (e + (f - e)) with f in HQ by lia.
    rewrite HQ.
    assert (Hprod : (60 * Py.Q_of_float (S754_finite false mx ex)
                     == inject_Z (Zpos P) * 2 ^ e)%Q).
    { cbn [Py.Q_of_float cond_Zopp]. rewrite HP, inject_Z_mult.
      unfold e. rewrite Qpow2_add.
      assert (H60 : (inject_Z (Zpos M) * 2 ^ (-47) == 60)%Q) by reflexivity.
      rewrite <- H60. ring. }
    rewrite Hprod.
    assert (Hpn : 0 < 2 ^ (f - e)) by (apply Z.pow_pos_nonneg; lia).
    assert (H1 : - 2 ^ (f - e) <= 2 * (m1 * 2 ^ (f - e) - Zpos P)) by lia.
    assert (H2 : 2 * (m1 * 2 ^ (f - e) - Zpos P) <= 2 ^ (f - e)) by lia.
    apply Zle_Q in H1, H2. push_inject_in H1. push_inject_in H2.
    rewrite <- (Qpow2_nonneg (f - e)) in H1, H2 by lia.
    pose proof (Qpow2_sub f e) as Hsub.
    pose proof (Qpow2_pos e) as Hpe. pose proof (Qpow2_pos (f - e)) as Hpfe.
    assert (Hle : (2 ^ f <= 2 ^ (-47))%Q) by (apply Qpow2_le; lia).
    assert (H48 : (2 ^ (-47) == 2 * 2 ^ (-48))%Q) by reflexivity.
    change (inject_Z 2) with 2%Q in *.
    set (a := (2 ^ (f - e))%Q) in *. set (b := (2 ^ e)%Q) in *.
    set (c := (2 ^ f)%Q) in *. set (t := (2 ^ (-48))%Q) in *.
    set (u := (2 ^ (-47))%Q) in *.
    set (qm := inject_Z m1) in *. set (qp := inject_Z (Zpos P)) in *.
    assert (E : ((if false then - 1 else 1) * (qm * c) - qp * b
                 == (qm * a - qp) * b)%Q).
    { cbv iota. rewrite <- Hsub. ring. }
    rewrite E. apply Qabs_Qle_condition. split; nra.
Qed.

(** *** The integer part as a float *)

Lemma float_of_floor (x : Py.float) (d : Z) :
  Py.is_binary64 x = true -> Py.is_finite x = true -> Py.is_nonneg x = true ->
  Py.int_of_float x = Ok d ->
  exists d_f,
    Py.float_of_int d = Ok d_f
    /\ Py.is_binary64 d_f = true /\ Py.is_finite d_f = true
    /\ Py.is_nonneg d_f = true
    /\ (Py.Q_of_float d_f == inject_Z d)%Q.
Proof.
  intros Hv Hf Hn Hd.
  assert (Hzero : d = 0 -> exists d_f,
    Py.float_of_int d = Ok d_f
    /\ Py.is_binary64 d_f = true /\ Py.is_finite d_f = true
    /\ Py.is_nonneg d_f = true /\ (Py.Q_of_float d_f == inject_Z d)%Q).
  { intros ->. exists (S754_zero false). repeat split; reflexivity. }
  destruct x as [[|]|[|]| |[|] m e]; try discriminate.
  - injection Hd as <-. now apply Hzero.
  - cbn [Py.int_of_float cond_Zopp] in Hd. injection Hd as Hd.
    destruct (valid_inv _ _ _ Hv) as (_ & He & _ & Hm).
    destruct (Z.eq_dec d 0) as [Hz|Hnz]; [now apply Hzero|].
    destruct (Z.le_gt_cases 0 e) as [Hpos|Hneg].
    + rewrite shiftl_pow2 in Hd by exact Hpos.
      destruct (float_of_int_exact d m e) as (m' & e' & Heq & Hv' & HQ); try lia.
      { subst d.
        assert (2 ^ e <= 2 ^ 971) by (apply Z.pow_le_mono_r; lia).
        assert (0 < 2 ^ e) by (apply Z.pow_pos_nonneg; lia).
        change (2 ^ 1024) with (2 ^ 53 * 2 ^ 971). nia. }
      exists (S754_finite false m' e'). repeat split; assumption.
    + rewrite Z.shiftl_div_pow2 in Hd by lia.
      assert (HP : 0 < 2 ^ (- e)) by (apply Z.pow_pos_nonneg; lia).
      assert (Hd0 : 0 <= d) by (subst d; apply Z.div_pos; lia).
      assert (Hdm : d <= Zpos m).
      { subst d. apply Z.div_le_upper_bound; [lia|]. nia. }
      destruct d as [|p|p]; try lia.
      destruct (float_of_int_exact (Zpos p) p 0) as (m' & e' & Heq & Hv' & HQ);
        try lia.
      exists (S754_finite false m' e'). repeat split; assumption.
Qed.

Lemma fabs_facts (v : Py.float) :
  Py.is_binary64 v = true -> Py.is_finite v = true ->
  Py.is_binary64 (Py.fabs v) = true /\ Py.is_finite (Py.fabs v) = true
  /\ Py.is_nonneg (Py.fabs v) = true
  /\ (Py.Q_of_float (Py.fabs v) == Qabs (Py.Q_of_float v))%Q.
Proof.
  intros Hv Hf. destruct v as [s|s| |s m e]; try discriminate.
  - repeat split; reflexivity.
  - repeat split; try reflexivity; try exact Hv.
    cbn [Py.fabs SFabs]. rewrite !Q_of_finite.
    pose proof (Qpow2_pos e).
    assert (0 < inject_Z (Zpos m))%Q by (apply (Zlt_Q 0); lia).
    assert (Hp : (0 < inject_Z (Zpos m) * 2 ^ e)%Q) by nra.
    destruct s.
    + setoid_replace (- 1 * (inject_Z (Z.pos m) * 2 ^ e))%Q
        with (- (inject_Z (Z.pos m) * 2 ^ e))%Q by ring.
      rewrite Qabs_opp, Qabs_pos by lra. ring.
    + rewrite Qabs_pos by lra. reflexivity.
Qed.

(** The comparison [value >= 0] agrees with the sign of the exact value. *)
Lemma fge_zero (v : Py.float) :
  Py.is_finite v = true ->
  Py.fge v Py.fzero = Qle_bool 0 (Py.Q_of_float v).
Proof.
  intros Hf. destruct v as [s|s| |s m e]; try discriminate.
  - destruct s; reflexivity.
  - pose proof (Q_of_finite_pos m e) as Hp. destruct s.
    + cbn [Py.fge SFcompare Py.fzero]. symmetry.
      destruct (Qle_bool 0 (Py.Q_of_float (S754_finite true m e))) eqn:E;
        [|reflexivity].
      apply Qle_bool_iff in E. rewrite Q_of_finite in E.
      rewrite Q_of_finite in Hp. lra.
    + cbn [Py.fge SFcompare Py.fzero]. symmetry. apply Qle_bool_iff. lra.
Qed.

(** *** The arithmetic of [dec_to_dms] *)

Lemma int_cases (d : Z) (q : Q) :
  0 <= d -> (q == inject_Z d)%Q -> (q == 0 \/ 1 <= q)%Q.
Proof.
  intros Hd Hq. destruct (Z.eq_dec d 0) as [->|Hnz].
  - left. exact Hq.
  - right. rewrite Hq. apply (Zle_Q 1). lia.
Qed.

(** Every step of the conversion succeeds on a finite binary64 value, and
    the integers and floats it goes through are related to the exact value
    as follows. *)
Lemma dms_steps (v : Py.float) :
  Py.is_binary64 v = true -> Py.is_finite v = true ->
  exists (d m : Z) (d_f m_f : Py.float),
    let a := Py.fabs v in
    let m_full := Py.fmul (Py.fsub a d_f) SIXTY in
    let s := Py.fmul (Py.fsub m_full m_f) SIXTY in
    Py.int_of_float a = Ok d /\ Py.float_of_int d = Ok d_f
    /\ Py.int_of_float m_full = Ok m /\ Py.float_of_int m = Ok m_f
    /\ 0 <= d /\ 0 <= m
    /\ (inject_Z d <= Qabs (Py.Q_of_float v) < inject_Z d + 1)%Q
    /\ (Py.Q_of_float d_f == inject_Z d)%Q
    /\ (Qabs (Py.Q_of_float m_full
              - 60 * (Qabs (Py.Q_of_float v) - inject_Z d)) <= 2 ^ (-48))%Q
    /\ (inject_Z m <= Py.Q_of_float m_full < inject_Z m + 1)%Q
    /\ (Py.Q_of_float m_f == inject_Z m)%Q
    /\ (Qabs (Py.Q_of_float s
              - 60 * (Py.Q_of_float m_full - inject_Z m)) <= 2 ^ (-48))%Q
    /\ Py.is_finite s = true /\ Py.is_nonneg s = true.
Proof.
  intros Hv Hf.
  destruct (fabs_facts v Hv Hf) as (Hva & Hfa & Hna & HQa).
  destruct (int_of_float_floor _ Hfa Hna) as (d & Hd & Hd0 & Hdfl).
  destruct (float_of_floor _ d Hva Hfa Hna Hd) as (d_f & Hdf & Hvd & Hfd & Hnd & HQd).
  destruct (fsub_frac (Py.fabs v) d_f Hva Hfa Hna Hvd Hfd Hnd)
    as (Hv1 & Hf1 & Hn1 & HQ1).
  { rewrite HQd. lra. }
  { apply (int_cases d); assumption. }
  destruct (fmul_sixty _ Hv1 Hf1 Hn1) as (Hv2 & Hf2 & Hn2 & HQ2).
  { rewrite HQ1, HQd. lra. }
  destruct (int_of_float_floor _ Hf2 Hn2) as (m & Hm & Hm0 & Hmfl).
  destruct (float_of_floor _ m Hv2 Hf2 Hn2 Hm) as (m_f & Hmf & Hvm & Hfm & Hnm & HQm).
  destruct (fsub_frac _ m_f Hv2 Hf2 Hn2 Hvm Hfm Hnm) as (Hv3 & Hf3 & Hn3 & HQ3).
  { rewrite HQm. lra. }
  { apply (int_cases m); assumption. }
  destruct (fmul_sixty _ Hv3 Hf3 Hn3) as (Hv4 & Hf4 & Hn4 & HQ4).
  { rewrite HQ3, HQm. lra. }
  exists d, m, d_f, m_f. cbv zeta.
  rewrite HQa in Hdfl. rewrite HQ1, HQd, HQa in HQ2. rewrite HQ3, HQm in HQ4.
  repeat split; try assumption; try apply Hdfl; try apply Hmfl.
Qed.

End Binary64.

(** ** The DMS string *)

Section DMS.

Lemma zfill5_split (a b : string) :
  String.length b = 2%nat ->
  Str.zfill 5 (a ++ "." ++ b) = Str.zfill 2 a ++ "." ++ b.
Proof.
  intros Hb. unfold Str.zfill. rewrite !length_app, Hb.
  cbn [String.length].
  replace (5 - (String.length a + (1 + 2)))%nat with (2 - String.length a)%nat by lia.
  now rewrite app_assoc.
Qed.

(** The printed seconds of a finite non-negative float. *)
Lemma format_seconds (x : Py.float) :
  Py.is_finite x = true -> Py.is_nonneg x = true ->
  let c := hundredths x in
  Fmt.format_05_2f x
  = Str.zfill 2 (Str.digits (c / 100)) ++ "." ++ Str.zfill 2 (Str.digits (c mod 100))
  /\ 0 <= c
  /\ (Qabs (inject_Z c - 100 * Py.Q_of_float x) <= 1 # 2)%Q.
Proof.
  intros Hf Hn. cbv zeta.
  assert (Hfmt : forall c, 0 <= c ->
    Str.zfill 5 (Str.digits (c / 100) ++ "." ++ Str.zfill 2 (Str.digits (c mod 100)))
    = Str.zfill 2 (Str.digits (c / 100)) ++ "." ++ Str.zfill 2 (Str.digits (c mod 100))).
  { intros c Hc. apply zfill5_split.
    pose proof (Z.mod_pos_bound c 100 ltac:(lia)).
    apply (zfill_digits 2 (c mod 100)); [simpl; lia | lia]. }
  destruct x as [[|]|[|]| |[|] m e]; try discriminate.
  - split; [reflexivity|]. split; [reflexivity|]. vm_compute. discriminate.
  - cbn [Fmt.format_05_2f Fmt.pad_signed hundredths]. unfold Fmt.fixed2.
    pose proof (round_half_even_nonneg (100 * Zpos m) e ltac:(lia)) as Hc.
    split; [apply Hfmt; exact Hc|]. split; [exact Hc|].
    pose proof (round_half_even_spec (100 * Zpos m) e) as H.
    rewrite inject_Z_mult in H. cbn [Py.Q_of_float cond_Zopp].
    change (inject_Z 100) with 100%Q in H.
    setoid_replace (100 * (inject_Z (Z.pos m) * 2 ^ e))%Q
      with (100 * inject_Z (Z.pos m) * 2 ^ e)%Q by ring.
    exact H.
Qed.

Lemma span_digits_stop (ds : string) (c : ascii) (rest : string) :
  Str.forallb Str.is_digit ds = true -> Str.is_digit c = false ->
  span_digits (ds ++ String c rest) = (ds, String c rest).
Proof.
  intros Hd Hc. induction ds as [|a ds IH].
  - cbn [append span_digits]. now rewrite Hc.
  - cbn [Str.forallb] in Hd. apply andb_true_iff in Hd as [Ha Hd].
    cbn [append span_digits]. rewrite Ha, (IH Hd). reflexivity.
Qed.

Lemma parse_digits_digits (n : Z) :
  0 <= n -> Str.parse_digits (Str.digits n) = Some n.
Proof.
  intros Hn. destruct (digits_spec n Hn) as (_ & Hl & _ & _ & _ & Hp).
  rewrite parse_digits_nonempty by exact Hl. rewrite Hp. f_equal; lia.
Qed.

(** Reading a DMS string back gives the numbers that were printed. *)
Lemma read_dms_print (hem : ascii) (d m c : Z) :
  0 <= d -> 0 <= m -> 0 <= c < 10000 ->
  read_dms (String hem (Str.digits d ++ DEGREE_SIGN ++ " " ++ Str.digits m ++ "' "
              ++ (Str.zfill 2 (Str.digits (c / 100)) ++ "."
                    ++ Str.zfill 2 (Str.digits (c mod 100))) ++ DQUOTE))
  = Some (hem, d, m, c).
Proof.
  intros Hd Hm Hc.
  destruct (digits_spec d Hd) as (Hdd & _).
  destruct (digits_spec m Hm) as (Hdm & _).
  assert (Hq : 0 <= c / 100 < 10 ^ Z.of_nat 2).
  { split; [apply Z.div_pos; lia|]. apply Z.div_lt_upper_bound; simpl; lia. }
  assert (Hr : 0 <= c mod 100 < 10 ^ Z.of_nat 2)
    by (apply (Z.mod_pos_bound c 100); lia).
  destruct (zfill_digits 2 (c / 100) Hq ltac:(lia)) as (_ & Hds & Hps).
  destruct (zfill_digits 2 (c mod 100) Hr ltac:(lia)) as (Hlc & Hdc & Hpc).
  set (S2 := Str.zfill 2 (Str.digits (c / 100))) in *.
  set (C2 := Str.zfill 2 (Str.digits (c mod 100))) in *.
  unfold read_dms.
  change (DEGREE_SIGN ++ " " ++ Str.digits m ++ "' " ++ (S2 ++ "." ++ C2) ++ DQUOTE)
    with (String "194" (String "176" (String " "
            (Str.digits m ++ "' " ++ (S2 ++ "." ++ C2) ++ DQUOTE)))).
  rewrite span_digits_stop by (assumption || reflexivity).
  change (drop_prefix (DEGREE_SIGN ++ " ")
            (String "194" (String "176" (String " "
               (Str.digits m ++ "' " ++ (S2 ++ "." ++ C2) ++ DQUOTE)))))
    with (Some (Str.digits m ++ "' " ++ (S2 ++ "." ++ C2) ++ DQUOTE)).
  cbv beta iota.
  change ("' " ++ (S2 ++ "." ++ C2) ++ DQUOTE)
    with (String "'" (String " " ((S2 ++ "." ++ C2) ++ DQUOTE))).
  rewrite span_digits_stop by (assumption || reflexivity).
  change (drop_prefix "' " (String "'" (String " " ((S2 ++ "." ++ C2) ++ DQUOTE))))
    with (Some ((S2 ++ "." ++ C2) ++ DQUOTE)).
  cbv beta iota.
  rewrite !app_assoc.
  change ("." ++ C2 ++ DQUOTE) with (String "." (C2 ++ DQUOTE)).
  rewrite span_digits_stop by (assumption || reflexivity).
  change (drop_prefix "." (String "." (C2 ++ DQUOTE))) with (Some (C2 ++ DQUOTE)).
  cbv beta iota.
  unfold DQUOTE at 1.
  rewrite span_digits_stop by (assumption || reflexivity).
  rewrite !parse_digits_digits by assumption. rewrite Hps, Hpc, Hlc.
  change (String.eqb (String "034" "") DQUOTE) with true. cbn [andb Nat.eqb].
  do 3 f_equal. pose proof (Z.div_mod c 100 ltac:(lia)). lia.
Qed.

Lemma of_int_nonneg (n : Z) : 0 <= n -> Str.of_int n = Str.digits n.
Proof.
  intros H. unfold Str.of_int. destruct (Z.ltb_spec n 0); [lia | reflexivity].
Qed.

(** The string that [dec_to_dms] builds, once every step has succeeded. *)
Lemma dec_to_dms_eq (v : Py.float) (is_lat : bool) (d m : Z) (d_f m_f : Py.float) :
  let a := Py.fabs v in
  let m_full := Py.fmul (Py.fsub a d_f) SIXTY in
  let s := Py.fmul (Py.fsub m_full m_f) SIXTY in
  Py.is_finite v = true ->
  Py.int_of_float a = Ok d -> Py.float_of_int d = Ok d_f ->
  Py.int_of_float m_full = Ok m -> Py.float_of_int m = Ok m_f ->
  0 <= d -> 0 <= m ->
  dec_to_dms v is_lat
  = Ok (String (hemisphere (Py.Q_of_float v) is_lat)
          (Str.digits d ++ DEGREE_SIGN ++ " " ++ Str.digits m ++ "' "
             ++ Fmt.format_05_2f s ++ DQUOTE)).
Proof.
  cbv zeta. intros Hf Hd Hdf Hm Hmf Hd0 Hm0.
  unfold dec_to_dms. rewrite Hd. cbn [bind]. rewrite Hdf. cbn [bind].
  rewrite Hm. cbn [bind]. rewrite Hmf. cbn [bind].
  rewrite !of_int_nonneg by assumption.
  rewrite (fge_zero v Hf). unfold hemisphere.
  destruct is_lat, (Qle_bool 0 (Py.Q_of_float v)); reflexivity.
Qed.

(** The seconds stay below 100, so they fill exactly the width 5. *)
Lemma seconds_range (x y : Q) (c m : Z) :
  (inject_Z m <= x < inject_Z m + 1)%Q ->
  (Qabs (y - 60 * (x - inject_Z m)) <= 2 ^ (-48))%Q ->
  (Qabs (inject_Z c - 100 * y) <= 1 # 2)%Q ->
  c < 10000.
Proof.
  intros Hx Hy Hc.
  apply Qabs_Qle_condition in Hy. apply Qabs_Qle_condition in Hc.
  assert (Ht : (2 ^ (-48) <= 1 # 1000)%Q) by (vm_compute; discriminate).
  rewrite Zlt_Qlt. change (inject_Z 10000) with 10000%Q.
  set (t := (2 ^ (-48))%Q) in *. lra.
Qed.

(** C4: for every finite binary64 value [v] and axis flag, the DMS formatter
    returns the hemisphere letter ([N]/[E] for [v >= 0], [S]/[W] for
    [v < 0]), the degrees, the degree sign and a space, the minutes, an
    apostrophe and a space, the seconds and a double quote, where the
    degrees [d] are the integer part of [|v|], the minutes [m] the integer
    part of the float [(|v| - d) * 60], the seconds the float
    [(m_full - m) * 60] printed with two decimals in width 5 and the
    degrees and minutes are printed without leading zeros. *)
Theorem C4_dms_format (v : Py.float) (is_lat : bool) :
  Py.is_binary64 v = true -> Py.is_finite v = true ->
  exists (d m : Z) (d_f m_f : Py.float) (sec : string),
    let m_full := Py.fmul (Py.fsub (Py.fabs v) d_f) SIXTY in
    let s := Py.fmul (Py.fsub m_full m_f) SIXTY in
    dec_to_dms v is_lat
    = Ok (String (hemisphere (Py.Q_of_float v) is_lat)
            (Str.digits d ++ DEGREE_SIGN ++ " " ++ Str.digits m ++ "' "
               ++ sec ++ DQUOTE))
    /\ (* degrees *)
       (Py.int_of_float (Py.fabs v) = Ok d /\ 0 <= d
        /\ (inject_Z d <= Qabs (Py.Q_of_float v) < inject_Z d + 1)%Q
        /\ Py.float_of_int d = Ok d_f /\ (Py.Q_of_float d_f == inject_Z d)%Q)
    /\ (* minutes *)
       (Py.int_of_float m_full = Ok m /\ 0 <= m
        /\ (inject_Z m <= Py.Q_of_float m_full < inject_Z m + 1)%Q
        /\ (Qabs (Py.Q_of_float m_full
                  - 60 * (Qabs (Py.Q_of_float v) - inject_Z d)) <= 2 ^ (-48))%Q
        /\ Py.float_of_int m = Ok m_f /\ (Py.Q_of_float m_f == inject_Z m)%Q)
    /\ (* seconds *)
       (sec = Fmt.format_05_2f s
        /\ (Qabs (Py.Q_of_float s
                  - 60 * (Py.Q_of_float m_full - inject_Z m)) <= 2 ^ (-48))%Q
        /\ matches_shape "DD.DD" sec = true
        /\ String.length sec = 5%nat
        /\ exists c, Str.parse_digits (Str.slice 0 2 sec ++ Str.slice 3 5 sec) = Some c
             /\ (Qabs (inject_Z c / 100 - Py.Q_of_float s) <= 1 # 200)%Q)
    /\ (* no padding of degrees and minutes *)
       ((0 < d -> 10 ^ (Z.of_nat (String.length (Str.digits d)) - 1) <= d)
        /\ (d = 0 -> Str.digits d = "0")
        /\ (0 < m -> 10 ^ (Z.of_nat (String.length (Str.digits m)) - 1) <= m)
        /\ (m = 0 -> Str.digits m = "0")).
Proof.
  intros Hv Hf.
  destruct (dms_steps v Hv Hf)
    as (d & m & d_f & m_f & Hd & Hdf & Hm & Hmf & Hd0 & Hm0 & Hdfl & HQd
        & HQmf & Hmfl & HQm & HQs & Hfs & Hns).
  cbv zeta in *.
  set (m_full := Py.fmul (Py.fsub (Py.fabs v) d_f) SIXTY) in *.
  set (s := Py.fmul (Py.fsub m_full m_f) SIXTY) in *.
  exists d, m, d_f, m_f, (Fmt.format_05_2f s).
  cbv zeta. fold m_full. fold s.
  split; [apply dec_to_dms_eq; assumption|].
  split; [repeat split; try assumption; apply Hdfl|].
  split; [repeat split; try assumption; apply Hmfl|].
  split.
  - destruct (format_seconds s Hfs Hns) as (Hfmt & Hc0 & Hcerr).
    cbv zeta in *. set (c := hundredths s) in *.
    pose proof (seconds_range _ _ c m Hmfl HQs Hcerr) as Hc4.
    assert (Hq : 0 <= c / 100 < 10 ^ Z.of_nat 2).
    { split; [apply Z.div_pos; lia|]. apply Z.div_lt_upper_bound; simpl; lia. }
    assert (Hr : 0 <= c mod 100 < 10 ^ Z.of_nat 2)
      by (apply (Z.mod_pos_bound c 100); lia).
    destruct (zfill_digits 2 (c / 100) Hq ltac:(lia)) as (Hls & Hds & Hps).
    destruct (zfill_digits 2 (c mod 100) Hr ltac:(lia)) as (Hlc & Hdc & Hpc).
    rewrite Hfmt.
    remember (Str.zfill 2 (Str.digits (c / 100))) as S2 eqn:ES2.
    remember (Str.zfill 2 (Str.digits (c mod 100))) as C2 eqn:EC2.
    clear ES2 EC2 Hfmt.
    split; [reflexivity|]. split; [exact HQs|].
    destruct S2 as [|s1 [|s2 [|]]]; try discriminate.
    destruct C2 as [|c1 [|c2 [|]]]; try discriminate.
    cbn [Str.forallb] in Hds, Hdc.
    apply andb_true_iff in Hds as [Hs1 Hs2]. apply andb_true_iff in Hs2 as [Hs2 _].
    apply andb_true_iff in Hdc as [Hc1 Hc2]. apply andb_true_iff in Hc2 as [Hc2 _].
    split.
    { cbn -[Str.is_digit]. rewrite Hs1, Hs2, Hc1, Hc2. reflexivity. }
    split; [reflexivity|].
    exists c. split.
    + change (Str.slice 0 2 (String s1 (String s2 "") ++ "." ++ String c1 (String c2 ""))
              ++ Str.slice 3 5 (String s1 (String s2 "") ++ "." ++ String c1 (String c2 "")))
        with (String s1 (String s2 "") ++ String c1 (String c2 "")).
      rewrite parse_digits_nonempty by (simpl; lia).
      rewrite parse_digits_nonempty in Hps, Hpc by (simpl; lia).
      rewrite parse_digits_acc_app
        by (cbn [Str.forallb]; rewrite Hs1, Hs2; reflexivity).
      rewrite Hps.
      rewrite (parse_digits_acc_shift _ 0 (c / 100) _ Hpc). f_equal.
      change (10 ^ Z.of_nat (String.length (String c1 (String c2 "")))) with 100.
      pose proof (Z.div_mod c 100 ltac:(lia)). lia.
    + apply Qabs_Qle_condition in Hcerr. apply Qabs_Qle_condition.
      set (y := Py.Q_of_float s) in *. set (qc := inject_Z c) in *.
      assert (E : (qc / 100 == qc * (1 # 100))%Q) by (unfold Qdiv; reflexivity).
      rewrite E. split; lra.
  - destruct (digits_spec d Hd0) as (_ & _ & _ & Hlbd & Hzd & _).
    destruct (digits_spec m Hm0) as (_ & _ & _ & Hlbm & Hzm & _).
    repeat split; assumption.
Qed.

(** The latitude 33.9425, that is 33 degrees, 56 minutes and 33.00 seconds
    north. *)
Lemma C4_dms_format_witness :
  Py.is_binary64 (S754_finite false 4776982198500721 (-47)) = true
  /\ Py.is_finite (S754_finite false 4776982198500721 (-47)) = true
  /\ exists d m sec,
       dec_to_dms (S754_finite false 4776982198500721 (-47)) true
       = Ok (String "N" (Str.digits d ++ DEGREE_SIGN ++ " " ++ Str.digits m
                           ++ "' " ++ sec ++ DQUOTE)).
Proof.
  split; [reflexivity|]. split; [reflexivity|].
  destruct (C4_dms_format (S754_finite false 4776982198500721 (-47)) true
              eq_refl eq_refl) as (d & m & d_f & m_f & sec & H & _).
  exists d, m, sec. exact H.
Defined.

(** C5: for every finite binary64 latitude or longitude [v], the hemisphere
    letter of the DMS string agrees with the sign of [v], and the degrees,
    minutes and seconds printed in the string, recombined with the sign of
    the hemisphere, are within 1/360000 of a degree of [v]. *)
Theorem C5_dms_roundtrip (v : Py.float) (is_lat : bool) :
  Py.is_binary64 v = true -> Py.is_finite v = true ->
  exists (s : string) (rest : string) (q : Q),
    dec_to_dms v is_lat = Ok s
    /\ s = String (hemisphere (Py.Q_of_float v) is_lat) rest
    /\ dms_value s = Some q
    /\ (Qabs (q - Py.Q_of_float v) <= 1 # 360000)%Q.
Proof.
  intros Hv Hf.
  destruct (dms_steps v Hv Hf)
    as (d & m & d_f & m_f & Hd & Hdf & Hm & Hmf & Hd0 & Hm0 & Hdfl & HQd
        & HQmf & Hmfl & HQm & HQs & Hfs & Hns).
  cbv zeta in *.
  set (m_full := Py.fmul (Py.fsub (Py.fabs v) d_f) SIXTY) in *.
  set (sf := Py.fmul (Py.fsub m_full m_f) SIXTY) in *.
  pose proof (dec_to_dms_eq v is_lat d m d_f m_f Hf Hd Hdf Hm Hmf Hd0 Hm0) as Heq.
  cbv zeta in Heq. fold m_full in Heq. fold sf in Heq.
  destruct (format_seconds sf Hfs Hns) as (Hfmt & Hc0 & Hcerr).
  cbv zeta in *. set (c := hundredths sf) in *.
  pose proof (seconds_range _ _ c m Hmfl HQs Hcerr) as Hc4.
  rewrite Hfmt in Heq.
  pose proof (read_dms_print (hemisphere (Py.Q_of_float v) is_lat) d m c
                Hd0 Hm0 ltac:(lia)) as Hread.
  eexists. eexists.
  exists (if Qle_bool 0 (Py.Q_of_float v)
          then inject_Z d + inject_Z m / 60 + inject_Z c / 360000
          else - (inject_Z d + inject_Z m / 60 + inject_Z c / 360000))%Q.
  split; [exact Heq|]. split; [reflexivity|].
  unfold dms_value. rewrite Hread.
  assert (Ht : (2 ^ (-48) <= 1 # 1000000000)%Q) by (vm_compute; discriminate).
  apply Qabs_Qle_condition in HQmf. apply Qabs_Qle_condition in HQs.
  apply Qabs_Qle_condition in Hcerr.
  set (A := Qabs (Py.Q_of_float v)) in *.
  set (X := Py.Q_of_float m_full) in *. set (Y := Py.Q_of_float sf) in *.
  set (t := (2 ^ (-48))%Q) in *.
  set (qd := inject_Z d) in *. set (qm := inject_Z m) in *.
  set (qc := inject_Z c) in *.
  assert (E : (qd + qm / 60 + qc / 360000
               == qd + qm * (1 # 60) + qc * (1 # 360000))%Q)
    by (unfold Qdiv; reflexivity).
  assert (HR : (- (1 # 360000) <= qd + qm / 60 + qc / 360000 - A <= 1 # 360000)%Q).
  { rewrite E. split; lra. }
  clear - HR. subst qd qm qc A.
  unfold hemisphere.
  destruct (Qle_bool 0 (Py.Q_of_float v)) eqn:Hsign.
  - apply Qle_bool_iff in Hsign.
    rewrite (Qabs_pos _ Hsign) in HR.
    destruct is_lat; cbn [Ascii.eqb Bool.eqb orb]; (split; [reflexivity|]);
      apply Qabs_Qle_condition; exact HR.
  - assert (Hneg : (Py.Q_of_float v <= 0)%Q).
    { apply Qlt_le_weak, Qnot_le_lt. intros Hle.
      apply Qle_bool_iff in Hle. congruence. }
    rewrite (Qabs_neg _ Hneg) in HR.
    destruct is_lat; cbn [Ascii.eqb Bool.eqb orb]; (split; [reflexivity|]);
      apply Qabs_Qle_condition; split; lra.
Qed.

(** The longitude -118.408, printed as 118 degrees, 24 minutes and 28.80
    seconds west, reads back within the tolerance. *)
Lemma C5_dms_roundtrip_witness :
  Py.is_binary64 (S754_finite true 8332222260588839 (-46)) = true
  /\ Py.is_finite (S754_finite true 8332222260588839 (-46)) = true
  /\ exists s q,
       dec_to_dms (S754_finite true 8332222260588839 (-46)) false = Ok s
       /\ dms_value s = Some q
       /\ (Qabs (q - Py.Q_of_float (S754_finite true 8332222260588839 (-46)))
            <= 1 # 360000)%Q.
Proof.
  split; [reflexivity|]. split; [reflexivity|].
  destruct (C5_dms_roundtrip (S754_finite true 8332222260588839 (-46)) false
              eq_refl eq_refl) as (s & rest & q & H1 & _ & H2 & H3).
  exists s, q. repeat split; assumption.
Defined.

End DMS.

(** ** The route pattern *)

Section RoutePattern.

Lemma space_not_t (c : ascii) :
  Str.is_space c = true -> Ascii.eqb (Str.lower_char c) (Str.lower_char "t") = false.
Proof.
  destruct c as [[] [] [] [] [] [] [] []]; intros H; try discriminate H; reflexivity.
Qed.

Lemma space_not_word (c : ascii) : Str.is_space c = true -> Str.is_word c = false.
Proof.
  destruct c as [[] [] [] [] [] [] [] []]; intros H; try discriminate H; reflexivity.
Qed.

Lemma word_not_space (c : ascii) : Str.is_word c = true -> Str.is_space c = false.
Proof.
  intros H. destruct (Str.is_space c) eqn:E; [|reflexivity].
  apply space_not_word in E. congruence.
Qed.

Lemma run_times4 (p : ascii -> bool) (s : string) (gs : list string) (k : Re.K) :
  Re.run (Re.Times 4 (Re.Class p)) s gs k
  = match s with
    | String c1 (String c2 (String c3 (String c4 s'))) =>
        if p c1 && p c2 && p c3 && p c4 then k s' gs else None
    | _ => None
    end.
Proof.
  cbn [Re.run].
  destruct s as [|c1 [|c2 [|c3 [|c4 s']]]]; try reflexivity;
    repeat match goal with
           | |- context [p ?c] => destruct (p c); cbn [andb]; try reflexivity
           end.
Qed.

(** A greedy [+] in front of a continuation that cannot start inside the
    class: the whole run is consumed. *)
Lemma plus_class_greedy (p : ascii -> bool) (gs : list string) (k : Re.K) :
  (forall c s', p c = true -> k (String c s') gs = None) ->
  forall s,
    Re.plus_class p s gs k
    = match s with
      | String c s' => if p c then k (Str.lstrip p s') gs else None
      | EmptyString => None
      end.
Proof.
  intros Hk s. induction s as [|c s IH]; [reflexivity|].
  cbn [Re.plus_class]. destruct (p c) eqn:Hc; [|reflexivity].
  rewrite IH. destruct s as [|c' s']; [reflexivity|].
  cbn [Str.lstrip]. destruct (p c') eqn:Hc'.
  - destruct (k (Str.lstrip p s') gs) eqn:E; [reflexivity|].
    apply Hk. exact Hc'.
  - reflexivity.
Qed.

Lemma consumed4 (c1 c2 c3 c4 : ascii) (s : string) :
  Re.consumed (String c1 (String c2 (String c3 (String c4 s)))) s
  = String c1 (String c2 (String c3 (String c4 ""))).
Proof.
  unfold Re.consumed. cbn [String.length].
  replace (S (S (S (S (String.length s)))) - String.length s)%nat with 4%nat by lia.
  reflexivity.
Qed.

Lemma run_seq (r1 r2 : Re.regex) (s : string) (gs : list string) (k : Re.K) :
  Re.run (Re.Seq r1 r2) s gs k = Re.run r1 s gs (fun s' gs' => Re.run r2 s' gs' k).
Proof. reflexivity. Qed.

Lemma run_group (r : Re.regex) (s : string) (gs : list string) (k : Re.K) :
  Re.run (Re.Group r) s gs k
  = Re.run r s gs (fun s' gs' => k s' (gs' ++ [Re.consumed s s'])%list).
Proof. reflexivity. Qed.

Lemma run_lit (a : ascii) (s : string) (gs : list string) (k : Re.K) :
  Re.run (Re.Lit a) s gs k
  = match s with
    | String c s' =>
        if Ascii.eqb (Str.lower_char c) (Str.lower_char a) then k s' gs else None
    | EmptyString => None
    end.
Proof. reflexivity. Qed.

Lemma run_plus (p : ascii -> bool) (s : string) (gs : list string) (k : Re.K) :
  Re.run (Re.PlusClass p) s gs k = Re.plus_class p s gs k.
Proof. reflexivity. Qed.

(** The matcher and the hand-written recogniser agree. *)
Lemma match_route_split (title : string) :
  Re.match_ ROUTE_RE title
  = match route_split title with
    | Some (a, b) => Some [a; b]
    | None => None
    end.
Proof.
  unfold Re.match_, ROUTE_RE.
  rewrite run_seq, run_group, run_times4.
  destruct title as [|c1 [|c2 [|c3 [|c4 s4]]]]; try reflexivity.
  rewrite consumed4. cbn [app].
  unfold route_split.
  destruct (Str.is_word c1 && Str.is_word c2 && Str.is_word c3 && Str.is_word c4)
    eqn:Hw; cbn [andb].
  2:{ destruct s4; reflexivity. }
  rewrite run_seq, run_plus.
  rewrite plus_class_greedy.
  2:{ intros c s' Hc. rewrite run_seq, run_lit. now rewrite space_not_t. }
  destruct s4 as [|w s5]; [reflexivity|].
  destruct (Str.is_space w); [|reflexivity].
  rewrite run_seq, run_lit.
  destruct (Str.lstrip Str.is_space s5) as [|t r1]; [reflexivity|].
  change (Str.lower_char "t") with "t"%char.
  destruct (Ascii.eqb (Str.lower_char t) "t"); cbn [andb].
  2:{ destruct r1 as [|? [|? ?]]; reflexivity. }
  rewrite run_seq, run_lit.
  destruct r1 as [|o r2]; [reflexivity|].
  change (Str.lower_char "o") with "o"%char.
  destruct (Ascii.eqb (Str.lower_char o) "o"); cbn [andb].
  2:{ destruct r2; reflexivity. }
  rewrite run_seq, run_plus.
  rewrite plus_class_greedy.
  2:{ intros c s' Hc. rewrite run_group, run_times4.
      rewrite (space_not_word c Hc). destruct s' as [|? [|? [|? ?]]]; reflexivity. }
  destruct r2 as [|w2 s6]; [reflexivity|].
  destruct (Str.is_space w2); [|reflexivity].
  rewrite run_group, run_times4.
  destruct (Str.lstrip Str.is_space s6) as [|d1 [|d2 [|d3 [|d4 r4]]]]; try reflexivity.
  rewrite consumed4.
  destruct (Str.is_word d1 && Str.is_word d2 && Str.is_word d3 && Str.is_word d4);
    reflexivity.
Qed.

Lemma lstrip_split (p : ascii -> bool) (s : string) :
  exists ws, s = ws ++ Str.lstrip p s /\ Str.forallb p ws = true.
Proof.
  induction s as [|c s (ws & Hs & Hws)].
  - exists "". split; reflexivity.
  - cbn [Str.lstrip]. destruct (p c) eqn:Hc.
    + exists (String c ws). split.
      * cbn [append]. now rewrite <- Hs.
      * cbn [Str.forallb]. now rewrite Hc, Hws.
    + exists "". split; reflexivity.
Qed.

Lemma lstrip_app (p : ascii -> bool) (ws : string) (c : ascii) (r : string) :
  Str.forallb p ws = true -> p c = false ->
  Str.lstrip p (ws ++ String c r) = String c r.
Proof.
  intros Hws Hc. induction ws as [|a ws IH].
  - cbn [append Str.lstrip]. now rewrite Hc.
  - cbn [Str.forallb] in Hws. apply andb_true_iff in Hws as [Ha Hws].
    cbn [append Str.lstrip]. rewrite Ha. now apply IH.
Qed.

Lemma lower_t_not_space (c : ascii) :
  Str.lower_char c = "t"%char -> Str.is_space c = false.
Proof.
  destruct c as [[] [] [] [] [] [] [] []]; intros H; try discriminate H; reflexivity.
Qed.

(** The recogniser accepts exactly the titles of the worded pattern. *)
Lemma route_split_phrase (title a b : string) :
  route_split title = Some (a, b) <-> route_phrase title a b.
Proof.
  split.
  - unfold route_split.
    destruct title as [|c1 [|c2 [|c3 [|c4 [|w s5]]]]]; try discriminate.
    destruct (Str.is_word c1 && Str.is_word c2 && Str.is_word c3
              && Str.is_word c4 && Str.is_space w) eqn:H1; [|discriminate].
    destruct (lstrip_split Str.is_space s5) as (ws1 & Hs5 & Hws1).
    destruct (Str.lstrip Str.is_space s5) as [|t [|o [|w2 s6]]]; try discriminate.
    destruct (Ascii.eqb (Str.lower_char t) "t" && Ascii.eqb (Str.lower_char o) "o"
              && Str.is_space w2) eqn:H2; [|discriminate].
    destruct (lstrip_split Str.is_space s6) as (ws2 & Hs6 & Hws2).
    destruct (Str.lstrip Str.is_space s6) as [|d1 [|d2 [|d3 [|d4 r4]]]];
      try discriminate.
    destruct (Str.is_word d1 && Str.is_word d2 && Str.is_word d3 && Str.is_word d4)
      eqn:H3; [|discriminate].
    intros [= <- <-].
    repeat (apply andb_true_iff in H1 as [H1 ?]).
    repeat (apply andb_true_iff in H2 as [H2 ?]).
    repeat (apply andb_true_iff in H3 as [H3 ?]).
    exists (String w ws1), t, o, (String w2 ws2), r4.
    split; [subst s5 s6; reflexivity|].
    split; [reflexivity|].
    split; [cbn [Str.forallb]; repeat (apply andb_true_iff; split); auto|].
    split; [discriminate|].
    split; [cbn [Str.forallb]; apply andb_true_iff; split; auto|].
    split; [now apply Ascii.eqb_eq|]. split; [now apply Ascii.eqb_eq|].
    split; [discriminate|].
    split; [cbn [Str.forallb]; apply andb_true_iff; split; auto|].
    split; [reflexivity|].
    cbn [Str.forallb]; repeat (apply andb_true_iff; split); auto.
  - intros (ws1 & t & o & ws2 & rest & -> & Hla & Hwa & Hn1 & Hs1 & Ht & Ho
            & Hn2 & Hs2 & Hlb & Hwb).
    destruct a as [|c1 [|c2 [|c3 [|c4 [|]]]]]; try discriminate.
    destruct b as [|d1 [|d2 [|d3 [|d4 [|]]]]]; try discriminate.
    destruct ws1 as [|w ws1]; [congruence|].
    destruct ws2 as [|w2 ws2]; [congruence|].
    cbn [Str.forallb] in Hwa, Hwb, Hs1, Hs2.
    repeat (apply andb_true_iff in Hwa as [? Hwa]).
    repeat (apply andb_true_iff in Hwb as [? Hwb]).
    apply andb_true_iff in Hs1 as [Hw Hs1]. apply andb_true_iff in Hs2 as [Hw2 Hs2].
    cbn [append route_split].
    repeat match goal with H : Str.is_word _ = true |- _ => rewrite H end.
    rewrite Hw. cbn [andb].
    rewrite (lstrip_app Str.is_space ws1 t _ Hs1 (lower_t_not_space t Ht)).
    rewrite Ht, Ho, Hw2. cbn [Ascii.eqb Bool.eqb andb].
    rewrite (lstrip_app Str.is_space ws2 d1 _ Hs2) by now apply word_not_space.
    repeat match goal with H : Str.is_word _ = true |- _ => rewrite H end.
    reflexivity.
Qed.

End RoutePattern.

(** ** The builder *)

Section Builder.

Lemma dec_to_dms_ok (v : Py.float) (is_lat : bool) :
  Py.is_binary64 v = true -> Py.is_finite v = true ->
  exists s, dec_to_dms v is_lat = Ok s.
Proof.
  intros Hv Hf.
  destruct (dms_steps v Hv Hf)
    as (d & m & d_f & m_f & Hd & Hdf & Hm & Hmf & Hd0 & Hm0 & _).
  eexists. apply (dec_to_dms_eq v is_lat d m d_f m_f); assumption.
Qed.

Lemma lla_str_ok (w : waypoint) :
  convertible w = true ->
  exists s, lla_str (wp_lat w) (wp_lon w) (wp_alt w) = Ok s.
Proof.
  unfold convertible. intros H.
  repeat (apply andb_true_iff in H as [H ?]).
  destruct (dec_to_dms_ok (wp_lat w) true) as [a Ha]; try assumption.
  destruct (dec_to_dms_ok (wp_lon w) false) as [b Hb]; try assumption.
  destruct (round_finite (Py.fmul (wp_alt w) FT_PER_M)) as [ft Hft]; try assumption.
  unfold lla_str, alt_m_to_ft_str. rewrite Ha, Hb, Hft. cbn [bind]. eauto.
Qed.

Lemma atc_waypoint_shape (idx n : Z) (w : waypoint) (e : element) :
  atc_waypoint idx n w = Ok e ->
  exists pos, e = waypoint_node (classify idx n (wp_name w)) (wp_name w) pos.
Proof.
  unfold atc_waypoint.
  destruct (lla_str (wp_lat w) (wp_lon w) (wp_alt w)) as [pos|]; [|discriminate].
  cbn [bind]. intros [= <-]. exists pos. reflexivity.
Qed.

Lemma atc_waypoints_nth (wpts : list waypoint) :
  forall idx n nodes,
    atc_waypoints idx n wpts = Ok nodes ->
    List.length nodes = List.length wpts
    /\ (forall i w, List.nth_error wpts i = Some w ->
         exists pos,
           List.nth_error nodes i
           = Some (waypoint_node (classify (idx + Z.of_nat i) n (wp_name w))
                                 (wp_name w) pos))
    /\ (forall node, List.In node nodes ->
         exists i w pos,
           List.nth_error wpts i = Some w
           /\ node = waypoint_node (classify (idx + Z.of_nat i) n (wp_name w))
                                   (wp_name w) pos).
Proof.
  induction wpts as [|w rest IH]; intros idx n nodes H.
  - cbn in H. injection H as <-. split; [reflexivity|]. split.
    + intros [|i] w H; discriminate.
    + intros node [].
  - cbn [atc_waypoints] in H.
    destruct (atc_waypoint idx n w) as [e|] eqn:He; [|discriminate].
    cbn [bind] in H.
    destruct (atc_waypoints (idx + 1) n rest) as [es|] eqn:Hes; [|discriminate].
    cbn [bind] in H. injection H as <-.
    destruct (IH _ _ _ Hes) as (Hlen & Hnth & Hin).
    destruct (atc_waypoint_shape _ _ _ _ He) as [pos Hpos].
    split; [cbn; now rewrite Hlen|]. split.
    + intros [|i] w' Hw'.
      * injection Hw' as <-. exists pos. cbn [List.nth_error].
        rewrite Z.add_0_r. now rewrite Hpos.
      * destruct (Hnth i w' Hw') as [pos' Hp']. exists pos'.
        cbn [List.nth_error]. rewrite Hp'.
        replace (idx + 1 + Z.of_nat i) with (idx + Z.of_nat (S i)) by lia.
        reflexivity.
    + intros node [<-|Hn].
      * exists 0%nat, w, pos. split; [reflexivity|]. now rewrite Z.add_0_r.
      * destruct (Hin node Hn) as (i & w' & pos' & Hw' & ->).
        exists (S i), w', pos'. split; [exact Hw'|].
        replace (idx + 1 + Z.of_nat i) with (idx + Z.of_nat (S i)) by lia.
        reflexivity.
Qed.

Lemma atc_waypoints_ok (wpts : list waypoint) :
  List.Forall (fun w => convertible w = true) wpts ->
  forall idx n, exists nodes, atc_waypoints idx n wpts = Ok nodes.
Proof.
  induction 1 as [|w rest Hw _ IH]; intros idx n.
  - exists []. reflexivity.
  - destruct (lla_str_ok w Hw) as [pos Hpos].
    destruct (IH (idx + 1) n) as [es Hes].
    cbn [atc_waypoints]. unfold atc_waypoint. rewrite Hpos. cbn [bind].
    rewrite Hes. cbn [bind]. eauto.
Qed.

(** What a successful run of the builder went through. *)
Lemma build_inv (title : string) (wpts : list waypoint) (root : element) :
  build_pln_xml title wpts = Ok root ->
  exists dep dest w0 wN dep_lla dest_lla nodes,
    route_ids title wpts = Ok (dep, dest)
    /\ first_wp wpts = Ok w0 /\ last_wp wpts = Ok wN
    /\ lla_str (wp_lat w0) (wp_lon w0) (wp_alt w0) = Ok dep_lla
    /\ lla_str (wp_lat wN) (wp_lon wN) (wp_alt wN) = Ok dest_lla
    /\ atc_waypoints 0 (Z.of_nat (List.length wpts)) wpts = Ok nodes
    /\ root = pln_document title dep dest dep_lla dest_lla nodes.
Proof.
  unfold build_pln_xml.
  destruct (route_ids title wpts) as [[dep dest]|] eqn:E1; [|discriminate].
  cbn [bind].
  destruct (first_wp wpts) as [w0|] eqn:E2; [|discriminate]. cbn [bind].
  destruct (last_wp wpts) as [wN|] eqn:E3; [|discriminate]. cbn [bind].
  destruct (lla_str (wp_lat w0) (wp_lon w0) (wp_alt w0)) as [dep_lla|] eqn:E4;
    [|discriminate]. cbn [bind].
  destruct (lla_str (wp_lat wN) (wp_lon wN) (wp_alt wN)) as [dest_lla|] eqn:E5;
    [|discriminate]. cbn [bind].
  destruct (atc_waypoints 0 (Z.of_nat (List.length wpts)) wpts) as [nodes|] eqn:E6;
    [|discriminate]. cbn [bind].
  intros [= <-]. exists dep, dest, w0, wN, dep_lla, dest_lla, nodes.
  repeat split; assumption || reflexivity.
Qed.

Lemma last_cons {A : Type} (l : list A) :
  forall a d : A, List.last (a :: l) d = List.last l a.
Proof.
  induction l as [|b l IH]; intros a d; [reflexivity|].
  change (List.last (a :: b :: l) d) with (List.last (b :: l) d).
  now rewrite !IH.
Qed.

Lemma last_In {A : Type} (l : list A) :
  forall d : A, List.In (List.last l d) (d :: l).
Proof.
  induction l as [|a l IH]; intros d; [now left|].
  rewrite last_cons. right. apply IH.
Qed.

(** The builder is total on non-empty lists of convertible waypoints. *)
Lemma build_total (title : string) (w : waypoint) (rest : list waypoint) :
  List.Forall (fun w => convertible w = true) (w :: rest) ->
  exists root, build_pln_xml title (w :: rest) = Ok root.
Proof.
  intros Hall.
  assert (Hw0 : convertible w = true) by (inversion Hall; assumption).
  assert (HwN : convertible (List.last rest w) = true).
  { rewrite List.Forall_forall in Hall. apply Hall. apply last_In. }
  destruct (lla_str_ok _ Hw0) as [l0 Hl0].
  destruct (lla_str_ok _ HwN) as [lN HlN].
  destruct (atc_waypoints_ok _ Hall 0 (Z.of_nat (List.length (w :: rest))))
    as [nodes Hnodes].
  unfold build_pln_xml, route_ids.
  destruct (Re.match_ ROUTE_RE title); cbn [bind first_wp last_wp];
    rewrite Hl0, HlN; cbn [bind]; rewrite Hnodes; cbn [bind]; eauto.
Qed.

Lemma nodes_tagged (t : wp_type) (name pos : string) :
  has_tag "ATCWaypoint" (waypoint_node t name pos) = true.
Proof. reflexivity. Qed.

Lemma waypoint_nodes_document (title dep dest l0 lN : string) (nodes : list element) :
  (forall node, List.In node nodes -> has_tag "ATCWaypoint" node = true) ->
  waypoint_nodes (pln_document title dep dest l0 lN nodes) = nodes.
Proof.
  intros H. unfold waypoint_nodes, flight_plan, find_child, findall_child.
  cbn [pln_document children List.filter has_tag tag String.eqb Ascii.eqb
       Bool.eqb List.hd_error leaf].
  rewrite List.filter_app.
  cbn [List.filter has_tag tag leaf String.eqb Ascii.eqb Bool.eqb app].
  induction nodes as [|e es IH]; [reflexivity|].
  cbn [List.filter]. rewrite (H e) by now left.
  f_equal. apply IH. intros node Hn. apply H. now right.
Qed.

End Builder.

(** ** The claims about the built document *)

Section Document.












Lemma substring_all (s : string) : String.substring 0 (String.length s) s = s.
Proof. induction s as [|c s IH]; cbn; [reflexivity | now rewrite IH]. Qed.

(** The identifiers of a built document are those of [route_ids]. *)
Lemma build_ids (title : string) (wpts : list waypoint) (root : element) :
  build_pln_xml title wpts = Ok root ->
  exists dep dest,
    route_ids title wpts = Ok (dep, dest)
    /\ field "DepartureID" root = Some dep
    /\ field "DestinationID" root = Some dest.
Proof.
  intros H.
  destruct (build_inv _ _ _ H)
    as (dep & dest & w0 & wN & l0 & lN & nodes & Hids & _ & _ & _ & _ & _ & ->).
  exists dep, dest. split; [exact Hids|]. split; reflexivity.
Qed.







End Document.

(** ** The reader and the program *)

Section Reader.




Lemma read_placemarks_skip (pms : list element) :
  (forall pm, List.In pm pms -> find_child (kml "Point") pm = None) ->
  forall acc, read_placemarks pms acc = Ok acc.
Proof.
  induction pms as [|pm pms IH]; intros H acc; [reflexivity|].
  cbn [read_placemarks]. unfold read_placemark.
  rewrite (H pm) by now left. cbn [bind]. apply IH.
  intros pm' Hin. apply H. now right.
Qed.

Lemma qualifying_nil (root : element) :
  qualifying root = [] ->
  forall pm, List.In pm (findall_desc (kml "Placemark") root) ->
             find_child (kml "Point") pm = None.
Proof.
  unfold qualifying. intros H pm Hin.
  destruct (find_child (kml "Point") pm) eqn:E; [|reflexivity].
  assert (Hf : List.In pm
            (List.filter
               (fun pm => match find_child (kml "Point") pm with
                          | Some _ => true
                          | None => false
                          end)
               (findall_desc (kml "Placemark") root))).
  { apply List.filter_In. split; [exact Hin|]. now rewrite E. }
  rewrite H in Hf. destruct Hf.
Qed.

(** A run that ends with an exception leaves the file system as it was. *)
Lemma main_uncaught (typed : string) (fs : filesystem) (e : exn) :
  fst (main typed fs) = Uncaught e -> snd (main typed fs) = fs.
Proof.
  unfold main.
  destruct (isfile fs (Str.strip_char "'" (Str.strip_char "034" (Str.strip typed))));
    cbn [negb]; [|discriminate].
  destruct (parse_kml fs _) as [[title wps]|]; [|reflexivity].
  destruct (build_pln_xml title wps); [discriminate | reflexivity].
Qed.

(** Fatal conditions: for every well-formed document with zero
    qualifying point placemarks whose title can be read (no document-level
    name, or one with text), the reader fails with the no-waypoints error;
    and whenever the reader or the builder fails, whatever the exception
    (document not well-formed, no waypoints, a missing field, a value that
    cannot be converted), the program ends with that exception and the file
    system is unchanged: no output file is written. *)
Theorem fatal_no_output :
  (forall fs kml_path root,
      fs kml_path = Some (Xml root) ->
      qualifying root = [] ->
      is_ok (read_title kml_path root) = true ->
      parse_kml fs kml_path = Raise NO_WAYPOINTS)
  /\ (forall fs kml_path,
        fs kml_path = Some NotXml -> parse_kml fs kml_path = Raise ParseError)
  /\ (forall typed fs e,
        fst (main typed fs) = Uncaught e -> snd (main typed fs) = fs)
  /\ (forall typed fs e,
        let kml_path := Str.strip_char "'" (Str.strip_char "034" (Str.strip typed)) in
        isfile fs kml_path = true ->
        parse_kml fs kml_path = Raise e
        \/ (exists title wps, parse_kml fs kml_path = Ok (title, wps)
                               /\ build_pln_xml title wps = Raise e) ->
        main typed fs = (Uncaught e, fs)).
Proof.
  split.
  { intros fs kml_path root Hfs Hq Ht. unfold parse_kml, et_parse.
    rewrite Hfs. cbn [bind].
    destruct (read_title kml_path root) as [title|]; [|discriminate Ht].
    cbn [bind].
    rewrite read_placemarks_skip by (apply qualifying_nil; exact Hq).
    reflexivity. }
  split.
  { intros fs kml_path Hfs. unfold parse_kml, et_parse. now rewrite Hfs. }
  split; [exact main_uncaught|].
  intros typed fs e kml_path Hfs H. unfold main. fold kml_path.
  rewrite Hfs. cbn [negb]. destruct H as [H|(title & wps & H1 & H2)].
  - rewrite H. reflexivity.
  - rewrite H1, H2. reflexivity.
Qed.

(** The document with a path and no point, at [trip.kml]: the run ends
    with the no-waypoints error and nothing is written. *)
Example fatal_no_output_trip :
  qualifying doc_no_points = []
  /\ parse_kml (one_file "trip.kml" (Xml doc_no_points)) "trip.kml"
     = Raise NO_WAYPOINTS
  /\ main "trip.kml" (one_file "trip.kml" (Xml doc_no_points))
     = (Uncaught NO_WAYPOINTS, one_file "trip.kml" (Xml doc_no_points)).
Proof.
  destruct fatal_no_output as (H1 & _ & _ & H4).
  assert (Hp : parse_kml (one_file "trip.kml" (Xml doc_no_points)) "trip.kml"
               = Raise NO_WAYPOINTS)
    by (apply (H1 _ _ doc_no_points); reflexivity).
  split; [reflexivity|]. split; [exact Hp|].
  apply (H4 "trip.kml"); [reflexivity|]. left. exact Hp.
Qed.

(** C8, the code at the failing input: the document whose name element
    is empty is well-formed and has no qualifying placemark, yet the reader
    fails with an attribute error, raised when the title is read, and not
    with the no-waypoints error; the run ends with that exception and
    writes nothing. *)
Theorem C8_empty_name_raises :
  qualifying doc_empty_name = []
  /\ parse_kml (one_file "trip.kml" (Xml doc_empty_name)) "trip.kml"
     = Raise AttributeError
  /\ AttributeError <> NO_WAYPOINTS
  /\ main "trip.kml" (one_file "trip.kml" (Xml doc_empty_name))
     = (Uncaught AttributeError, one_file "trip.kml" (Xml doc_empty_name)).
Proof.
  split; [reflexivity|]. split; [reflexivity|].
  split; [discriminate | reflexivity].
Qed.

(** A successful run writes the flight plan next to the input. *)
Example main_writes :
  exists root,
    build_pln_xml "KLAX to KJFK" [KLAX; BRAVO; KJFK] = Ok root
    /\ snd (main " 'routes/flight.kml' " (one_file "routes/flight.kml" (Xml doc_route)))
           "routes/flight_MSFS2020.pln"
       = Some (Xml root).
Proof. eexists. split; vm_compute; reflexivity. Qed.

(** A path that is not a file: a message, and nothing else happens. *)
Example main_not_found :
  main "nowhere.kml" (one_file "trip.kml" (Xml doc_no_points))
  = (Returned ["找不到文件: nowhere.kml"], one_file "trip.kml" (Xml doc_no_points)).
Proof. reflexivity. Qed.

End Reader.

(** * Further properties of the converter *)

(** ** The builder: exceptions, nodes and fields *)

Section BuilderMore.

Lemma int_of_float_raises (x : Py.float) (e : exn) :
  Py.int_of_float x = Raise e -> arithmetic_error e.
Proof.
  destruct x; cbn; intros [= <-]; [right | left]; reflexivity.
Qed.

Lemma float_of_int_raises (z : Z) (e : exn) :
  Py.float_of_int z = Raise e -> e = OverflowError.
Proof.
  unfold Py.float_of_int.
  destruct (binary_normalize Py.prec Py.emax z 0 false); intros [= <-]; reflexivity.
Qed.

Lemma round_raises (x : Py.float) (e : exn) :
  Py.round x = Raise e -> arithmetic_error e.
Proof.
  destruct x; cbn; intros [= <-]; [right | left]; reflexivity.
Qed.

Lemma dec_to_dms_raises (v : Py.float) (is_lat : bool) (e : exn) :
  dec_to_dms v is_lat = Raise e -> arithmetic_error e.
Proof.
  unfold dec_to_dms.
  destruct (Py.int_of_float (Py.fabs v)) as [d|e1] eqn:E1; cbn [bind].
  2:{ intros [= <-]. now apply int_of_float_raises in E1. }
  destruct (Py.float_of_int d) as [d_f|e2] eqn:E2; cbn [bind].
  2:{ intros [= <-]. right. now apply float_of_int_raises in E2. }
  destruct (Py.int_of_float (Py.fmul _ _)) as [m|e3] eqn:E3; cbn [bind].
  2:{ intros [= <-]. now apply int_of_float_raises in E3. }
  destruct (Py.float_of_int m) as [m_f|e4] eqn:E4; cbn [bind].
  2:{ intros [= <-]. right. now apply float_of_int_raises in E4. }
  discriminate.
Qed.

Lemma alt_raises (alt_m : Py.float) (e : exn) :
  alt_m_to_ft_str alt_m = Raise e -> arithmetic_error e.
Proof.
  unfold alt_m_to_ft_str.
  destruct (Py.round _) as [ft|e1] eqn:E1; cbn [bind]; [discriminate|].
  intros [= <-]. now apply round_raises in E1.
Qed.

Lemma lla_str_raises (lat lon alt : Py.float) (e : exn) :
  lla_str lat lon alt = Raise e -> arithmetic_error e.
Proof.
  unfold lla_str.
  destruct (dec_to_dms lat true) as [a|e1] eqn:E1; cbn [bind].
  2:{ intros [= <-]. now apply dec_to_dms_raises in E1. }
  destruct (dec_to_dms lon false) as [b|e2] eqn:E2; cbn [bind].
  2:{ intros [= <-]. now apply dec_to_dms_raises in E2. }
  destruct (alt_m_to_ft_str alt) as [c|e3] eqn:E3; cbn [bind]; [discriminate|].
  intros [= <-]. now apply alt_raises in E3.
Qed.

Lemma atc_waypoints_raises (wpts : list waypoint) :
  forall idx n e, atc_waypoints idx n wpts = Raise e -> arithmetic_error e.
Proof.
  induction wpts as [|w rest IH]; intros idx n e; cbn [atc_waypoints].
  - discriminate.
  - unfold atc_waypoint.
    destruct (lla_str (wp_lat w) (wp_lon w) (wp_alt w)) as [pos|e1] eqn:E1;
      cbn [bind].
    2:{ intros [= <-]. now apply lla_str_raises in E1. }
    destruct (atc_waypoints (idx + 1) n rest) as [es|e2] eqn:E2; cbn [bind].
    + discriminate.
    + intros [= <-]. now apply IH in E2.
Qed.

Lemma build_raises (title : string) (w : waypoint) (rest : list waypoint)
  (e : exn) :
  build_pln_xml title (w :: rest) = Raise e -> arithmetic_error e.
Proof.
  unfold build_pln_xml, route_ids.
  destruct (Re.match_ ROUTE_RE title); cbn [bind first_wp last_wp];
    (destruct (lla_str (wp_lat w) (wp_lon w) (wp_alt w)) as [l0|e0] eqn:E0;
     cbn [bind]; [|intros [= <-]; now apply lla_str_raises in E0]);
    (destruct (lla_str _ _ _) as [lN|eN] eqn:EN in |- *;
     cbn [bind]; [|intros [= <-]; now apply lla_str_raises in EN]);
    (destruct (atc_waypoints _ _ _) as [ns|en] eqn:En;
     cbn [bind]; [discriminate|intros [= <-]; now apply atc_waypoints_raises in En]).
Qed.

Lemma build_nil (title : string) : build_pln_xml title [] = Raise IndexError.
Proof.
  unfold build_pln_xml, route_ids.
  destruct (Re.match_ ROUTE_RE title); reflexivity.
Qed.

(** X1: the builder raises [IndexError] exactly on the empty list, whatever
    the title (also one with the route pattern), and any other exception
    that leaves it is one of the two arithmetic errors of the formatters:
    the [ValueError] of a NaN or an [OverflowError]. *)
Theorem X1_builder_exceptions :
  (forall title wpts,
      build_pln_xml title wpts = Raise IndexError <-> wpts = [])
  /\ (forall title wpts e,
        build_pln_xml title wpts = Raise e ->
        e = IndexError \/ arithmetic_error e).
Proof.
  split.
  - intros title wpts. split.
    + destruct wpts as [|w rest]; [reflexivity|].
      intros H. apply build_raises in H. destruct H as [H|H]; discriminate H.
    + intros ->. apply build_nil.
  - intros title [|w rest] e H.
    + rewrite build_nil in H. injection H as <-. now left.
    + right. now apply build_raises in H.
Qed.

End BuilderMore.

Section BuilderNodes.

(** The nodes of the waypoint loop, with the positions they carry. *)
Lemma atc_waypoints_pos (wpts : list waypoint) :
  forall idx n nodes,
    atc_waypoints idx n wpts = Ok nodes ->
    forall i w, List.nth_error wpts i = Some w ->
      exists pos,
        lla_str (wp_lat w) (wp_lon w) (wp_alt w) = Ok pos
        /\ List.nth_error nodes i
           = Some (waypoint_node (classify (idx + Z.of_nat i) n (wp_name w))
                                 (wp_name w) pos).
Proof.
  induction wpts as [|w rest IH]; intros idx n nodes H i w' Hw'.
  - destruct i; discriminate Hw'.
  - cbn [atc_waypoints] in H. unfold atc_waypoint in H.
    destruct (lla_str (wp_lat w) (wp_lon w) (wp_alt w)) as [pos|] eqn:Hp;
      [|discriminate]. cbn [bind] in H.
    destruct (atc_waypoints (idx + 1) n rest) as [es|] eqn:Hes; [|discriminate].
    cbn [bind] in H. injection H as <-.
    destruct i as [|i].
    + injection Hw' as <-. exists pos. split; [exact Hp|].
      cbn [List.nth_error]. now rewrite Z.add_0_r.
    + destruct (IH _ _ _ Hes i w' Hw') as (pos' & Hp' & Hn').
      exists pos'. split; [exact Hp'|]. cbn [List.nth_error]. rewrite Hn'.
      replace (idx + 1 + Z.of_nat i) with (idx + Z.of_nat (S i)) by lia.
      reflexivity.
Qed.

Lemma built_nodes (title : string) (wpts : list waypoint) (root : element) :
  build_pln_xml title wpts = Ok root ->
  exists dep dest w0 wN dep_lla dest_lla nodes,
    route_ids title wpts = Ok (dep, dest)
    /\ first_wp wpts = Ok w0 /\ last_wp wpts = Ok wN
    /\ lla_str (wp_lat w0) (wp_lon w0) (wp_alt w0) = Ok dep_lla
    /\ lla_str (wp_lat wN) (wp_lon wN) (wp_alt wN) = Ok dest_lla
    /\ atc_waypoints 0 (Z.of_nat (List.length wpts)) wpts = Ok nodes
    /\ root = pln_document title dep dest dep_lla dest_lla nodes
    /\ waypoint_nodes root = nodes
    /\ List.length nodes = List.length wpts.
Proof.
  intros H.
  destruct (build_inv _ _ _ H)
    as (dep & dest & w0 & wN & l0 & lN & nodes & H1 & H2 & H3 & H4 & H5 & H6 & ->).
  exists dep, dest, w0, wN, l0, lN, nodes.
  destruct (atc_waypoints_nth _ _ _ _ H6) as (Hlen & _ & Hin).
  repeat split; try assumption.
  apply waypoint_nodes_document.
  intros node Hnode. destruct (Hin node Hnode) as (i & w & pos & _ & ->).
  apply nodes_tagged.
Qed.

(** X2: the built document has one waypoint node per waypoint, in the order
    of the list; the node of a waypoint carries its name as the [id]
    attribute and, as [WorldPosition], the latitude in DMS, the longitude
    in DMS and the altitude string of that waypoint, joined by commas. *)
Theorem X2_builder_nodes (title : string) (wpts : list waypoint) (root : element) :
  build_pln_xml title wpts = Ok root ->
  List.length (waypoint_nodes root) = List.length wpts
  /\ forall (i : nat) (w : waypoint),
       List.nth_error wpts i = Some w ->
       exists node lat lon alt,
         List.nth_error (waypoint_nodes root) i = Some node
         /\ attrib node = [("id", wp_name w)]
         /\ dec_to_dms (wp_lat w) true = Ok lat
         /\ dec_to_dms (wp_lon w) false = Ok lon
         /\ alt_m_to_ft_str (wp_alt w) = Ok alt
         /\ world_position node = Some (lat ++ "," ++ lon ++ "," ++ alt).
Proof.
  intros H.
  destruct (built_nodes _ _ _ H)
    as (dep & dest & w0 & wN & l0 & lN & nodes & _ & _ & _ & _ & _ & Hn & _
        & Hwn & Hlen).
  rewrite Hwn. split; [exact Hlen|].
  intros i w Hw.
  destruct (atc_waypoints_pos _ _ _ _ Hn i w Hw) as (pos & Hpos & Hnode).
  unfold lla_str in Hpos.
  destruct (dec_to_dms (wp_lat w) true) as [lat|]; [|discriminate Hpos].
  destruct (dec_to_dms (wp_lon w) false) as [lon|]; [|discriminate Hpos].
  destruct (alt_m_to_ft_str (wp_alt w)) as [alt|]; [|discriminate Hpos].
  cbn [bind] in Hpos. injection Hpos as <-.
  eexists. exists lat, lon, alt.
  split; [exact Hnode|]. repeat split.
Qed.

(** The route KLAX, BRAVO, KJFK: three nodes and their positions. *)
Lemma X2_builder_nodes_witness :
  exists root,
    build_pln_xml "KLAX to KJFK" [KLAX; BRAVO; KJFK] = Ok root
    /\ List.length (waypoint_nodes root) = 3%nat
    /\ List.map world_position (waypoint_nodes root)
       = [Some ("N33° 56' 33.00" ++ DQUOTE ++ ",W118° 24' 28.80" ++ DQUOTE
                 ++ ",+000125.00");
          Some ("N34° 30' 00.00" ++ DQUOTE ++ ",W117° 54' 00.00" ++ DQUOTE
                 ++ ",+004921.00");
          Some ("N40° 38' 23.28" ++ DQUOTE ++ ",W73° 46' 44.04" ++ DQUOTE
                 ++ ",+000013.00")].
Proof.
  destruct (build_pln_xml "KLAX to KJFK" [KLAX; BRAVO; KJFK]) as [root|] eqn:E;
    [|vm_compute in E; discriminate E].
  exists root. split; [reflexivity|].
  split; [exact (proj1 (X2_builder_nodes _ _ _ E))|].
  vm_compute in E. injection E as <-. reflexivity.
Defined.

Lemma nth_error_last {A : Type} (l : list A) (d : A) :
  List.nth_error (d :: l) (List.length l) = Some (List.last l d).
Proof.
  revert d. induction l as [|a l IH]; intros d; [reflexivity|].
  rewrite last_cons. cbn [List.length List.nth_error]. apply IH.
Qed.

(** X3: the departure position of the built document is the position of
    its first waypoint node, and the destination position is the position
    of its last waypoint node. *)
Theorem X3_builder_endpoints (title : string) (wpts : list waypoint) (root : element) :
  build_pln_xml title wpts = Ok root ->
  exists first last,
    List.hd_error (waypoint_nodes root) = Some first
    /\ List.nth_error (waypoint_nodes root) (List.length wpts - 1) = Some last
    /\ field "DepartureLLA" root = world_position first
    /\ field "DestinationLLA" root = world_position last.
Proof.
  intros H.
  destruct (built_nodes _ _ _ H)
    as (dep & dest & w0 & wN & l0 & lN & nodes & _ & H0 & HN & Hl0 & HlN & Hn & ->
        & Hwn & Hlen).
  rewrite Hwn.
  destruct wpts as [|w rest]; [discriminate H0|].
  cbn [first_wp last_wp] in H0, HN. injection H0 as <-. injection HN as <-.
  destruct (atc_waypoints_pos _ _ _ _ Hn 0%nat w eq_refl) as (p0 & Hp0 & Hn0).
  assert (HwN : List.nth_error (w :: rest) (List.length (w :: rest) - 1)
                = Some (List.last rest w)).
  { cbn [List.length]. rewrite Nat.sub_succ, Nat.sub_0_r. apply nth_error_last. }
  destruct (atc_waypoints_pos _ _ _ _ Hn _ _ HwN) as (pN & HpN & HnN).
  rewrite Hl0 in Hp0. injection Hp0 as <-.
  rewrite HlN in HpN. injection HpN as <-.
  eexists. eexists.
  split; [destruct nodes; [discriminate Hn0 | exact Hn0]|].
  split; [exact HnN|].
  split.
  - unfold world_position, waypoint_node, child_text, find_child, findall_child.
    destruct (classify _ _ _); reflexivity.
  - unfold world_position, waypoint_node, child_text, find_child, findall_child.
    destruct (classify _ _ _); reflexivity.
Qed.

(** The route ALPHA, BRAVO, ZULU5. *)
Lemma X3_builder_endpoints_witness :
  exists root first last,
    build_pln_xml "Evening Cruise" [ALPHA; BRAVO; ZULU5] = Ok root
    /\ List.hd_error (waypoint_nodes root) = Some first
    /\ List.nth_error (waypoint_nodes root) 2 = Some last
    /\ field "DepartureLLA" root = world_position first
    /\ field "DestinationLLA" root = world_position last.
Proof.
  destruct (build_pln_xml "Evening Cruise" [ALPHA; BRAVO; ZULU5]) as [root|] eqn:E;
    [|vm_compute in E; discriminate E].
  destruct (X3_builder_endpoints _ _ _ E) as (first & last & H1 & H2 & H3 & H4).
  exists root, first, last. repeat split; assumption.
Defined.

End BuilderNodes.

Section BuilderSuccess.

Lemma dec_to_dms_finite (v : Py.float) (is_lat : bool) (s : string) :
  dec_to_dms v is_lat = Ok s -> Py.is_finite v = true.
Proof. destruct v; try reflexivity; discriminate. Qed.

Lemma alt_finite (alt_m : Py.float) (s : string) :
  alt_m_to_ft_str alt_m = Ok s -> Py.is_finite (Py.fmul alt_m FT_PER_M) = true.
Proof.
  unfold alt_m_to_ft_str.
  destruct (Py.fmul alt_m FT_PER_M); try reflexivity; discriminate.
Qed.

Lemma lla_str_inv (lat lon alt : Py.float) (pos : string) :
  lla_str lat lon alt = Ok pos ->
  exists a b c,
    dec_to_dms lat true = Ok a /\ dec_to_dms lon false = Ok b
    /\ alt_m_to_ft_str alt = Ok c /\ pos = a ++ "," ++ b ++ "," ++ c.
Proof.
  unfold lla_str.
  destruct (dec_to_dms lat true) as [a|]; [|discriminate].
  destruct (dec_to_dms lon false) as [b|]; [|discriminate].
  destruct (alt_m_to_ft_str alt) as [c|]; [|discriminate].
  cbn [bind]. intros [= <-]. exists a, b, c. repeat split.
Qed.

(** The values that the formatters accept. *)
Lemma lla_str_finite (w : waypoint) (pos : string) :
  lla_str (wp_lat w) (wp_lon w) (wp_alt w) = Ok pos -> finite_position w = true.
Proof.
  intros H. destruct (lla_str_inv _ _ _ _ H) as (a & b & c & Ha & Hb & Hc & _).
  unfold finite_position.
  rewrite (dec_to_dms_finite _ _ _ Ha), (dec_to_dms_finite _ _ _ Hb),
    (alt_finite _ _ Hc). reflexivity.
Qed.

Lemma atc_waypoints_finite (wpts : list waypoint) :
  forall idx n nodes,
    atc_waypoints idx n wpts = Ok nodes ->
    List.Forall (fun w => finite_position w = true) wpts.
Proof.
  induction wpts as [|w rest IH]; intros idx n nodes H; [constructor|].
  cbn [atc_waypoints] in H. unfold atc_waypoint in H.
  destruct (lla_str (wp_lat w) (wp_lon w) (wp_alt w)) as [pos|] eqn:Hp;
    [|discriminate]. cbn [bind] in H.
  destruct (atc_waypoints (idx + 1) n rest) as [es|] eqn:Hes; [|discriminate].
  constructor; [now apply lla_str_finite in Hp | now apply IH in Hes].
Qed.

Lemma convertible_finite (w : waypoint) :
  Py.is_binary64 (wp_lat w) = true -> Py.is_binary64 (wp_lon w) = true ->
  finite_position w = true -> convertible w = true.
Proof.
  unfold finite_position, convertible. intros -> -> H.
  destruct (Py.is_finite (wp_lat w)), (Py.is_finite (wp_lon w));
    try discriminate H. exact H.
Qed.

(** X4: over waypoints whose coordinates are well-formed binary64 values,
    the builder returns a document exactly when the list is not empty and
    every waypoint has a finite latitude, a finite longitude and an
    altitude whose value in feet is finite. *)
Theorem X4_builder_succeeds_iff (title : string) (wpts : list waypoint) :
  List.Forall (fun w => Py.is_binary64 (wp_lat w) = true
                        /\ Py.is_binary64 (wp_lon w) = true) wpts ->
  (exists root, build_pln_xml title wpts = Ok root)
  <-> wpts <> [] /\ List.Forall (fun w => finite_position w = true) wpts.
Proof.
  intros Hv. split.
  - intros [root H].
    destruct (build_inv _ _ _ H)
      as (dep & dest & w0 & wN & l0 & lN & nodes & _ & H0 & _ & _ & _ & Hn & _).
    split; [intros ->; discriminate H0|].
    now apply atc_waypoints_finite in Hn.
  - intros [Hne Hf]. destruct wpts as [|w rest]; [now contradiction Hne|].
    apply build_total.
    rewrite List.Forall_forall in *. intros x Hx.
    destruct (Hv x Hx) as [Hlat Hlon]. apply convertible_finite; auto.
Qed.

(** The route KLAX, KJFK: finite positions, and a document. *)
Lemma X4_builder_succeeds_iff_witness :
  List.Forall (fun w => finite_position w = true) [KLAX; KJFK]
  /\ exists root, build_pln_xml "Evening Cruise" [KLAX; KJFK] = Ok root.
Proof.
  assert (Hf : List.Forall (fun w => finite_position w = true) [KLAX; KJFK])
    by (repeat constructor).
  split; [exact Hf|].
  apply (proj2 (X4_builder_succeeds_iff "Evening Cruise" [KLAX; KJFK]
                  ltac:(repeat constructor))).
  split; [discriminate | exact Hf].
Defined.

(** X5: in the built document the title is the title given, verbatim, the
    description is the title followed by [ Created by KML2MSFS], the
    departure and destination names repeat the departure and destination
    identifiers, and the plan is an IFR plan on a direct route with the
    cruising altitude [00000]. *)
Theorem X5_builder_header (title : string) (wpts : list waypoint) (root : element) :
  build_pln_xml title wpts = Ok root ->
  tag root = "SimBase.Document"
  /\ attrib root = [("Type", "AceXML"); ("version", "1,0")]
  /\ child_text "Descr" root = Some "AceXML Document"
  /\ field "Title" root = Some title
  /\ field "Descr" root = Some (title ++ " Created by KML2MSFS")
  /\ field "FPType" root = Some "IFR"
  /\ field "RouteType" root = Some "Direct"
  /\ field "CruisingAlt" root = Some "00000"
  /\ field "DepartureID" root <> None
  /\ field "DepartureName" root = field "DepartureID" root
  /\ field "DestinationID" root <> None
  /\ field "DestinationName" root = field "DestinationID" root.
Proof.
  intros H.
  destruct (build_inv _ _ _ H)
    as (dep & dest & w0 & wN & l0 & lN & nodes & _ & _ & _ & _ & _ & _ & ->).
  repeat split; discriminate.
Qed.

(** A title in lower case: kept as it is in the title and in the
    description, upper-cased in the names. *)
Lemma X5_builder_header_witness :
  exists root,
    build_pln_xml "klax to kjfk" [ALPHA; ZULU5] = Ok root
    /\ field "Title" root = Some "klax to kjfk"
    /\ field "Descr" root = Some "klax to kjfk Created by KML2MSFS"
    /\ field "DepartureName" root = Some "KLAX".
Proof.
  destruct (build_pln_xml "klax to kjfk" [ALPHA; ZULU5]) as [root|] eqn:E;
    [|vm_compute in E; discriminate E].
  exists root. split; [reflexivity|].
  destruct (X5_builder_header _ _ _ E)
    as (_ & _ & _ & Ht & Hd & _ & _ & _ & _ & Hn & _).
  split; [exact Ht|]. split; [exact Hd|].
  rewrite Hn. vm_compute in E. injection E as <-. reflexivity.
Defined.

End BuilderSuccess.

Section BuilderFields.

Lemma upper_char_code (c : ascii) :
  Str.is_word c = true -> is_code_char (Str.upper_char c) = true.
Proof.
  destruct c as [[] [] [] [] [] [] [] []]; intros H; try discriminate H; reflexivity.
Qed.

Lemma length_map (f : ascii -> ascii) (s : string) :
  String.length (Str.map f s) = String.length s.
Proof. induction s as [|c s IH]; cbn; [reflexivity | now rewrite IH]. Qed.

Lemma upper_code (s : string) :
  Str.forallb Str.is_word s = true ->
  Str.forallb is_code_char (Str.upper s) = true.
Proof.
  induction s as [|c s IH]; [reflexivity|].
  cbn [Str.forallb Str.upper Str.map]. intros H.
  apply andb_true_iff in H as [Hc Hs].
  rewrite (upper_char_code c Hc). exact (IH Hs).
Qed.

(** X6: when the title has the route pattern, its two codes being word
    characters of ASCII, the departure and the destination identifier of
    the built document have exactly four characters, each an upper-case
    letter, a digit or an underscore. *)
Theorem X6_builder_ids_upper (title a b : string) (wpts : list waypoint)
  (root : element) :
  build_pln_xml title wpts = Ok root ->
  route_phrase title a b ->
  exists dep dest,
    field "DepartureID" root = Some dep
    /\ field "DestinationID" root = Some dest
    /\ String.length dep = 4%nat /\ Str.forallb is_code_char dep = true
    /\ String.length dest = 4%nat /\ Str.forallb is_code_char dest = true.
Proof.
  intros H Hp.
  destruct (build_ids _ _ _ H) as (dep & dest & Hids & Hd & He).
  exists dep, dest. split; [exact Hd|]. split; [exact He|].
  unfold route_ids in Hids. rewrite match_route_split in Hids.
  pose proof Hp as Hs. apply route_split_phrase in Hs. rewrite Hs in Hids.
  cbn [Re.group Nat.sub List.nth] in Hids. injection Hids as <- <-.
  destruct Hp as (ws1 & t & o & ws2 & rest & _ & Hla & Hwa & _ & _ & _ & _ & _ & _
                  & Hlb & Hwb).
  unfold Str.upper at 1 3. rewrite !length_map.
  repeat split; try assumption; now apply upper_code.
Qed.

(** A title with underscores and digits in its codes. *)
Lemma X6_builder_ids_upper_witness :
  exists root,
    build_pln_xml "ab_1 to cd_2 by night" [ALPHA; ZULU5] = Ok root
    /\ field "DepartureID" root = Some "AB_1"
    /\ field "DestinationID" root = Some "CD_2".
Proof.
  destruct (build_pln_xml "ab_1 to cd_2 by night" [ALPHA; ZULU5]) as [root|] eqn:E;
    [|vm_compute in E; discriminate E].
  exists root. split; [reflexivity|].
  assert (Hp : route_phrase "ab_1 to cd_2 by night" "ab_1" "cd_2")
    by (apply route_split_phrase; reflexivity).
  destruct (X6_builder_ids_upper _ _ _ _ _ E Hp) as (dep & dest & Hd & He & _).
  vm_compute in E. injection E as <-. split; reflexivity.
Defined.

(** *** The fields of a position *)

Lemma split_no_sep (sep : ascii) (s : string) :
  Str.forallb (fun c => negb (Ascii.eqb c sep)) s = true ->
  Str.split sep s = [s].
Proof.
  induction s as [|c s IH]; [reflexivity|].
  cbn [Str.forallb Str.split]. intros H. apply andb_true_iff in H as [Hc Hs].
  apply negb_true_iff in Hc. rewrite Hc, (IH Hs). reflexivity.
Qed.

Lemma split_app (sep : ascii) (a r : string) :
  Str.forallb (fun c => negb (Ascii.eqb c sep)) a = true ->
  Str.split sep (a ++ String sep r) = a :: Str.split sep r.
Proof.
  induction a as [|c a IH].
  - intros _. cbn [append Str.split]. now rewrite Ascii.eqb_refl.
  - cbn [Str.forallb append Str.split]. intros H.
    apply andb_true_iff in H as [Hc Ha].
    apply negb_true_iff in Hc. rewrite Hc, (IH Ha). reflexivity.
Qed.

Lemma forallb_impl (p q : ascii -> bool) (s : string) :
  (forall c, p c = true -> q c = true) ->
  Str.forallb p s = true -> Str.forallb q s = true.
Proof.
  intros Hpq. induction s as [|c s IH]; [reflexivity|].
  cbn [Str.forallb]. intros H. apply andb_true_iff in H as [Hc Hs].
  now rewrite (Hpq c Hc), (IH Hs).
Qed.

Lemma no_comma_app (a b : string) :
  no_comma (a ++ b) = no_comma a && no_comma b.
Proof. apply forallb_app. Qed.

Lemma no_comma_cons (c : ascii) (s : string) :
  no_comma (String c s) = negb (Ascii.eqb c ",") && no_comma s.
Proof. reflexivity. Qed.

Lemma no_comma_digits_string (s : string) :
  Str.forallb Str.is_digit s = true -> no_comma s = true.
Proof.
  apply forallb_impl. intros c.
  destruct c as [[] [] [] [] [] [] [] []]; intros H; try discriminate H; reflexivity.
Qed.

Lemma no_comma_digits (n : Z) : 0 <= n -> no_comma (Str.digits n) = true.
Proof.
  intros Hn. apply no_comma_digits_string. now destruct (digits_spec n Hn).
Qed.

Lemma no_comma_zfill (w : nat) (s : string) :
  no_comma s = true -> no_comma (Str.zfill w s) = true.
Proof.
  intros H. unfold Str.zfill. rewrite no_comma_app, H.
  unfold no_comma. now rewrite forallb_repeat.
Qed.

Lemma no_comma_of_int (n : Z) : no_comma (Str.of_int n) = true.
Proof.
  unfold Str.of_int. destruct (Z.ltb_spec n 0).
  - change (no_comma (String "-" (Str.digits (- n))))
      with (no_comma (Str.digits (- n))).
    apply no_comma_digits. lia.
  - now apply no_comma_digits.
Qed.

Lemma no_comma_format_0d (w : nat) (n : Z) : no_comma (Str.format_0d w n) = true.
Proof.
  unfold Str.format_0d. destruct (Z.ltb_spec n 0).
  - change (no_comma (String "-" (Str.zfill (w - 1) (Str.digits (- n)))))
      with (no_comma (Str.zfill (w - 1) (Str.digits (- n)))).
    apply no_comma_zfill, no_comma_digits. lia.
  - now apply no_comma_zfill, no_comma_digits.
Qed.

Lemma no_comma_pad_signed (w : nat) (neg : bool) (body : string) :
  no_comma body = true -> no_comma (Fmt.pad_signed w neg body) = true.
Proof.
  intros H. unfold Fmt.pad_signed. destruct neg.
  - change (no_comma (String "-" (Str.zfill (w - 1) body)))
      with (no_comma (Str.zfill (w - 1) body)).
    now apply no_comma_zfill.
  - now apply no_comma_zfill.
Qed.

Lemma no_comma_fixed2 (m e : Z) : 0 <= m -> no_comma (Fmt.fixed2 m e) = true.
Proof.
  intros Hm. unfold Fmt.fixed2.
  pose proof (round_half_even_nonneg (100 * m) e ltac:(lia)) as Hn.
  set (n := Py.round_half_even (100 * m) e) in *.
  rewrite !no_comma_app.
  rewrite no_comma_digits by (apply Z.div_pos; lia).
  rewrite no_comma_zfill
    by (apply no_comma_digits; apply Z.mod_pos_bound; lia).
  reflexivity.
Qed.

Lemma no_comma_format_05_2f (x : Py.float) : no_comma (Fmt.format_05_2f x) = true.
Proof.
  destruct x as [s|s| |s m e]; cbn [Fmt.format_05_2f];
    apply no_comma_pad_signed; try reflexivity; apply no_comma_fixed2; lia.
Qed.

Lemma no_comma_dec_to_dms (v : Py.float) (is_lat : bool) (s : string) :
  dec_to_dms v is_lat = Ok s -> no_comma s = true.
Proof.
  unfold dec_to_dms.
  destruct (Py.int_of_float (Py.fabs v)) as [d|]; [|discriminate]. cbn [bind].
  destruct (Py.float_of_int d) as [d_f|]; [|discriminate]. cbn [bind].
  destruct (Py.int_of_float (Py.fmul _ _)) as [m|]; [|discriminate]. cbn [bind].
  destruct (Py.float_of_int m) as [m_f|]; [|discriminate]. cbn [bind].
  intros [= <-].
  repeat (rewrite no_comma_app || rewrite no_comma_cons).
  rewrite !no_comma_of_int, no_comma_format_05_2f.
  destruct is_lat, (Py.fge v Py.fzero); reflexivity.
Qed.

Lemma no_comma_alt (alt_m : Py.float) (s : string) :
  alt_m_to_ft_str alt_m = Ok s -> no_comma s = true.
Proof.
  unfold alt_m_to_ft_str.
  destruct (Py.round _) as [ft|]; [|discriminate]. cbn [bind].
  intros [= <-].
  repeat (rewrite no_comma_app || rewrite no_comma_cons).
  rewrite no_comma_format_0d. reflexivity.
Qed.

(** X7: the position of every waypoint node of the built document splits
    at its commas into exactly three fields: the DMS latitude, the DMS
    longitude and the altitude string of its waypoint, none of which holds
    a comma. *)
Theorem X7_builder_position_fields (title : string) (wpts : list waypoint)
  (root : element) :
  build_pln_xml title wpts = Ok root ->
  forall (i : nat) (w : waypoint),
    List.nth_error wpts i = Some w ->
    exists node pos lat lon alt,
      List.nth_error (waypoint_nodes root) i = Some node
      /\ world_position node = Some pos
      /\ Str.split "," pos = [lat; lon; alt]
      /\ dec_to_dms (wp_lat w) true = Ok lat
      /\ dec_to_dms (wp_lon w) false = Ok lon
      /\ alt_m_to_ft_str (wp_alt w) = Ok alt.
Proof.
  intros H i w Hw.
  destruct (built_nodes _ _ _ H)
    as (dep & dest & w0 & wN & l0 & lN & nodes & _ & _ & _ & _ & _ & Hn & _
        & Hwn & _).
  rewrite Hwn.
  destruct (atc_waypoints_pos _ _ _ _ Hn i w Hw) as (pos & Hpos & Hnode).
  destruct (lla_str_inv _ _ _ _ Hpos) as (lat & lon & alt & Ha & Hb & Hc & ->).
  eexists. exists (lat ++ "," ++ lon ++ "," ++ alt), lat, lon, alt.
  split; [exact Hnode|].
  split; [unfold world_position, waypoint_node, child_text, find_child,
            findall_child; destruct (classify _ _ _); reflexivity|].
  split; [|repeat split; assumption].
  change (lat ++ "," ++ lon ++ "," ++ alt)
    with (lat ++ String "," (lon ++ String "," alt)).
  rewrite split_app by (exact (no_comma_dec_to_dms _ _ _ Ha)).
  rewrite split_app by (exact (no_comma_dec_to_dms _ _ _ Hb)).
  rewrite split_no_sep by (exact (no_comma_alt _ _ Hc)).
  reflexivity.
Qed.

(** The middle waypoint of the route ALPHA, BRAVO, ZULU5. *)
Lemma X7_builder_position_fields_witness :
  exists root node pos,
    build_pln_xml "Evening Cruise" [ALPHA; BRAVO; ZULU5] = Ok root
    /\ List.nth_error (waypoint_nodes root) 1 = Some node
    /\ world_position node = Some pos
    /\ Str.split "," pos
       = ["N34° 30' 00.00" ++ DQUOTE; "W117° 54' 00.00" ++ DQUOTE; "+004921.00"].
Proof.
  destruct (build_pln_xml "Evening Cruise" [ALPHA; BRAVO; ZULU5]) as [root|] eqn:E;
    [|vm_compute in E; discriminate E].
  destruct (X7_builder_position_fields _ _ _ E 1%nat BRAVO eq_refl)
    as (node & pos & lat & lon & alt & H1 & H2 & H3 & H4 & H5 & H6).
  exists root, node, pos. split; [reflexivity|]. split; [exact H1|].
  split; [exact H2|]. rewrite H3.
  vm_compute in H4. injection H4 as <-.
  vm_compute in H5. injection H5 as <-.
  vm_compute in H6. injection H6 as <-.
  reflexivity.
Defined.

End BuilderFields.

(** ** The formatters: ranges and edge values *)

Section FormatterMore.

(** A valid float below one is at most [1 - 2^-53]. *)
Lemma below_one (x : Py.float) :
  Py.is_binary64 x = true -> Py.is_finite x = true -> Py.is_nonneg x = true ->
  (Py.Q_of_float x < 1)%Q ->
  (Py.Q_of_float x <= 1 - 2 ^ (-53))%Q.
Proof.
  intros Hv Hf Hn Hlt.
  destruct x as [[|]|[|]| |[|] m e]; try discriminate.
  - pose proof (lt_1_exponent _ _ Hlt) as He.
    destruct (valid_inv _ _ _ Hv) as (_ & _ & _ & Hm).
    cbn [Py.Q_of_float cond_Zopp] in *.
    pose proof (Qpow2_pos e) as Hpe.
    destruct (Z.le_gt_cases e (-54)) as [Hsmall|Hbig].
    + assert (Hle : (2 ^ e <= 2 ^ (-54))%Q) by (apply Qpow2_le; lia).
      apply Zlt_Q in Hm.
      assert (H0 : (0 < inject_Z (Zpos m))%Q) by (apply (Zlt_Q 0); lia).
      assert (E1 : (inject_Z (2 ^ 53) * 2 ^ (-54) == 1 # 2)%Q) by reflexivity.
      assert (E2 : (2 ^ (-53) <= 1 # 2)%Q) by (vm_compute; discriminate).
      set (t := (2 ^ (-53))%Q) in *. set (u := (2 ^ (-54))%Q) in *.
      set (a := (2 ^ e)%Q) in *. set (qm := inject_Z (Zpos m)) in *.
      set (K := inject_Z (2 ^ 53)) in *. nra.
    + assert (Hmx : Zpos m < 2 ^ (- e)).
      { destruct (Z.lt_ge_cases (Zpos m) (2 ^ (- e))) as [|Hge]; [assumption|].
        exfalso. apply Zle_Q in Hge. rewrite <- Qpow2_nonneg in Hge by lia.
        pose proof (Qpow2_opp e). pose proof (Qpow2_pos (- e)). nra. }
      assert (Hm1 : Zpos m + 1 <= 2 ^ (- e)) by lia.
      apply Zle_Q in Hm1. rewrite inject_Z_plus in Hm1.
      rewrite <- Qpow2_nonneg in Hm1 by lia.
      change (inject_Z 1) with 1%Q in Hm1.
      pose proof (Qpow2_opp e) as Hinv.
      assert (Hle : (2 ^ (-53) <= 2 ^ e)%Q) by (apply Qpow2_le; lia).
      set (t := (2 ^ (-53))%Q) in *. set (b := (2 ^ (- e))%Q) in *.
      set (a := (2 ^ e)%Q) in *. set (qm := inject_Z (Zpos m)) in *.
      assert (H1 : ((qm + 1) * a <= b * a)%Q) by (apply Qmult_le_compat_r; lra).
      rewrite Hinv in H1. lra.
Qed.

(** The steps of [dec_to_dms] once more, with the bounds that keep the
    minutes below 60 and the seconds from passing 60. *)
Lemma dms_steps_bounds (v : Py.float) :
  Py.is_binary64 v = true -> Py.is_finite v = true ->
  exists (d m : Z) (d_f m_f : Py.float),
    let a := Py.fabs v in
    let m_full := Py.fmul (Py.fsub a d_f) SIXTY in
    let s := Py.fmul (Py.fsub m_full m_f) SIXTY in
    Py.int_of_float a = Ok d /\ Py.float_of_int d = Ok d_f
    /\ Py.int_of_float m_full = Ok m /\ Py.float_of_int m = Ok m_f
    /\ 0 <= d /\ 0 <= m <= 59
    /\ (inject_Z d <= Qabs (Py.Q_of_float v) < inject_Z d + 1)%Q
    /\ (Qabs (Py.Q_of_float m_full
              - 60 * (Qabs (Py.Q_of_float v) - inject_Z d)) <= 2 ^ (-48))%Q
    /\ (inject_Z m <= Py.Q_of_float m_full < inject_Z m + 1)%Q
    /\ (Qabs (Py.Q_of_float s
              - 60 * (Py.Q_of_float m_full - inject_Z m)) <= 2 ^ (-48))%Q
    /\ (Py.Q_of_float s < 60)%Q
    /\ Py.is_finite s = true /\ Py.is_nonneg s = true.
Proof.
  intros Hv Hf.
  destruct (fabs_facts v Hv Hf) as (Hva & Hfa & Hna & HQa).
  destruct (int_of_float_floor _ Hfa Hna) as (d & Hd & Hd0 & Hdfl).
  destruct (float_of_floor _ d Hva Hfa Hna Hd) as (d_f & Hdf & Hvd & Hfd & Hnd & HQd).
  destruct (fsub_frac (Py.fabs v) d_f Hva Hfa Hna Hvd Hfd Hnd)
    as (Hv1 & Hf1 & Hn1 & HQ1).
  { rewrite HQd. lra. }
  { apply (int_cases d); assumption. }
  assert (Hlt1 : (Py.Q_of_float (Py.fsub (Py.fabs v) d_f) < 1)%Q)
    by (rewrite HQ1, HQd; lra).
  destruct (fmul_sixty _ Hv1 Hf1 Hn1 Hlt1) as (Hv2 & Hf2 & Hn2 & HQ2).
  pose proof (below_one _ Hv1 Hf1 Hn1 Hlt1) as Hb1.
  destruct (int_of_float_floor _ Hf2 Hn2) as (m & Hm & Hm0 & Hmfl).
  destruct (float_of_floor _ m Hv2 Hf2 Hn2 Hm) as (m_f & Hmf & Hvm & Hfm & Hnm & HQm).
  destruct (fsub_frac _ m_f Hv2 Hf2 Hn2 Hvm Hfm Hnm) as (Hv3 & Hf3 & Hn3 & HQ3).
  { rewrite HQm. lra. }
  { apply (int_cases m); assumption. }
  assert (Hlt3 : (Py.Q_of_float
                    (Py.fsub (Py.fmul (Py.fsub (Py.fabs v) d_f) SIXTY) m_f) < 1)%Q)
    by (rewrite HQ3, HQm; lra).
  destruct (fmul_sixty _ Hv3 Hf3 Hn3 Hlt3) as (Hv4 & Hf4 & Hn4 & HQ4).
  pose proof (below_one _ Hv3 Hf3 Hn3 Hlt3) as Hb3.
  assert (Ht : (2 ^ (-48) == 32 * 2 ^ (-53))%Q) by reflexivity.
  assert (Htp : (0 < 2 ^ (-53))%Q) by reflexivity.
  (* the minutes as a float stay below 60 *)
  assert (Hm60 : (Py.Q_of_float (Py.fmul (Py.fsub (Py.fabs v) d_f) SIXTY) < 60)%Q).
  { apply Qabs_Qle_condition in HQ2.
    set (t := (2 ^ (-53))%Q) in *. set (u := (2 ^ (-48))%Q) in *. lra. }
  assert (Hs60 : (Py.Q_of_float
                    (Py.fmul (Py.fsub (Py.fmul (Py.fsub (Py.fabs v) d_f) SIXTY) m_f)
                       SIXTY) < 60)%Q).
  { apply Qabs_Qle_condition in HQ4.
    set (t := (2 ^ (-53))%Q) in *. set (u := (2 ^ (-48))%Q) in *. lra. }
  assert (Hm59 : m <= 59).
  { destruct (Z.le_gt_cases m 59) as [|Hgt]; [assumption|]. exfalso.
    assert (H60 : 60 <= m) by lia. apply Zle_Q in H60.
    change (inject_Z 60) with 60%Q in H60. lra. }
  exists d, m, d_f, m_f. cbv zeta.
  rewrite HQa in Hdfl. rewrite HQ1, HQd, HQa in HQ2. rewrite HQ3, HQm in HQ4.
  repeat split; try assumption; try apply Hdfl; try apply Hmfl.
Qed.

End FormatterMore.

Section FormatterRanges.

Lemma Zle_of_Qlt_succ (a b : Z) : (inject_Z a < inject_Z b + 1)%Q -> a <= b.
Proof.
  intros H. change 1%Q with (inject_Z 1) in H. rewrite <- inject_Z_plus in H.
  rewrite <- Zlt_Qlt in H. lia.
Qed.

(** The string of [dec_to_dms] with the seconds written out in hundredths. *)
Lemma dec_to_dms_print (v : Py.float) (is_lat : bool) :
  Py.is_binary64 v = true -> Py.is_finite v = true ->
  exists d m c,
    dec_to_dms v is_lat
    = Ok (String (hemisphere (Py.Q_of_float v) is_lat)
            (Str.digits d ++ DEGREE_SIGN ++ " " ++ Str.digits m ++ "' "
               ++ (Str.zfill 2 (Str.digits (c / 100)) ++ "."
                     ++ Str.zfill 2 (Str.digits (c mod 100))) ++ DQUOTE))
    /\ 0 <= d /\ 0 <= m <= 59 /\ 0 <= c <= 6000
    /\ (inject_Z d <= Qabs (Py.Q_of_float v) < inject_Z d + 1)%Q
    /\ exists x y : Q,
         (Qabs (x - 60 * (Qabs (Py.Q_of_float v) - inject_Z d)) <= 2 ^ (-48))%Q
         /\ (inject_Z m <= x < inject_Z m + 1)%Q
         /\ (Qabs (y - 60 * (x - inject_Z m)) <= 2 ^ (-48))%Q
         /\ (Qabs (inject_Z c - 100 * y) <= 1 # 2)%Q.
Proof.
  intros Hv Hf.
  destruct (dms_steps_bounds v Hv Hf)
    as (d & m & d_f & m_f & Hd & Hdf & Hm & Hmf & Hd0 & Hm0 & Hdfl
        & HQmf & Hmfl & HQs & Hs60 & Hfs & Hns).
  cbv zeta in *.
  set (m_full := Py.fmul (Py.fsub (Py.fabs v) d_f) SIXTY) in *.
  set (sf := Py.fmul (Py.fsub m_full m_f) SIXTY) in *.
  pose proof (dec_to_dms_eq v is_lat d m d_f m_f Hf Hd Hdf Hm Hmf Hd0
                (proj1 Hm0)) as Heq.
  cbv zeta in Heq. fold m_full in Heq. fold sf in Heq.
  destruct (format_seconds sf Hfs Hns) as (Hfmt & Hc0 & Hcerr).
  cbv zeta in *. set (c := hundredths sf) in *.
  rewrite Hfmt in Heq.
  exists d, m, c. split; [exact Heq|]. split; [exact Hd0|]. split; [exact Hm0|].
  split.
  { split; [exact Hc0|].
    apply Zle_of_Qlt_succ. change (inject_Z 6000) with 6000%Q.
    apply Qabs_Qle_condition in Hcerr. lra. }
  split; [exact Hdfl|].
  exists (Py.Q_of_float m_full), (Py.Q_of_float sf). repeat split; try assumption;
    apply Hmfl.
Qed.

(** X8: in the DMS string of every finite binary64 value the minutes lie
    between 0 and 59 and the seconds between 00.00 and 60.00. *)
Theorem X8_dms_fields_range (v : Py.float) (is_lat : bool) :
  Py.is_binary64 v = true -> Py.is_finite v = true ->
  exists s hem d m c,
    dec_to_dms v is_lat = Ok s
    /\ read_dms s = Some (hem, d, m, c)
    /\ 0 <= d /\ 0 <= m <= 59 /\ 0 <= c <= 6000.
Proof.
  intros Hv Hf.
  destruct (dec_to_dms_print v is_lat Hv Hf)
    as (d & m & c & Heq & Hd & Hm & Hc & _).
  eexists. exists (hemisphere (Py.Q_of_float v) is_lat), d, m, c.
  split; [exact Heq|].
  split; [apply read_dms_print; lia|].
  repeat split; lia.
Qed.

(** The longitude -118.408: 24 minutes and 28.80 seconds. *)
Lemma X8_dms_fields_range_witness :
  exists s, dec_to_dms (float_lit "-118.408") false = Ok s
            /\ read_dms s = Some ("W"%char, 118, 24, 2880).
Proof.
  destruct (X8_dms_fields_range (float_lit "-118.408") false eq_refl eq_refl)
    as (s & hem & d & m & c & Hs & Hr & _).
  exists s. split; [exact Hs|].
  vm_compute in Hs. injection Hs as <-. reflexivity.
Defined.

(** X9: there is no carry from the seconds into the minutes or the
    degrees: every finite binary64 value that lies less than a millionth
    of a degree below a whole degree [d + 1] is printed with [d] degrees,
    59 minutes and 60.00 seconds. *)
Theorem X9_dms_no_carry (v : Py.float) (is_lat : bool) (d : Z) :
  Py.is_binary64 v = true -> Py.is_finite v = true ->
  0 <= d ->
  (inject_Z (d + 1) - (1 # 1000000) <= Qabs (Py.Q_of_float v) < inject_Z (d + 1))%Q ->
  dec_to_dms v is_lat
  = Ok (String (hemisphere (Py.Q_of_float v) is_lat)
          (Str.digits d ++ DEGREE_SIGN ++ " 59' 60.00" ++ DQUOTE)).
Proof.
  intros Hv Hf Hd0 Hwin.
  destruct (dec_to_dms_print v is_lat Hv Hf)
    as (d' & m & c & Heq & Hd' & Hm & Hc & Hfl & x & y & Hx & Hxm & Hy & Hcy).
  rewrite inject_Z_plus in Hwin. change (inject_Z 1) with 1%Q in Hwin.
  assert (Hdd : d' = d).
  { assert (d' <= d) by (apply Zle_of_Qlt_succ; lra).
    assert (d <= d') by (apply Zle_of_Qlt_succ; lra). lia. }
  subst d'.
  apply Qabs_Qle_condition in Hx. apply Qabs_Qle_condition in Hy.
  apply Qabs_Qle_condition in Hcy.
  assert (Ht : (2 ^ (-48) <= 1 # 1000000000)%Q) by (vm_compute; discriminate).
  assert (Htp : (0 < 2 ^ (-48))%Q) by reflexivity.
  set (A := Qabs (Py.Q_of_float v)) in *. set (t := (2 ^ (-48))%Q) in *.
  assert (Hm59 : m = 59).
  { assert (59 <= m); [|lia].
    apply Zle_of_Qlt_succ. change (inject_Z 59) with 59%Q. lra. }
  subst m. change (inject_Z 59) with 59%Q in *.
  assert (Hc6 : c = 6000).
  { assert (6000 <= c); [|lia].
    assert (5999 < c); [|lia].
    rewrite Zlt_Qlt. change (inject_Z 5999) with 5999%Q. lra. }
  subst c. exact Heq.
Qed.

(** The latitude -0.9999999999, a ten-billionth of a degree short of one
    degree south. *)
Lemma X9_dms_no_carry_witness :
  dec_to_dms (float_lit "-0.9999999999") true
  = Ok ("S0" ++ DEGREE_SIGN ++ " 59' 60.00" ++ DQUOTE).
Proof.
  refine (X9_dms_no_carry (float_lit "-0.9999999999") true 0 eq_refl eq_refl _ _).
  - lia.
  - vm_compute. split; [discriminate | reflexivity].
Defined.

(** X10: a finite binary64 value that is a whole number of degrees [n] is
    printed exactly: the magnitude of [n], 0 minutes and 00.00 seconds. *)
Theorem X10_dms_whole_degrees (v : Py.float) (is_lat : bool) (n : Z) :
  Py.is_binary64 v = true -> Py.is_finite v = true ->
  (Py.Q_of_float v == inject_Z n)%Q ->
  dec_to_dms v is_lat
  = Ok (String (hemisphere (Py.Q_of_float v) is_lat)
          (Str.digits (Z.abs n) ++ DEGREE_SIGN ++ " 0' 00.00" ++ DQUOTE)).
Proof.
  intros Hv Hf Hn.
  destruct (dec_to_dms_print v is_lat Hv Hf)
    as (d & m & c & Heq & Hd & Hm & Hc & Hfl & x & y & Hx & Hxm & Hy & Hcy).
  assert (HA : (Qabs (Py.Q_of_float v) == inject_Z (Z.abs n))%Q)
    by (rewrite Hn; reflexivity).
  rewrite HA in Hfl, Hx.
  assert (Hdn : d = Z.abs n).
  { destruct Hfl as [Hl Hu]. rewrite <- Zle_Qle in Hl.
    apply Zle_of_Qlt_succ in Hu. lia. }
  subst d.
  apply Qabs_Qle_condition in Hx. apply Qabs_Qle_condition in Hy.
  apply Qabs_Qle_condition in Hcy.
  assert (Ht : (2 ^ (-48) <= 1 # 1000000000)%Q) by (vm_compute; discriminate).
  assert (Htp : (0 < 2 ^ (-48))%Q) by reflexivity.
  set (q := inject_Z (Z.abs n)) in *. set (t := (2 ^ (-48))%Q) in *.
  assert (Hm0 : m = 0).
  { assert (m < 1); [|lia].
    rewrite Zlt_Qlt. change (inject_Z 1) with 1%Q. lra. }
  subst m. change (inject_Z 0) with 0%Q in *.
  assert (Hc0 : c = 0).
  { assert (c < 1); [|lia].
    rewrite Zlt_Qlt. change (inject_Z 1) with 1%Q. lra. }
  subst c. exact Heq.
Qed.

(** The longitude -118. *)
Lemma X10_dms_whole_degrees_witness :
  dec_to_dms (float_lit "-118") false
  = Ok ("W118" ++ DEGREE_SIGN ++ " 0' 00.00" ++ DQUOTE).
Proof.
  exact (X10_dms_whole_degrees (float_lit "-118") false (-118) eq_refl eq_refl
           ltac:(reflexivity)).
Defined.

(** X11: on a well-formed binary64 value [dec_to_dms] returns a string
    exactly when the value is finite; a NaN raises the [ValueError] of
    [int()], an infinity an [OverflowError]. *)
Theorem X11_dec_to_dms_defined (v : Py.float) (is_lat : bool) :
  Py.is_binary64 v = true ->
  ((exists s, dec_to_dms v is_lat = Ok s) <-> Py.is_finite v = true)
  /\ (v = S754_nan -> dec_to_dms v is_lat = Raise NAN_TO_INT)
  /\ (forall sg, v = S754_infinity sg -> dec_to_dms v is_lat = Raise OverflowError).
Proof.
  intros Hv. split.
  - split.
    + intros [s Hs]. exact (dec_to_dms_finite _ _ _ Hs).
    + intros Hf. exact (dec_to_dms_ok v is_lat Hv Hf).
  - split.
    + intros ->. reflexivity.
    + intros sg ->. reflexivity.
Qed.

(** A subnormal value, a NaN and an infinity. *)
Lemma X11_dec_to_dms_defined_witness :
  (exists s, dec_to_dms (float_lit "1e-320") true = Ok s)
  /\ dec_to_dms (float_lit "nan") true = Raise NAN_TO_INT
  /\ dec_to_dms (float_lit "-inf") false = Raise OverflowError.
Proof.
  destruct (X11_dec_to_dms_defined (float_lit "1e-320") true eq_refl) as ((_ & H) & _).
  split; [exact (H eq_refl)|]. split; reflexivity.
Defined.

End FormatterRanges.

Section AltitudeMore.

Lemma substring_prefix (a b : string) :
  String.substring 0 (String.length a) (a ++ b) = a.
Proof.
  induction a as [|c a IH]; cbn [String.length append String.substring].
  - destruct b; reflexivity.
  - now rewrite IH.
Qed.

Lemma parse_int_digits (s : string) :
  Str.forallb Str.is_digit s = true -> parse_int s = Str.parse_digits s.
Proof.
  destruct s as [|c s]; [reflexivity|]. cbn [Str.forallb parse_int].
  intros H. apply andb_true_iff in H as [Hc _].
  destruct (Ascii.eqb_spec c "-") as [->|_]; [discriminate Hc | reflexivity].
Qed.

Lemma length_zfill_max (w : nat) (s : string) :
  String.length (Str.zfill w s) = Nat.max w (String.length s).
Proof. unfold Str.zfill. rewrite length_app, length_repeat. lia. Qed.

Lemma parse_zfill (w : nat) (n : Z) :
  0 <= n -> Str.parse_digits (Str.zfill w (Str.digits n)) = Some n.
Proof.
  intros Hn.
  destruct (digits_spec n Hn) as (_ & Hl & _ & _ & _ & Hp).
  rewrite parse_digits_nonempty by (rewrite length_zfill_max; lia).
  unfold Str.zfill.
  rewrite parse_digits_acc_app by (now apply forallb_repeat).
  rewrite parse_digits_acc_zeros, Hp. f_equal; lia.
Qed.

(** The number of digits of [n] is at most [k] exactly when [n < 10^k]. *)
Lemma length_digits_iff (n : Z) (k : nat) :
  0 <= n -> (0 < k)%nat ->
  ((String.length (Str.digits n) <= k)%nat <-> n < 10 ^ Z.of_nat k).
Proof.
  intros Hn Hk. split.
  - intros Hlen. destruct (digits_spec n Hn) as (_ & _ & Hub & _).
    assert (10 ^ Z.of_nat (String.length (Str.digits n)) <= 10 ^ Z.of_nat k)
      by (apply Z.pow_le_mono_r; lia).
    lia.
  - intros Hlt. apply length_digits_le; [lia | exact Hk].
Qed.

Lemma read_alt_format (ft : Z) :
  read_alt ("+" ++ Str.format_0d 6 ft ++ ".00") = Some ft.
Proof.
  change ("+" ++ Str.format_0d 6 ft ++ ".00")
    with (String "+" (Str.format_0d 6 ft ++ ".00")).
  cbn [read_alt]. change (Ascii.eqb "+" "+") with true. cbv iota.
  unfold Str.slice. rewrite length_app. cbn [String.length].
  replace (Z.to_nat (Z.of_nat (String.length (Str.format_0d 6 ft) + 3) - 3 - 0))
    with (String.length (Str.format_0d 6 ft)) by lia.
  change (Z.to_nat 0) with 0%nat. rewrite substring_prefix.
  unfold Str.format_0d. destruct (Z.ltb_spec ft 0) as [Hneg|Hpos].
  - cbn [parse_int]. change (Ascii.eqb "-" "-") with true. cbv iota.
    rewrite parse_zfill by lia. cbn [option_map]. f_equal. lia.
  - rewrite parse_int_digits.
    + now apply parse_zfill.
    + apply forallb_zfill. now destruct (digits_spec ft Hpos).
Qed.

Lemma length_alt (ft : Z) :
  (10 <= String.length ("+" ++ Str.format_0d 6 ft ++ ".00"))%nat
  /\ (String.length ("+" ++ Str.format_0d 6 ft ++ ".00") = 10%nat
      <-> -99999 <= ft <= 999999).
Proof.
  rewrite !length_app. cbn [String.length].
  unfold Str.format_0d. destruct (Z.ltb_spec ft 0) as [Hneg|Hpos].
  - cbn [String.length]. rewrite length_zfill_max.
    pose proof (length_digits_iff (- ft) 5 ltac:(lia) ltac:(lia)) as H.
    change (10 ^ Z.of_nat 5) with 100000 in H.
    split; [lia|]. split; intros; lia.
  - rewrite length_zfill_max.
    pose proof (length_digits_iff ft 6 ltac:(lia) ltac:(lia)) as H.
    change (10 ^ Z.of_nat 6) with 1000000 in H.
    split; [lia|]. split; intros; lia.
Qed.

(** X12: whatever the sign and the size of the altitude, the feet can be
    read back from the altitude string: between its leading plus sign and
    its last three characters stands the integer [ft], with a minus
    sign when it is negative.  The string has at least 10 characters, and
    exactly 10 when [ft] lies between -99999 and 999999. *)
Theorem X12_alt_read_back (alt_m : Py.float) :
  Py.is_finite (Py.fmul alt_m FT_PER_M) = true ->
  exists ft s,
    Py.round (Py.fmul alt_m FT_PER_M) = Ok ft
    /\ alt_m_to_ft_str alt_m = Ok s
    /\ read_alt s = Some ft
    /\ (10 <= String.length s)%nat
    /\ (String.length s = 10%nat <-> -99999 <= ft <= 999999).
Proof.
  intros Hfin. destruct (round_finite _ Hfin) as [ft Hft].
  exists ft, ("+" ++ Str.format_0d 6 ft ++ ".00").
  split; [exact Hft|].
  split; [unfold alt_m_to_ft_str; now rewrite Hft|].
  split; [apply read_alt_format|]. apply length_alt.
Qed.

(** The altitude -430.5 m, below sea level: -1412 ft. *)
Lemma X12_alt_read_back_witness :
  exists s, alt_m_to_ft_str (float_lit "-430.5") = Ok s
            /\ read_alt s = Some (-1412)
            /\ String.length s = 10%nat.
Proof.
  destruct (X12_alt_read_back (float_lit "-430.5") eq_refl)
    as (ft & s & Hft & Hs & Hr & _ & Hl).
  exists s. split; [exact Hs|].
  vm_compute in Hft. injection Hft as <-.
  split; [exact Hr|]. apply Hl. lia.
Defined.

(** X13: the altitude formatter returns a string exactly when the product
    [alt_m * 3.28084] is finite; a NaN raises the [ValueError] of
    [round()], an infinity an [OverflowError], and so does a finite
    altitude whose value in feet is beyond the largest float. *)
Theorem X13_alt_defined :
  (forall alt_m,
      (exists s, alt_m_to_ft_str alt_m = Ok s)
      <-> Py.is_finite (Py.fmul alt_m FT_PER_M) = true)
  /\ alt_m_to_ft_str S754_nan = Raise NAN_TO_INT
  /\ (forall sg, alt_m_to_ft_str (S754_infinity sg) = Raise OverflowError)
  /\ (forall alt_m,
        Py.is_finite alt_m = true ->
        Py.is_finite (Py.fmul alt_m FT_PER_M) = false ->
        alt_m_to_ft_str alt_m = Raise OverflowError)
  /\ (Py.is_finite (float_lit "1e308") = true
      /\ alt_m_to_ft_str (float_lit "1e308") = Raise OverflowError).
Proof.
  split.
  { intros alt_m. split.
    - intros [s Hs]. exact (alt_finite _ _ Hs).
    - intros Hf. destruct (round_finite _ Hf) as [ft Hft].
      unfold alt_m_to_ft_str. rewrite Hft. cbn [bind]. eauto. }
  split; [reflexivity|]. split; [intros []; reflexivity|].
  split; [|split; reflexivity].
  intros alt_m Hf Hn. unfold alt_m_to_ft_str.
  destruct alt_m as [s|s| |s m e]; try discriminate Hf.
  - destruct s; discriminate Hn.
  - pose proof (binary_round_aux_rounds (xorb s false)
                  (m * 7387794900731109) (e + -51)) as Hr.
    change (binary_round_aux Py.prec Py.emax (xorb s false)
              (Zpos (m * 7387794900731109)) (e + -51) loc_Exact)
      with (Py.fmul (S754_finite s m e) FT_PER_M) in Hr.
    destruct Hr as (m1 & _ & _ & _ & [[_ Hz]|(m2 & e2 & _ & _ & _ & Hfin)]).
    + rewrite Hz in Hn. discriminate Hn.
    + rewrite Hfin in *. destruct (e2 <=? Py.emax - Py.prec);
        [discriminate Hn | reflexivity].
Qed.

End AltitudeMore.

(** ** The reader: waypoints, success and failure *)

Section ReaderMore.

Lemma qualifying_filter (root : element) :
  qualifying root = List.filter has_point (findall_desc (kml "Placemark") root).
Proof. reflexivity. Qed.

(** The body of the placemark loop in terms of what it takes from the
    placemark. *)
Lemma read_placemark_eq (pm : element) :
  read_placemark pm
  = if has_point pm
    then match fields_of pm with
         | None => Raise AttributeError
         | Some fs =>
             lla <- unpack3 (List.firstn 3 fs) ;;
             let '(lon, lat, alt) := lla in
             match name_of pm with
             | None => Raise AttributeError
             | Some name => Ok (Some (mkWaypoint name lat lon alt))
             end
         end
    else Ok None.
Proof.
  unfold read_placemark, has_point, fields_of, name_of, child_text.
  destruct (find_child (kml "Point") pm) as [point|]; [|reflexivity].
  destruct (find_child (kml "coordinates") point) as [c|]; [|reflexivity].
  cbn [text_of bind]. destruct (text c) as [t|]; [|reflexivity].
  cbn [strip_of bind option_map].
  destruct (unpack3 _) as [[[lon lat] alt]|]; [|reflexivity]. cbn [bind].
  destruct (find_child (kml "name") pm) as [n|]; [|reflexivity].
  cbn [text_of bind]. destruct (text n) as [t'|]; reflexivity.
Qed.

Lemma float_of_string_raises (s : string) (e : exn) :
  Fmt.float_of_string s = Raise e ->
  e = ValueError ("could not convert string to float: " ++ Str.repr s).
Proof.
  unfold Fmt.float_of_string.
  destruct (Fmt.scan_sign (Str.strip_by Fmt.is_float_space s)) as [neg body].
  destruct (_ || _); [discriminate|].
  destruct (String.eqb _ _); [discriminate|].
  destruct (Fmt.scan_number body) as [[n k]|]; [discriminate|].
  intros [= <-]. reflexivity.
Qed.

Lemma float_of_string_value_error (s : string) (e : exn) :
  Fmt.float_of_string s = Raise e -> value_error e.
Proof.
  intros H. apply float_of_string_raises in H. subst e.
  split; [eauto | discriminate].
Qed.

Lemma unpack3_raises (parts : list string) (e : exn) :
  unpack3 parts = Raise e -> value_error e.
Proof.
  unfold unpack3.
  destruct parts as [|a [|b [|c [|x rest]]]].
  - intros [= <-]. split; [eauto | discriminate].
  - destruct (Fmt.float_of_string a) eqn:Ea; cbn [bind].
    + intros [= <-]. split; [eauto | discriminate].
    + intros [= <-]. now apply float_of_string_value_error in Ea.
  - destruct (Fmt.float_of_string a) eqn:Ea; cbn [bind].
    2:{ intros [= <-]. now apply float_of_string_value_error in Ea. }
    destruct (Fmt.float_of_string b) eqn:Eb; cbn [bind].
    + intros [= <-]. split; [eauto | discriminate].
    + intros [= <-]. now apply float_of_string_value_error in Eb.
  - destruct (Fmt.float_of_string a) eqn:Ea; cbn [bind].
    2:{ intros [= <-]. now apply float_of_string_value_error in Ea. }
    destruct (Fmt.float_of_string b) eqn:Eb; cbn [bind].
    2:{ intros [= <-]. now apply float_of_string_value_error in Eb. }
    destruct (Fmt.float_of_string c) eqn:Ec; cbn [bind].
    + discriminate.
    + intros [= <-]. now apply float_of_string_value_error in Ec.
  - intros [= <-]. split; [eauto | discriminate].
Qed.

Lemma unpack3_ok (fs : list string) (lon lat alt : Py.float) :
  unpack3 (List.firstn 3 fs) = Ok (lon, lat, alt)
  <-> exists a b c rest,
        fs = a :: b :: c :: rest
        /\ Fmt.float_of_string a = Ok lon
        /\ Fmt.float_of_string b = Ok lat
        /\ Fmt.float_of_string c = Ok alt.
Proof.
  split.
  - destruct fs as [|a [|b [|c rest]]]; cbn [List.firstn unpack3].
    + discriminate.
    + destruct (Fmt.float_of_string a); discriminate.
    + destruct (Fmt.float_of_string a); [|discriminate].
      destruct (Fmt.float_of_string b); discriminate.
    + destruct (Fmt.float_of_string a) as [x|] eqn:Ea; [|discriminate].
      destruct (Fmt.float_of_string b) as [y|] eqn:Eb; [|discriminate].
      destruct (Fmt.float_of_string c) as [z|] eqn:Ec; [|discriminate].
      cbn [bind]. intros [= <- <- <-]. exists a, b, c, rest. repeat split; assumption.
  - intros (a & b & c & rest & -> & Ha & Hb & Hc).
    cbn [List.firstn unpack3]. rewrite Ha, Hb, Hc. reflexivity.
Qed.

(** What a waypoint of the reader holds. *)
Lemma read_placemark_some (pm : element) (w : waypoint) :
  read_placemark pm = Ok (Some w)
  <-> has_point pm = true
      /\ name_of pm = Some (wp_name w)
      /\ exists a b c rest,
           fields_of pm = Some (a :: b :: c :: rest)
           /\ Fmt.float_of_string a = Ok (wp_lon w)
           /\ Fmt.float_of_string b = Ok (wp_lat w)
           /\ Fmt.float_of_string c = Ok (wp_alt w).
Proof.
  rewrite read_placemark_eq. split.
  - destruct (has_point pm); [|discriminate].
    destruct (fields_of pm) as [fs|]; [|discriminate].
    destruct (unpack3 (List.firstn 3 fs)) as [[[lon lat] alt]|] eqn:E;
      [|discriminate]. cbn [bind].
    destruct (name_of pm) as [name|]; [|discriminate].
    intros [= <-]. cbn [wp_name wp_lat wp_lon wp_alt].
    apply unpack3_ok in E. destruct E as (a & b & c & rest & -> & Ha & Hb & Hc).
    split; [reflexivity|]. split; [reflexivity|].
    exists a, b, c, rest. repeat split; assumption.
  - intros (-> & Hn & a & b & c & rest & -> & Ha & Hb & Hc).
    rewrite Hn. cbn [List.firstn unpack3]. rewrite Ha, Hb, Hc. cbn [bind].
    destruct w; reflexivity.
Qed.

Lemma read_placemark_ok (pm : element) :
  has_point pm = true ->
  placemark_ok pm = true <-> exists w, read_placemark pm = Ok (Some w).
Proof.
  intros Hp. unfold placemark_ok. split.
  - destruct (fields_of pm) as [[|a [|b [|c rest]]]|] eqn:Ef; try discriminate.
    destruct (name_of pm) as [name|] eqn:En; [|discriminate].
    destruct (Fmt.float_of_string a) as [x|] eqn:Ea; [|discriminate].
    destruct (Fmt.float_of_string b) as [y|] eqn:Eb; [|discriminate].
    destruct (Fmt.float_of_string c) as [z|] eqn:Ec; [|discriminate].
    intros _. exists (mkWaypoint name y x z). apply read_placemark_some.
    split; [exact Hp|]. split; [exact En|].
    exists a, b, c, rest. repeat split; assumption.
  - intros [w Hw]. apply read_placemark_some in Hw.
    destruct Hw as (_ & Hn & a & b & c & rest & Hf & Ha & Hb & Hc).
    rewrite Hf, Hn, Ha, Hb, Hc. reflexivity.
Qed.

Lemma read_placemark_raises (pm : element) (e : exn) :
  read_placemark pm = Raise e ->
  has_point pm = true /\ placemark_ok pm = false
  /\ (e = AttributeError \/ value_error e).
Proof.
  intros H.
  destruct (has_point pm) eqn:Hp.
  2:{ rewrite read_placemark_eq, Hp in H. discriminate H. }
  split; [reflexivity|]. split.
  - destruct (placemark_ok pm) eqn:Ho; [|reflexivity].
    apply (read_placemark_ok pm Hp) in Ho. destruct Ho as [w Hw]. congruence.
  - rewrite read_placemark_eq, Hp in H.
    destruct (fields_of pm) as [fs|]; [|injection H as <-; now left].
    destruct (unpack3 (List.firstn 3 fs)) as [[[lon lat] alt]|e'] eqn:E;
      cbn [bind] in H.
    + destruct (name_of pm); [discriminate H | injection H as <-; now left].
    + injection H as <-. right. now apply unpack3_raises in E.
Qed.

(** The loop over the placemarks: the waypoints are read from the
    placemarks with a point, one by one and in order, and the first one
    that cannot be read ends the loop with its exception. *)
Lemma read_placemarks_spec (pms : list element) :
  forall acc,
    match read_placemarks pms acc with
    | Ok wps =>
        exists new,
          wps = (acc ++ new)%list
          /\ List.Forall2 (fun pm w => read_placemark pm = Ok (Some w))
               (List.filter has_point pms) new
    | Raise e =>
        exists pre pm post,
          List.filter has_point pms = (pre ++ pm :: post)%list
          /\ List.forallb placemark_ok pre = true
          /\ read_placemark pm = Raise e
    end.
Proof.
  induction pms as [|pm pms IH]; intros acc.
  - cbn. exists []. split; [now rewrite List.app_nil_r | constructor].
  - cbn [read_placemarks List.filter].
    destruct (read_placemark pm) as [[w|]|e] eqn:Hpm; cbn [bind].
    + pose proof Hpm as Hw. apply read_placemark_some in Hw.
      destruct Hw as (Hp & _). rewrite Hp.
      specialize (IH (acc ++ [w])%list).
      destruct (read_placemarks pms (acc ++ [w])) as [wps|e].
      * destruct IH as (new & -> & Hall). exists (w :: new). split.
        -- now rewrite <- List.app_assoc.
        -- constructor; assumption.
      * destruct IH as (pre & pm' & post & Heq & Hpre & Hr).
        exists (pm :: pre), pm', post. split; [now rewrite Heq|].
        split; [|exact Hr]. cbn [List.forallb]. rewrite Hpre, andb_true_r.
        apply (read_placemark_ok pm Hp). eauto.
    + assert (Hp : has_point pm = false).
      { destruct (has_point pm) eqn:Hp; [|reflexivity].
        rewrite read_placemark_eq, Hp in Hpm.
        destruct (fields_of pm) as [fs|]; [|discriminate Hpm].
        destruct (unpack3 (List.firstn 3 fs)) as [[[lon lat] alt]|];
          cbn [bind] in Hpm; [|discriminate Hpm].
        destruct (name_of pm); discriminate Hpm. }
      rewrite Hp. apply IH.
    + destruct (read_placemark_raises _ _ Hpm) as (Hp & _ & _). rewrite Hp.
      exists [], pm, (List.filter has_point pms). repeat split. exact Hpm.
Qed.

End ReaderMore.

Section ReaderWaypoints.

Lemma parse_kml_inv (fs : filesystem) (kml_path : string) (root : element)
  (title : string) (wps : list waypoint) :
  fs kml_path = Some (Xml root) ->
  parse_kml fs kml_path = Ok (title, wps) ->
  read_title kml_path root = Ok title
  /\ wps <> []
  /\ List.Forall2 (fun pm w => read_placemark pm = Ok (Some w))
       (qualifying root) wps.
Proof.
  intros Hfs. unfold parse_kml, et_parse. rewrite Hfs. cbn [bind].
  destruct (read_title kml_path root) as [t|]; [|discriminate]. cbn [bind].
  pose proof (read_placemarks_spec (findall_desc (kml "Placemark") root) []) as Hs.
  destruct (read_placemarks (findall_desc (kml "Placemark") root) [])
    as [[|w ws]|]; cbn [bind]; try discriminate.
  intros [= <- <-]. destruct Hs as (new & Hnew & Hall).
  cbn [app] in Hnew. subst new.
  split; [reflexivity|]. split; [discriminate | exact Hall].
Qed.

Lemma read_names (pms : list element) (wps : list waypoint) :
  List.Forall2 (fun pm w => read_placemark pm = Ok (Some w)) pms wps ->
  List.length wps = List.length pms
  /\ List.map name_of pms = List.map (fun w => Some (wp_name w)) wps.
Proof.
  induction 1 as [|pm w pms ws Hpm _ [IHl IHn]]; [split; reflexivity|].
  apply read_placemark_some in Hpm. destruct Hpm as (_ & Hn & _).
  split; [cbn [List.length]; now rewrite IHl|].
  cbn [List.map]. now rewrite Hn, IHn.
Qed.

Lemma read_fields (pms : list element) (wps : list waypoint) :
  List.Forall2 (fun pm w => read_placemark pm = Ok (Some w)) pms wps ->
  List.Forall2
    (fun pm w =>
       exists lon lat alt rest,
         fields_of pm = Some (lon :: lat :: alt :: rest)
         /\ Fmt.float_of_string lon = Ok (wp_lon w)
         /\ Fmt.float_of_string lat = Ok (wp_lat w)
         /\ Fmt.float_of_string alt = Ok (wp_alt w))
    pms wps.
Proof.
  induction 1 as [|pm w pms ws Hpm _ IH]; constructor; [|exact IH].
  apply read_placemark_some in Hpm.
  destruct Hpm as (_ & _ & a & b & c & rest & Hf & Ha & Hb & Hc).
  exists a, b, c, rest. repeat split; assumption.
Qed.

(** X14: the waypoints that the reader returns are the placemarks with a
    point, one waypoint for each, in document order; placemarks without a
    point (paths, polygons) leave no trace.  When the names of the
    placemarks are in ASCII, the name of each waypoint is the stripped
    text of the name of its placemark. *)
Theorem X14_reader_waypoints (fs : filesystem) (kml_path : string) (root : element)
  (title : string) (wps : list waypoint) :
  fs kml_path = Some (Xml root) ->
  parse_kml fs kml_path = Ok (title, wps) ->
  wps <> []
  /\ List.length wps = List.length (qualifying root)
  /\ (List.forallb ascii_name (qualifying root) = true ->
      List.map name_of (qualifying root)
      = List.map (fun w => Some (wp_name w)) wps).
Proof.
  intros Hfs H. destruct (parse_kml_inv _ _ _ _ _ Hfs H) as (_ & Hne & Hall).
  split; [exact Hne|]. destruct (read_names _ _ Hall) as [Hl Hn].
  split; [exact Hl | intros _; exact Hn].
Qed.

(** The sample route: four placemarks, three of them with a point. *)
Lemma X14_reader_waypoints_witness :
  exists wps,
    parse_kml (one_file "routes/flight.kml" (Xml doc_route)) "routes/flight.kml"
    = Ok ("KLAX to KJFK", wps)
    /\ List.length (findall_desc (kml "Placemark") doc_route) = 4%nat
    /\ List.length wps = 3%nat
    /\ List.map (fun w => Some (wp_name w)) wps
       = [Some "KLAX"; Some "BRAVO"; Some "KJFK"].
Proof.
  destruct (parse_kml (one_file "routes/flight.kml" (Xml doc_route))
              "routes/flight.kml") as [[t wps]|] eqn:E;
    [|vm_compute in E; discriminate E].
  destruct (X14_reader_waypoints (one_file "routes/flight.kml" (Xml doc_route))
              "routes/flight.kml" doc_route t wps eq_refl E) as (_ & Hl & Hn).
  exists wps.
  assert (Ht : t = "KLAX to KJFK") by (vm_compute in E; congruence).
  subst t. split; [reflexivity|]. split; [reflexivity|].
  split; [exact Hl|]. rewrite <- (Hn eq_refl). reflexivity.
Defined.

(** X15: of the comma-separated fields of the coordinates of a placemark
    the reader takes the first as the longitude, the second as the
    latitude and the third as the altitude of the waypoint, each converted
    by [float]; fields after the third are ignored. *)
Theorem X15_reader_coordinates (fs : filesystem) (kml_path : string) (root : element)
  (title : string) (wps : list waypoint) :
  fs kml_path = Some (Xml root) ->
  parse_kml fs kml_path = Ok (title, wps) ->
  List.Forall2
    (fun pm w =>
       exists lon lat alt rest,
         fields_of pm = Some (lon :: lat :: alt :: rest)
         /\ Fmt.float_of_string lon = Ok (wp_lon w)
         /\ Fmt.float_of_string lat = Ok (wp_lat w)
         /\ Fmt.float_of_string alt = Ok (wp_alt w))
    (qualifying root) wps.
Proof.
  intros Hfs H. destruct (parse_kml_inv _ _ _ _ _ Hfs H) as (_ & _ & Hall).
  now apply read_fields.
Qed.

(** The sample route: the second point has a fourth field. *)
Lemma X15_reader_coordinates_witness :
  exists wps w,
    parse_kml (one_file "routes/flight.kml" (Xml doc_route)) "routes/flight.kml"
    = Ok ("KLAX to KJFK", wps)
    /\ List.nth_error wps 1 = Some w
    /\ List.map fields_of (qualifying doc_route)
       = [Some ["-118.408"; "33.9425"; "38.1"];
          Some ["-117.9"; "34.5"; "1500.0"; "7"];
          Some ["-73.7789"; "40.6398"; "4.0"]]
    /\ wp_lon w = float_lit "-117.9" /\ wp_lat w = float_lit "34.5"
    /\ wp_alt w = float_lit "1500.0".
Proof.
  destruct (parse_kml (one_file "routes/flight.kml" (Xml doc_route))
              "routes/flight.kml") as [[t wps]|] eqn:E;
    [|vm_compute in E; discriminate E].
  pose proof (X15_reader_coordinates
                (one_file "routes/flight.kml" (Xml doc_route))
                "routes/flight.kml" doc_route t wps eq_refl E) as Hall.
  assert (Ht : t = "KLAX to KJFK") by (vm_compute in E; congruence).
  subst t.
  change (qualifying doc_route)
    with [point_placemark "KLAX" "-118.408,33.9425,38.1";
          point_placemark " BRAVO " " -117.9,34.5,1500.0,7 ";
          point_placemark "KJFK" "-73.7789,40.6398,4.0"] in Hall.
  inversion Hall as [|pm0 w0 pms0 ws0 _ Hrest]; subst.
  inversion Hrest as [|pm1 w1 pms1 ws1 H1 _]; subst.
  destruct H1 as (lon & lat & alt & rest & Hf & Hlon & Hlat & Halt).
  change (fields_of (point_placemark " BRAVO " " -117.9,34.5,1500.0,7 "))
    with (Some ["-117.9"; "34.5"; "1500.0"; "7"]) in Hf.
  injection Hf as <- <- <- <-.
  exists (w0 :: w1 :: ws1), w1.
  split; [reflexivity|]. split; [reflexivity|]. split; [reflexivity|].
  unfold float_lit. rewrite Hlon, Hlat, Halt. repeat split.
Defined.

End ReaderWaypoints.

Section ReaderOutcome.

Lemma read_title_ok (kml_path : string) (root : element) :
  is_ok (read_title kml_path root) = title_ok root.
Proof.
  unfold read_title, title_ok.
  destruct (find_desc_child (kml "Document") (kml "name") root) as [el|];
    [|reflexivity].
  destruct (text el); reflexivity.
Qed.


Lemma read_placemarks_filter (pms : list element) :
  forall acc,
    read_placemarks pms acc = read_placemarks (List.filter has_point pms) acc.
Proof.
  induction pms as [|pm pms IH]; intros acc; [reflexivity|].
  cbn [List.filter]. destruct (has_point pm) eqn:Hp.
  - cbn [read_placemarks].
    destruct (read_placemark pm) as [[w|]|]; cbn [bind]; auto.
  - cbn [read_placemarks]. rewrite (read_placemark_eq pm), Hp. cbn [bind].
    apply IH.
Qed.

Lemma parse_kml_eq (fs : filesystem) (kml_path : string) (root : element) :
  fs kml_path = Some (Xml root) ->
  parse_kml fs kml_path
  = (title <- read_title kml_path root ;;
     waypoints <- read_placemarks (qualifying root) [] ;;
     match waypoints with
     | [] => Raise NO_WAYPOINTS
     | _ => Ok (title, waypoints)
     end).
Proof.
  intros Hfs. unfold parse_kml, et_parse. rewrite Hfs. cbn [bind].
  now rewrite read_placemarks_filter.
Qed.

(** X16: the result of the reader, a flight path or an exception, depends
    on the document only through its title and its placemarks with a
    point: two documents that agree on those are read alike, whatever else
    they hold (paths, polygons, folders, styles). *)
Theorem X16_reader_ignores_others (fs fs' : filesystem) (kml_path : string)
  (root root' : element) :
  fs kml_path = Some (Xml root) -> fs' kml_path = Some (Xml root') ->
  read_title kml_path root = read_title kml_path root' ->
  qualifying root = qualifying root' ->
  parse_kml fs kml_path = parse_kml fs' kml_path.
Proof.
  intros Hfs Hfs' Ht Hq.
  rewrite (parse_kml_eq _ _ _ Hfs), (parse_kml_eq _ _ _ Hfs'), Ht, Hq.
  reflexivity.
Qed.

(** The sample route with and without its path and its folder. *)
Lemma X16_reader_ignores_others_witness :
  qualifying doc_route = qualifying doc_points_only
  /\ parse_kml (one_file "a.kml" (Xml doc_route)) "a.kml"
     = parse_kml (one_file "a.kml" (Xml doc_points_only)) "a.kml".
Proof.
  split; [reflexivity|].
  apply (X16_reader_ignores_others _ _ "a.kml" doc_route doc_points_only);
    reflexivity.
Defined.

End ReaderOutcome.

Section ReaderSuccess.

Lemma forall2_ok (pms : list element) (wps : list waypoint) :
  List.Forall2 (fun pm w => read_placemark pm = Ok (Some w)) pms wps ->
  List.forallb placemark_ok pms = true.
Proof.
  induction 1 as [|pm w pms ws Hpm _ IH]; [reflexivity|].
  cbn [List.forallb]. rewrite IH, andb_true_r.
  pose proof Hpm as Hw. apply read_placemark_some in Hw. destruct Hw as (Hp & _).
  apply (read_placemark_ok pm Hp). eauto.
Qed.

Lemma filter_has_point (pms : list element) (pm : element) :
  List.In pm (List.filter has_point pms) -> has_point pm = true.
Proof. intros H. now apply List.filter_In in H. Qed.

Lemma filter_idem {A : Type} (f : A -> bool) (l : list A) :
  List.filter f (List.filter f l) = List.filter f l.
Proof.
  induction l as [|a l IH]; [reflexivity|].
  cbn [List.filter]. destruct (f a) eqn:E; [|exact IH].
  cbn [List.filter]. now rewrite E, IH.
Qed.

(** The loop succeeds on the placemarks with a point exactly when each
    of them can be read. *)
Lemma read_placemarks_ok (root : element) :
  List.forallb placemark_ok (qualifying root) = true ->
  exists wps,
    read_placemarks (qualifying root) [] = Ok wps
    /\ List.Forall2 (fun pm w => read_placemark pm = Ok (Some w))
         (qualifying root) wps.
Proof.
  intros Hok.
  pose proof (read_placemarks_spec (qualifying root) []) as Hs.
  rewrite qualifying_filter, filter_idem in Hs. rewrite <- qualifying_filter in Hs.
  destruct (read_placemarks (qualifying root) []) as [wps|e].
  - destruct Hs as (new & -> & Hall). exists new. split; [reflexivity | exact Hall].
  - exfalso. destruct Hs as (pre & pm & post & Heq & _ & Hr).
    destruct (read_placemark_raises _ _ Hr) as (_ & Hbad & _).
    rewrite Heq, List.forallb_app in Hok. cbn [List.forallb] in Hok.
    rewrite Hbad in Hok. rewrite andb_false_r in Hok. discriminate Hok.
Qed.

(** X17: on a well-formed document whose coordinates are written in
    ASCII the reader returns a flight path exactly when the title can be
    read (no document-level name, or one with text), there is at least
    one placemark with a point, and every placemark with a point has a
    name with text and coordinates with text of at least three
    comma-separated fields, the first three of them numbers.  In
    particular coordinates of two fields, a longitude and a latitude
    without altitude, make the reader fail. *)
Theorem X17_reader_succeeds_iff (fs : filesystem) (kml_path : string) (root : element) :
  fs kml_path = Some (Xml root) ->
  List.forallb ascii_coordinates (qualifying root) = true ->
  ((exists title wps, parse_kml fs kml_path = Ok (title, wps))
   <-> title_ok root = true
       /\ qualifying root <> []
       /\ List.forallb placemark_ok (qualifying root) = true)
  /\ (forall pm fields,
        List.In pm (qualifying root) ->
        fields_of pm = Some fields -> (List.length fields < 3)%nat ->
        is_ok (parse_kml fs kml_path) = false).
Proof.
  intros Hfs _.
  assert (Hiff : (exists title wps, parse_kml fs kml_path = Ok (title, wps))
                 <-> title_ok root = true
                     /\ qualifying root <> []
                     /\ List.forallb placemark_ok (qualifying root) = true).
  { split.
    - intros (title & wps & H).
      destruct (parse_kml_inv _ _ _ _ _ Hfs H) as (Ht & Hne & Hall).
      split; [rewrite <- (read_title_ok kml_path), Ht; reflexivity|].
      split; [|now apply forall2_ok in Hall].
      intros Hq. rewrite Hq in Hall. inversion Hall. now subst.
    - intros (Ht & Hne & Hok).
      rewrite <- (read_title_ok kml_path) in Ht.
      destruct (read_title kml_path root) as [title|] eqn:Et; [|discriminate Ht].
      destruct (read_placemarks_ok root Hok) as (wps & Hr & Hall).
      exists title, wps. rewrite (parse_kml_eq _ _ _ Hfs), Et. cbn [bind].
      rewrite Hr. cbn [bind].
      destruct wps as [|w ws]; [|reflexivity].
      inversion Hall as [Hq|]. now rewrite <- Hq in Hne. }
  split; [exact Hiff|].
  intros pm fields Hin Hf Hlen.
  destruct (parse_kml fs kml_path) as [[title wps]|] eqn:E; [|reflexivity].
  exfalso. destruct (proj1 Hiff) as (_ & _ & Hok); [eauto|].
  rewrite List.forallb_forall in Hok. specialize (Hok pm Hin).
  unfold placemark_ok in Hok. rewrite Hf in Hok.
  destruct fields as [|a [|b [|c rest]]]; try discriminate Hok.
  cbn [List.length] in Hlen. lia.
Qed.

(** The sample route is read; the document whose second point has no
    altitude is not. *)
Lemma X17_reader_succeeds_iff_witness :
  (exists title wps,
      parse_kml (one_file "a.kml" (Xml doc_route)) "a.kml" = Ok (title, wps))
  /\ is_ok (parse_kml (one_file "a.kml" (Xml doc_two_fields)) "a.kml") = false.
Proof.
  destruct (X17_reader_succeeds_iff (one_file "a.kml" (Xml doc_route)) "a.kml"
              doc_route eq_refl eq_refl) as [H _].
  destruct (X17_reader_succeeds_iff (one_file "a.kml" (Xml doc_two_fields)) "a.kml"
              doc_two_fields eq_refl eq_refl) as [_ H'].
  split.
  - apply H. split; [reflexivity|]. split; [discriminate | reflexivity].
  - apply (H' (point_placemark "KJFK" "-73.7789,40.6398") ["-73.7789"; "40.6398"]).
    + right. left. reflexivity.
    + reflexivity.
    + cbn. lia.
Defined.




End ReaderSuccess.

Section ReaderNamespace.

Lemma filter_none {A : Type} (f : A -> bool) (l : list A) :
  (forall x, List.In x l -> f x = false) -> List.filter f l = [].
Proof.
  induction l as [|a l IH]; intros H; [reflexivity|].
  cbn [List.filter]. rewrite (H a) by now left.
  apply IH. intros x Hx. apply H. now right.
Qed.

Lemma findall_desc_none (t : string) (root : element) :
  (forall e, List.In e (iter root) -> tag e <> t) -> findall_desc t root = [].
Proof.
  intros H. unfold findall_desc. apply filter_none. intros e He.
  unfold has_tag. apply String.eqb_neq. apply H.
  destruct root as [rt ra rx rc]. cbn [iter children] in *. now right.
Qed.

(** X19: the reader sees only elements of the KML 2.2 namespace.  A
    well-formed document none of whose elements is in that namespace, for
    instance a KML 2.1 document, is rejected with the no-waypoints error,
    whatever placemarks and points it holds. *)
Theorem X19_reader_other_namespace (fs : filesystem) (kml_path : string)
  (root : element) :
  fs kml_path = Some (Xml root) ->
  (forall e local, List.In e (iter root) -> tag e <> kml local) ->
  parse_kml fs kml_path = Raise NO_WAYPOINTS.
Proof.
  intros Hfs Hns. unfold parse_kml, et_parse. rewrite Hfs. cbn [bind].
  unfold read_title, find_desc_child.
  rewrite (findall_desc_none (kml "Document"))
    by (intros e He; now apply Hns).
  rewrite (findall_desc_none (kml "Placemark"))
    by (intros e He; now apply Hns).
  reflexivity.
Qed.

(** The sample route in the namespace of KML 2.1. *)
Lemma X19_reader_other_namespace_witness :
  List.length (List.filter (fun e => String.eqb (tag e)
                              "{http://earth.google.com/kml/2.1}Point")
                 (iter doc_kml21)) = 1%nat
  /\ parse_kml (one_file "a.kml" (Xml doc_kml21)) "a.kml" = Raise NO_WAYPOINTS.
Proof.
  split; [reflexivity|].
  apply (X19_reader_other_namespace (one_file "a.kml" (Xml doc_kml21)) "a.kml"
           doc_kml21 eq_refl).
  intros e local He. cbn in He.
  repeat (destruct He as [<-|He]; [discriminate|]). destruct He.
Defined.

End ReaderNamespace.

(** ** Strips and paths *)

Section StringsMore.

Lemma rev_acc_app (s acc : string) :
  Str.rev_acc s acc = Str.rev_acc s "" ++ acc.
Proof.
  revert acc. induction s as [|c s IH]; intros acc; cbn [Str.rev_acc].
  - reflexivity.
  - rewrite (IH (String c acc)), (IH (String c "")), app_assoc. reflexivity.
Qed.

Lemma rev_cons (c : ascii) (s : string) :
  Str.rev (String c s) = Str.rev s ++ String c "".
Proof. unfold Str.rev. cbn [Str.rev_acc]. apply rev_acc_app. Qed.

Lemma rev_app (a b : string) : Str.rev (a ++ b) = Str.rev b ++ Str.rev a.
Proof.
  induction a as [|c a IH]; cbn [append].
  - now rewrite app_nil_r.
  - now rewrite !rev_cons, IH, app_assoc.
Qed.

Lemma rev_involutive (s : string) : Str.rev (Str.rev s) = s.
Proof.
  induction s as [|c s IH]; [reflexivity|].
  rewrite rev_cons, rev_app, IH. reflexivity.
Qed.

Lemma forallb_rev (p : ascii -> bool) (s : string) :
  Str.forallb p (Str.rev s) = Str.forallb p s.
Proof.
  induction s as [|c s IH]; [reflexivity|].
  rewrite rev_cons, forallb_app, IH. cbn [Str.forallb].
  now rewrite andb_true_r, andb_comm.
Qed.

Lemma clean_ends_inv (p : ascii -> bool) (s : string) :
  clean_ends p s = true ->
  exists a r b r', s = String a r /\ p a = false
                   /\ Str.rev s = String b r' /\ p b = false.
Proof.
  unfold clean_ends. destruct s as [|a r]; [discriminate|].
  destruct (Str.rev (String a r)) as [|b r']; [discriminate|].
  intros H. apply andb_true_iff in H as [Ha Hb].
  apply negb_true_iff in Ha, Hb. exists a, r, b, r'. repeat split; assumption.
Qed.

(** A strip of the characters [p] takes away a run of them on the left
    and a run of them on the right, and nothing of a text with clean
    ends. *)
Lemma strip_by_clean (p : ascii -> bool) (a m b : string) :
  Str.forallb p a = true -> Str.forallb p b = true -> clean_ends p m = true ->
  Str.strip_by p (a ++ m ++ b) = m.
Proof.
  intros Ha Hb Hm.
  destruct (clean_ends_inv _ _ Hm) as (c0 & r & c1 & r' & Hs & Hc0 & Hrev & Hc1).
  unfold Str.strip_by, Str.rstrip.
  rewrite Hs. cbn [append]. rewrite lstrip_app by assumption.
  change (String c0 (r ++ b)) with (String c0 r ++ b). rewrite <- Hs.
  rewrite rev_app, Hrev.
  rewrite lstrip_app by (rewrite ?forallb_rev; assumption).
  rewrite <- Hrev. apply rev_involutive.
Qed.

Lemma lstrip_head (p : ascii -> bool) (s : string) :
  Str.lstrip p s = "" \/ exists c r, Str.lstrip p s = String c r /\ p c = false.
Proof.
  induction s as [|c s IH]; [now left|].
  cbn [Str.lstrip]. destruct (p c) eqn:Hc; [exact IH|].
  right. exists c, s. split; [reflexivity | exact Hc].
Qed.

(** What a strip returns is empty or has clean ends. *)
Lemma strip_by_ends (p : ascii -> bool) (s : string) :
  Str.strip_by p s = "" \/ clean_ends p (Str.strip_by p s) = true.
Proof.
  unfold Str.strip_by, Str.rstrip.
  set (t := Str.lstrip p s).
  destruct (lstrip_split p (Str.rev t)) as (ws & Hrt & Hws).
  destruct (lstrip_head p (Str.rev t)) as [Hv|(c1 & r1 & Hv & Hc1)].
  - left. now rewrite Hv.
  - right. rewrite Hv in *.
    assert (Ht : t = Str.rev (String c1 r1) ++ Str.rev ws).
    { rewrite <- rev_app, <- Hrt. symmetry. apply rev_involutive. }
    unfold clean_ends.
    destruct (Str.rev (String c1 r1)) as [|c0 r0] eqn:Hu.
    { apply (f_equal Str.rev) in Hu. rewrite rev_involutive in Hu.
      discriminate Hu. }
    assert (Hr : Str.rev (String c0 r0) = String c1 r1)
      by (rewrite <- Hu; apply rev_involutive).
    rewrite Hr, Hc1. cbn [negb andb]. rewrite andb_true_r.
    destruct (lstrip_head p s) as [Hl|(c & r & Hl & Hc)]; fold t in Hl.
    + rewrite Hl in Ht. discriminate Ht.
    + rewrite Hl in Ht. cbn [append] in Ht. injection Ht as <- _.
      now rewrite Hc.
Qed.

Lemma strip_by_idem (p : ascii -> bool) (s : string) :
  Str.strip_by p (Str.strip_by p s) = Str.strip_by p s.
Proof.
  destruct (strip_by_ends p s) as [->|H]; [reflexivity|].
  pose proof (strip_by_clean p "" _ "" eq_refl eq_refl H) as E.
  cbn [append] in E. now rewrite app_nil_r in E.
Qed.

(** *** The last occurrence of a character *)

Lemma rfind_from_spec (c : ascii) (s : string) :
  forall i found,
    (lacks c s = true /\ Str.rfind_from c s i found = found)
    \/ exists a b,
         s = a ++ String c b /\ lacks c b = true
         /\ Str.rfind_from c s i found = i + Z.of_nat (String.length a).
Proof.
  induction s as [|x s IH]; intros i found; [now left|].
  cbn [Str.rfind_from].
  destruct (IH (i + 1) (if Ascii.eqb x c then i else found))
    as [[Hno Hr]|(a & b & Hs & Hb & Hr)].
  - destruct (Ascii.eqb x c) eqn:Hx.
    + right. apply Ascii.eqb_eq in Hx. subst x. exists "", s.
      split; [reflexivity|]. split; [exact Hno|]. rewrite Hr. cbn. lia.
    + left. split; [|exact Hr]. unfold lacks in *. cbn [Str.forallb].
      now rewrite Hx, Hno.
  - right. exists (String x a), b. split; [now rewrite Hs|].
    split; [exact Hb|]. rewrite Hr. cbn [String.length]. lia.
Qed.

Lemma rfind_spec (c : ascii) (s : string) :
  (lacks c s = true /\ Str.rfind c s = -1)
  \/ exists a b,
       s = a ++ String c b /\ lacks c b = true
       /\ Str.rfind c s = Z.of_nat (String.length a).
Proof.
  unfold Str.rfind.
  destruct (rfind_from_spec c s 0 (-1)) as [H|(a & b & H1 & H2 & H3)];
    [now left|].
  right. exists a, b. repeat split; assumption.
Qed.

Lemma substring_drop (a r : string) :
  String.substring (String.length a) (String.length r) (a ++ r) = r.
Proof.
  induction a as [|c a IH]; cbn [String.length append String.substring].
  - apply substring_all.
  - exact IH.
Qed.

Lemma app_inv_head (a x y : string) : a ++ x = a ++ y -> x = y.
Proof.
  induction a as [|c a IH]; cbn [append]; [auto|].
  intros [= H]. now apply IH.
Qed.

Lemma app_eq_split (a a' x y : string) :
  a ++ x = a' ++ y -> (String.length a' <= String.length a)%nat ->
  exists z, a = a' ++ z /\ y = z ++ x.
Proof.
  revert a. induction a' as [|c a' IH]; intros a H Hlen; cbn [append] in *.
  - exists a. split; [reflexivity | now symmetry].
  - destruct a as [|d a]; [cbn in Hlen; lia|].
    cbn [append] in H. injection H as -> H.
    destruct (IH a H ltac:(cbn [String.length] in Hlen; lia)) as (z & -> & ->).
    exists z. split; reflexivity.
Qed.

Lemma lacks_app (c : ascii) (a b : string) :
  lacks c (a ++ b) = lacks c a && lacks c b.
Proof. apply forallb_app. Qed.

(** [os.path.splitext] cuts the path in two: the extension is empty, or
    it is the last dot of the path with what follows, which holds no
    further dot and no slash. *)
Lemma splitext_spec (p : string) :
  exists stem ext,
    Path.splitext p = (stem, ext) /\ p = stem ++ ext
    /\ (ext = "" \/ exists r, ext = String "." r
                              /\ lacks "." r = true /\ lacks "/" r = true).
Proof.
  unfold Path.splitext.
  destruct (_ && _) eqn:Hc.
  2:{ exists p, "". split; [reflexivity|]. split; [now rewrite app_nil_r | now left]. }
  apply andb_true_iff in Hc as [Hlt _]. apply Z.ltb_lt in Hlt.
  destruct (rfind_spec "." p) as [[_ Hd]|(a & b & Hp & Hb & Hd)].
  { destruct (rfind_spec "/" p) as [[_ Hs]|(a' & b' & _ & _ & Hs)]; lia. }
  rewrite Hd in *.
  exists a, (String "." b).
  assert (Hlen : String.length p = (String.length a + S (String.length b))%nat)
    by (rewrite Hp, length_app; reflexivity).
  split.
  - unfold Str.slice. f_equal.
    + rewrite Z.sub_0_r, Nat2Z.id. change (Z.to_nat 0) with 0%nat.
      rewrite Hp. apply substring_prefix.
    + rewrite Nat2Z.id, Hlen.
      replace (Z.to_nat (Z.of_nat (String.length a + S (String.length b))
                         - Z.of_nat (String.length a)))
        with (String.length (String "." b)) by (cbn [String.length]; lia).
      rewrite Hp. apply substring_drop.
  - split; [exact Hp|]. right. exists b. split; [reflexivity|].
    split; [exact Hb|].
    destruct (rfind_spec "/" p) as [[Hno _]|(a' & b' & Hp' & Hb' & Hs)].
    + rewrite Hp, lacks_app in Hno. apply andb_true_iff in Hno as [_ Hno].
      unfold lacks in Hno. cbn [Str.forallb] in Hno.
      now apply andb_true_iff in Hno as [_ Hno].
    + rewrite Hs in Hlt. rewrite Hp in Hp'.
      destruct (app_eq_split a a' (String "." b) (String "/" b') Hp' ltac:(lia))
        as (z & Ha & Hz).
      destruct z as [|c z].
      { rewrite Ha, app_nil_r in Hlt. lia. }
      cbn [append] in Hz. injection Hz as _ Hz.
      rewrite Hz, lacks_app in Hb'. apply andb_true_iff in Hb' as [_ Hb'].
      unfold lacks in Hb'. cbn [Str.forallb] in Hb'.
      now apply andb_true_iff in Hb' as [_ Hb'].
Qed.

(** *** The extension of a path *)

Lemma rfind_from_app (c : ascii) (a b : string) :
  forall i found,
    Str.rfind_from c (a ++ b) i found
    = Str.rfind_from c b (i + Z.of_nat (String.length a))
        (Str.rfind_from c a i found).
Proof.
  induction a as [|x a IH]; intros i found;
    cbn [append Str.rfind_from String.length].
  - now rewrite Z.add_0_r.
  - rewrite IH. f_equal. lia.
Qed.

Lemma rfind_from_lacks (c : ascii) (s : string) :
  lacks c s = true -> forall i found, Str.rfind_from c s i found = found.
Proof.
  induction s as [|x s IH]; intros H i found; [reflexivity|].
  unfold lacks in H. cbn [Str.forallb] in H. apply andb_true_iff in H as [Hx Hs].
  cbn [Str.rfind_from]. apply negb_true_iff in Hx. rewrite Hx. now apply IH.
Qed.

Lemma rfind_app_lacks (c : ascii) (a b : string) :
  lacks c b = true -> Str.rfind c (a ++ b) = Str.rfind c a.
Proof.
  intros H. unfold Str.rfind. rewrite rfind_from_app. now apply rfind_from_lacks.
Qed.

Lemma rfind_last (c : ascii) (a b : string) :
  lacks c b = true -> Str.rfind c (a ++ String c b) = Z.of_nat (String.length a).
Proof.
  intros H. unfold Str.rfind. rewrite rfind_from_app. cbn [Str.rfind_from].
  rewrite Ascii.eqb_refl. rewrite rfind_from_lacks by exact H. lia.
Qed.

Lemma rfind_bound (c : ascii) (s : string) :
  -1 <= Str.rfind c s < Z.of_nat (String.length s).
Proof.
  destruct (rfind_spec c s) as [[_ ->]|(a & b & -> & _ & ->)]; [lia|].
  rewrite length_app. cbn [String.length]. lia.
Qed.

(** A slice that reaches a character outside [q] is not made of [q] only. *)
Lemma substring_hits (q : ascii -> bool) (a : string) (c : ascii) (t : string) :
  q c = false ->
  forall i n, (i <= String.length a < i + n)%nat ->
  Str.forallb q (String.substring i n (a ++ String c t)) = false.
Proof.
  intros Hc. induction a as [|x a IH]; intros i n Hi; cbn [String.length] in Hi.
  - assert (i = 0%nat) by lia. subst i.
    destruct n as [|n]; [lia|]. cbn [append String.substring Str.forallb].
    now rewrite Hc.
  - destruct i as [|i].
    + destruct n as [|n]; [lia|]. cbn [append String.substring Str.forallb].
      rewrite (IH 0%nat n) by lia. apply andb_false_r.
    + cbn [append String.substring]. apply IH. lia.
Qed.

Lemma substring_middle (a b t : string) :
  String.substring (String.length a) (String.length b) (a ++ b ++ t) = b.
Proof.
  induction a as [|x a IH]; cbn [String.length append String.substring].
  - apply substring_prefix.
  - exact IH.
Qed.

Lemma dots_snoc (ds : string) :
  Str.forallb (Ascii.eqb ".") ds = true -> String "." ds = ds ++ String "." "".
Proof.
  induction ds as [|x ds IH]; [reflexivity|].
  cbn [Str.forallb]. intros H. apply andb_true_iff in H as [Hx Hds].
  apply Ascii.eqb_eq in Hx. subst x. cbn [append]. now rewrite <- IH.
Qed.

Lemma dots_lack (c : ascii) (ds : string) :
  c <> "."%char -> Str.forallb (Ascii.eqb ".") ds = true -> lacks c ds = true.
Proof.
  intros Hc. apply forallb_impl. intros x Hx. apply Ascii.eqb_eq in Hx. subst x.
  apply negb_true_iff. apply Ascii.eqb_neq. congruence.
Qed.

(** A last component with a dot after a character that is not a dot: the
    extension starts at its last dot. *)
Lemma splitext_ext (pre : string) (c : ascii) (name r : string) :
  c <> "."%char -> c <> "/"%char -> lacks "/" name = true ->
  lacks "." r = true -> lacks "/" r = true ->
  Path.splitext (pre ++ String c name ++ String "." r)
  = (pre ++ String c name, String "." r).
Proof.
  intros Hdot Hsl Hname Hr Hr'.
  set (p := pre ++ String c name ++ String "." r).
  assert (Hp : p = (pre ++ String c name) ++ String "." r)
    by (unfold p; now rewrite app_assoc).
  assert (Hd : Str.rfind "." p = Z.of_nat (String.length (pre ++ String c name)))
    by (rewrite Hp; now apply rfind_last).
  assert (Hs : Str.rfind "/" p = Str.rfind "/" pre).
  { unfold p. apply rfind_app_lacks.
    change (String c name ++ String "." r) with (String c (name ++ String "." r)).
    unfold lacks. cbn [Str.forallb].
    apply Ascii.eqb_neq in Hsl. rewrite Hsl. cbn [negb andb].
    fold (lacks "/" (name ++ String "." r)). rewrite lacks_app, Hname.
    unfold lacks. cbn [Str.forallb]. exact Hr'. }
  pose proof (rfind_bound "/" pre) as Hk.
  unfold Path.splitext. fold p. rewrite Hd, Hs.
  rewrite length_app in *. cbn [String.length] in *.
  assert (Hlt : (Str.rfind "/" pre
                 <? Z.of_nat (String.length pre + S (String.length name))) = true)
    by (apply Z.ltb_lt; lia).
  rewrite Hlt. cbn [andb].
  assert (Hmid : Str.forallb (Ascii.eqb ".")
                   (Str.slice (Str.rfind "/" pre + 1)
                      (Z.of_nat (String.length pre + S (String.length name))) p)
                 = false).
  { unfold Str.slice, p.
    change (String c name ++ String "." r) with (String c (name ++ String "." r)).
    apply substring_hits; [|lia].
    apply Ascii.eqb_neq. congruence. }
  rewrite Hmid. cbn [negb]. unfold Str.slice.
  assert (Hlen : (String.length pre + S (String.length name))%nat
                 = String.length (pre ++ String c name))
    by (rewrite length_app; reflexivity).
  f_equal.
  - rewrite Z.sub_0_r, Nat2Z.id. change (Z.to_nat 0) with 0%nat.
    rewrite Hlen, Hp. apply substring_prefix.
  - rewrite Nat2Z.id, Hlen.
    replace (Z.to_nat (Z.of_nat (String.length p)
                       - Z.of_nat (String.length (pre ++ String c name))))
      with (String.length (String "." r)).
    + rewrite Hp. apply substring_drop.
    + rewrite Hp, (length_app (pre ++ String c name)). lia.
Qed.

(** A last component without a dot after its leading dots: no extension. *)
Lemma splitext_none (dir dots rest : string) :
  dir = "" \/ (exists d, dir = d ++ "/") ->
  Str.forallb (Ascii.eqb ".") dots = true ->
  lacks "." rest = true -> lacks "/" rest = true ->
  Path.splitext (dir ++ dots ++ rest) = (dir ++ dots ++ rest, "").
Proof.
  intros Hdir Hdots Hrest Hrest'.
  set (p := dir ++ dots ++ rest).
  assert (Hs : Str.rfind "/" p = Z.of_nat (String.length dir) - 1).
  { unfold p. rewrite rfind_app_lacks.
    2:{ rewrite lacks_app, Hrest', andb_true_r. apply dots_lack; [discriminate|exact Hdots]. }
    destruct Hdir as [->|[d ->]]; [reflexivity|].
    rewrite rfind_last by reflexivity. rewrite length_app. cbn [String.length]. lia. }
  unfold Path.splitext. fold p. rewrite Hs.
  destruct dots as [|x ds].
  - assert (Hd : Str.rfind "." p = Str.rfind "." dir).
    { unfold p. cbn [append]. now apply rfind_app_lacks. }
    rewrite Hd. pose proof (rfind_bound "." dir) as Hb.
    destruct (Z.ltb_spec (Z.of_nat (String.length dir) - 1) (Str.rfind "." dir));
      [lia | reflexivity].
  - cbn [Str.forallb] in Hdots. apply andb_true_iff in Hdots as [Hx Hds].
    apply Ascii.eqb_eq in Hx. subst x.
    assert (Hp : p = (dir ++ ds) ++ String "." rest).
    { unfold p. rewrite (dots_snoc ds Hds). now rewrite !app_assoc. }
    assert (Hd : Str.rfind "." p = Z.of_nat (String.length (dir ++ ds)))
      by (rewrite Hp; now apply rfind_last).
    rewrite Hd, length_app.
    assert (Hmid : Str.slice (Z.of_nat (String.length dir) - 1 + 1)
                     (Z.of_nat (String.length dir + String.length ds)) p = ds).
    { unfold Str.slice. rewrite Hp, app_assoc.
      replace (Z.to_nat (Z.of_nat (String.length dir) - 1 + 1))
        with (String.length dir) by lia.
      replace (Z.to_nat (Z.of_nat (String.length dir + String.length ds)
                         - (Z.of_nat (String.length dir) - 1 + 1)))
        with (String.length ds) by lia.
      apply substring_middle. }
    rewrite Hmid, Hds. cbn [negb]. now rewrite andb_false_r.
Qed.

End StringsMore.

(** ** The program: files and outcomes *)

Section ProgramMore.

Lemma main_eq (typed : string) (fs : filesystem) :
  main typed fs
  = if isfile fs (typed_path typed)
    then match parse_kml fs (typed_path typed) with
         | Raise e => (Uncaught e, fs)
         | Ok (title, waypoints) =>
             match build_pln_xml title waypoints with
             | Raise e => (Uncaught e, fs)
             | Ok pln_root =>
                 (Returned ["✅ 已生成: " ++ output_path (typed_path typed)],
                  write_pln fs pln_root (output_path (typed_path typed)))
             end
         end
    else (Returned ["找不到文件: " ++ typed_path typed], fs).
Proof.
  unfold main, typed_path, output_path.
  destruct (isfile fs _); reflexivity.
Qed.

Lemma parse_kml_local (fs fs' : filesystem) (kml_path : string) :
  fs' kml_path = fs kml_path -> parse_kml fs' kml_path = parse_kml fs kml_path.
Proof. intros H. unfold parse_kml, et_parse. now rewrite H. Qed.

Lemma output_path_neq (kml_path : string) : output_path kml_path <> kml_path.
Proof.
  unfold output_path.
  destruct (splitext_spec kml_path) as (stem & ext & Hs & Hp & Hext).
  rewrite Hs. cbn [fst]. intros H. rewrite Hp in H.
  apply app_inv_head in H.
  destruct Hext as [->|(r & -> & _)]; discriminate H.
Qed.

Lemma write_pln_other (fs : filesystem) (root : element) (out p : string) :
  p <> out -> write_pln fs root out p = fs p.
Proof.
  intros H. unfold write_pln.
  destruct (String.eqb_spec p out); [contradiction | reflexivity].
Qed.

Lemma main_frame (typed : string) (fs : filesystem) (p : string) :
  p <> output_path (typed_path typed) -> snd (main typed fs) p = fs p.
Proof.
  intros Hp. rewrite main_eq.
  destruct (isfile fs (typed_path typed)); [|reflexivity].
  destruct (parse_kml fs (typed_path typed)) as [[title wps]|]; [|reflexivity].
  destruct (build_pln_xml title wps); [|reflexivity].
  cbn [snd]. now apply write_pln_other.
Qed.


(** X21: running the program a second time on the same line changes
    nothing more: the second run ends as the first did and leaves every
    file as the first run left it. *)
Theorem X21_main_idempotent (typed : string) (fs : filesystem) :
  fst (main typed (snd (main typed fs))) = fst (main typed fs)
  /\ forall p, snd (main typed (snd (main typed fs))) p = snd (main typed fs) p.
Proof.
  assert (Hin : snd (main typed fs) (typed_path typed) = fs (typed_path typed)).
  { apply main_frame. intros H. symmetry in H. now apply output_path_neq in H. }
  set (fs1 := snd (main typed fs)) in *.
  assert (Hfile : isfile fs1 (typed_path typed) = isfile fs (typed_path typed))
    by (unfold isfile; now rewrite Hin).
  pose proof (parse_kml_local fs fs1 (typed_path typed) Hin) as Hparse.
  rewrite (main_eq typed fs1), Hfile, Hparse.
  unfold fs1. rewrite (main_eq typed fs).
  destruct (isfile fs (typed_path typed)); [|split; reflexivity].
  destruct (parse_kml fs (typed_path typed)) as [[title wps]|]; [|split; reflexivity].
  destruct (build_pln_xml title wps) as [root|]; [|split; reflexivity].
  cbn [fst snd]. split; [reflexivity|].
  intros p. unfold write_pln.
  destruct (String.eqb p (output_path (typed_path typed))); reflexivity.
Qed.

(** X22: the flight plan is written next to the input, under the name of
    the input with [_MSFS2020.pln] in place of its extension.  The path
    read is a stem followed by an extension, which is empty or a dot with
    what follows it up to the end of the path, free of further dots and of
    slashes, and the path written is that stem followed by
    [_MSFS2020.pln].  The extension is not empty when the last dot of the
    path comes, in the last component, after a character that is not a
    dot; it is empty when the last component has no dot after its leading
    dots. *)
Theorem X22_output_next_to_input :
  (forall kml_path,
      exists stem ext,
        kml_path = stem ++ ext
        /\ output_path kml_path = stem ++ "_MSFS2020.pln"
        /\ (ext = "" \/ exists r, ext = String "." r
                                  /\ lacks "." r = true /\ lacks "/" r = true))
  /\ (forall pre c name r,
        c <> "."%char -> c <> "/"%char -> lacks "/" name = true ->
        lacks "." r = true -> lacks "/" r = true ->
        output_path (pre ++ String c name ++ String "." r)
        = pre ++ String c name ++ "_MSFS2020.pln")
  /\ (forall dir dots rest,
        dir = "" \/ (exists d, dir = d ++ "/") ->
        Str.forallb (Ascii.eqb ".") dots = true ->
        lacks "." rest = true -> lacks "/" rest = true ->
        output_path (dir ++ dots ++ rest) = dir ++ dots ++ rest ++ "_MSFS2020.pln").
Proof.
  split; [|split].
  - intros kml_path.
    destruct (splitext_spec kml_path) as (stem & ext & Hs & Hp & Hext).
    exists stem, ext. split; [exact Hp|]. split; [|exact Hext].
    unfold output_path. now rewrite Hs.
  - intros pre c name r H1 H2 H3 H4 H5. unfold output_path.
    rewrite (splitext_ext pre c name r H1 H2 H3 H4 H5). cbn [fst].
    apply app_assoc.
  - intros dir dots rest H1 H2 H3 H4. unfold output_path.
    rewrite (splitext_none dir dots rest H1 H2 H3 H4). cbn [fst].
    now rewrite !app_assoc.
Qed.

(** An input with an extension, one in a directory with a dot in its
    name, a hidden file and a name with two dots. *)
Lemma X22_output_next_to_input_witness :
  output_path "routes/flight.kml" = "routes/flight_MSFS2020.pln"
  /\ output_path "my.routes/flight" = "my.routes/flight_MSFS2020.pln"
  /\ output_path "routes/.hidden" = "routes/.hidden_MSFS2020.pln"
  /\ output_path "flight.2024.kml" = "flight.2024_MSFS2020.pln".
Proof.
  destruct X22_output_next_to_input as (_ & Hext & Hnone).
  split; [|split; [|split]].
  - apply (Hext "routes/" "f"%char "light" "kml"); (discriminate || reflexivity).
  - apply (Hnone "my.routes/" "" "flight"); try reflexivity.
    right. now exists "my.routes".
  - apply (Hnone "routes/" "." "hidden"); try reflexivity.
    right. now exists "routes".
  - apply (Hext "" "f"%char "light.2024" "kml"); (discriminate || reflexivity).
Defined.

End ProgramMore.

Section ProgramInput.

Lemma clean_ends_intro (p : ascii -> bool) (s : string) (a b : ascii) (r r' : string) :
  s = String a r -> p a = false -> Str.rev s = String b r' -> p b = false ->
  clean_ends p s = true.
Proof.
  intros -> Ha Hr Hb. unfold clean_ends. rewrite Hr, Ha, Hb. reflexivity.
Qed.

Lemma head_app (p : ascii -> bool) (a m : string) :
  Str.forallb (fun c => negb (p c)) a = true ->
  (exists c r, m = String c r /\ p c = false) ->
  exists c r, a ++ m = String c r /\ p c = false.
Proof.
  intros Ha (c & r & -> & Hc). destruct a as [|x a].
  - exists c, r. split; [reflexivity | exact Hc].
  - cbn [Str.forallb] in Ha. apply andb_true_iff in Ha as [Hx _].
    apply negb_true_iff in Hx. exists x, (a ++ String c r).
    split; [reflexivity | exact Hx].
Qed.

(** Clean ends are kept when characters outside [p] are put around. *)
Lemma clean_ends_wrap (p : ascii -> bool) (a m b : string) :
  Str.forallb (fun c => negb (p c)) a = true ->
  Str.forallb (fun c => negb (p c)) b = true ->
  clean_ends p m = true -> clean_ends p (a ++ m ++ b) = true.
Proof.
  intros Ha Hb Hm.
  destruct (clean_ends_inv _ _ Hm) as (c0 & r & c1 & r' & Hs & Hc0 & Hrev & Hc1).
  destruct (head_app p a (m ++ b) Ha) as (x & rx & Hx & Hpx).
  { rewrite Hs. cbn [append]. eauto. }
  destruct (head_app p (Str.rev b) (Str.rev m ++ Str.rev a)) as (y & ry & Hy & Hpy).
  { now rewrite forallb_rev. }
  { rewrite Hrev. cbn [append]. eauto. }
  apply (clean_ends_intro p _ x y rx ry); try assumption.
  rewrite !rev_app, app_assoc. exact Hy.
Qed.

Lemma clean_ends_weaken (p q : ascii -> bool) (m : string) :
  (forall c, q c = true -> p c = true) ->
  clean_ends p m = true -> clean_ends q m = true.
Proof.
  intros Hqp Hm.
  destruct (clean_ends_inv _ _ Hm) as (c0 & r & c1 & r' & Hs & Hc0 & Hrev & Hc1).
  apply (clean_ends_intro q _ c0 c1 r r'); try assumption.
  - destruct (q c0) eqn:E; [|reflexivity]. apply Hqp in E. congruence.
  - destruct (q c1) eqn:E; [|reflexivity]. apply Hqp in E. congruence.
Qed.

Lemma run_outside (c : ascii) (p : ascii -> bool) (s : string) :
  p c = false -> Str.forallb (Ascii.eqb c) s = true ->
  Str.forallb (fun x => negb (p x)) s = true.
Proof.
  intros Hc. apply forallb_impl. intros x Hx.
  apply Ascii.eqb_eq in Hx. subst x. now rewrite Hc.
Qed.

(** The path that the program reads from a line in which the path stands
    between single quotes, double quotes and blanks. *)
Lemma typed_path_quoted (ws1 dq1 sq1 path sq2 dq2 ws2 : string) :
  Str.forallb Str.is_space ws1 = true -> Str.forallb Str.is_space ws2 = true ->
  Str.forallb (Ascii.eqb "034") dq1 = true ->
  Str.forallb (Ascii.eqb "034") dq2 = true ->
  Str.forallb (Ascii.eqb "'") sq1 = true ->
  Str.forallb (Ascii.eqb "'") sq2 = true ->
  clean_ends strippable path = true ->
  typed_path (ws1 ++ (dq1 ++ (sq1 ++ path ++ sq2) ++ dq2) ++ ws2) = path.
Proof.
  intros Hw1 Hw2 Hd1 Hd2 Hs1 Hs2 Hp.
  assert (Hsp : clean_ends Str.is_space path = true).
  { apply (clean_ends_weaken strippable); [|exact Hp].
    intros c Hc. unfold strippable. now rewrite Hc. }
  assert (Hdq : clean_ends (Ascii.eqb "034") path = true).
  { apply (clean_ends_weaken strippable); [|exact Hp].
    intros c Hc. unfold strippable. rewrite Hc. now rewrite orb_true_r. }
  assert (Hsq : clean_ends (Ascii.eqb "'") path = true).
  { apply (clean_ends_weaken strippable); [|exact Hp].
    intros c Hc. unfold strippable. rewrite Hc. now rewrite !orb_true_r. }
  unfold typed_path, Str.strip, Str.strip_char.
  rewrite strip_by_clean; try assumption.
  2:{ apply clean_ends_wrap; try (apply (run_outside "034"); [reflexivity | assumption]).
      apply clean_ends_wrap; try (apply (run_outside "'"); [reflexivity | assumption]).
      exact Hsp. }
  rewrite strip_by_clean; try assumption.
  2:{ apply clean_ends_wrap; try (apply (run_outside "'"); [reflexivity | assumption]).
      exact Hdq. }
  now apply strip_by_clean.
Qed.

(** X23: blanks around the line typed, double quotes inside them and single
    quotes inside those are all dropped: a path whose first and last
    character are ASCII characters other than a blank or a quote is read
    as it stands, and the run is the run on the bare path. *)
Theorem X23_main_quotes (ws1 dq1 sq1 path sq2 dq2 ws2 : string) (fs : filesystem) :
  Str.forallb Str.is_space ws1 = true -> Str.forallb Str.is_space ws2 = true ->
  Str.forallb (Ascii.eqb "034") dq1 = true ->
  Str.forallb (Ascii.eqb "034") dq2 = true ->
  Str.forallb (Ascii.eqb "'") sq1 = true ->
  Str.forallb (Ascii.eqb "'") sq2 = true ->
  clean_ends strippable path = true ->
  typed_path (ws1 ++ (dq1 ++ (sq1 ++ path ++ sq2) ++ dq2) ++ ws2) = path
  /\ typed_path path = path
  /\ main (ws1 ++ (dq1 ++ (sq1 ++ path ++ sq2) ++ dq2) ++ ws2) fs = main path fs.
Proof.
  intros Hw1 Hw2 Hd1 Hd2 Hs1 Hs2 Hp.
  pose proof (typed_path_quoted ws1 dq1 sq1 path sq2 dq2 ws2
                Hw1 Hw2 Hd1 Hd2 Hs1 Hs2 Hp) as H1.
  pose proof (typed_path_quoted "" "" "" path "" "" ""
                eq_refl eq_refl eq_refl eq_refl eq_refl eq_refl Hp) as H2.
  cbn [append] in H2. rewrite !app_nil_r in H2.
  split; [exact H1|]. split; [exact H2|].
  now rewrite !main_eq, H1, H2.
Qed.

(** A path with a space in it, typed between single quotes, double
    quotes and blanks. *)
Lemma X23_main_quotes_witness :
  typed_path (" " ++ DQUOTE ++ "'my routes/flight plan.kml'" ++ DQUOTE ++ "  ")
  = "my routes/flight plan.kml".
Proof.
  exact (proj1 (X23_main_quotes " " DQUOTE "'" "my routes/flight plan.kml" "'" DQUOTE "  "
                  (fun _ => None) eq_refl eq_refl eq_refl eq_refl eq_refl eq_refl
                  eq_refl)).
Defined.

Lemma parse_kml_nonempty (fs : filesystem) (kml_path title : string)
  (wps : list waypoint) :
  parse_kml fs kml_path = Ok (title, wps) -> wps <> [].
Proof.
  unfold parse_kml.
  destruct (et_parse fs kml_path) as [root|]; [|discriminate]. cbn [bind].
  destruct (read_title kml_path root); [|discriminate]. cbn [bind].
  destruct (read_placemarks _ _) as [[|w ws]|]; cbn [bind]; try discriminate.
  intros [= _ <-]. discriminate.
Qed.

(** X24: the two ends of a run.  When there is no file at the path read
    from a line typed in ASCII, the run prints a message and returns, and
    nothing is read or written.  When the reader returns, it hands the
    builder at least one waypoint: the builder cannot raise the
    [IndexError] of an empty list, and whatever it raises is the
    [ValueError] of a NaN or an [OverflowError]. *)
Theorem X24_main_outcomes :
  (forall typed fs,
      Str.isascii typed = true -> fs (typed_path typed) = None ->
      main typed fs = (Returned ["找不到文件: " ++ typed_path typed], fs))
  /\ (forall fs kml_path title wps,
        parse_kml fs kml_path = Ok (title, wps) ->
        wps <> []
        /\ build_pln_xml title wps <> Raise IndexError
        /\ (forall e, build_pln_xml title wps = Raise e -> arithmetic_error e)).
Proof.
  split.
  - intros typed fs _ H. rewrite main_eq. unfold isfile. now rewrite H.
  - intros fs kml_path title wps Hp.
    pose proof (parse_kml_nonempty _ _ _ _ Hp) as Hne.
    split; [exact Hne|].
    destruct wps as [|w rest]; [now contradiction Hne|].
    assert (Har : forall e, build_pln_xml title (w :: rest) = Raise e ->
                            arithmetic_error e)
      by (intros e; apply build_raises).
    split; [|exact Har].
    intros Hb. apply Har in Hb. destruct Hb as [Hb|Hb]; discriminate Hb.
Qed.

(** A line that names no file, and the sample route with its last point
    raised to 1e308 m: the builder raises an [OverflowError]. *)
Lemma X24_main_outcomes_witness :
  main " 'nowhere.kml' " (one_file "a.kml" (Xml doc_far))
  = (Returned ["找不到文件: nowhere.kml"], one_file "a.kml" (Xml doc_far))
  /\ exists title wps,
       parse_kml (one_file "a.kml" (Xml doc_far)) "a.kml" = Ok (title, wps)
       /\ build_pln_xml title wps = Raise OverflowError.
Proof.
  destruct X24_main_outcomes as [Hnone Hrun].
  split; [exact (Hnone " 'nowhere.kml' " _ eq_refl eq_refl)|].
  destruct (parse_kml (one_file "a.kml" (Xml doc_far)) "a.kml")
    as [[title wps]|] eqn:E; [|vm_compute in E; discriminate E].
  exists title, wps. split; [reflexivity|].
  destruct (Hrun _ _ _ _ E) as (_ & _ & Har).
  destruct (build_pln_xml title wps) as [plan|e] eqn:Hb.
  - exfalso. vm_compute in E. injection E as <- <-.
    vm_compute in Hb. discriminate Hb.
  - destruct (Har e eq_refl) as [->| ->]; [exfalso|reflexivity].
    vm_compute in E. injection E as <- <-. vm_compute in Hb. discriminate Hb.
Defined.

End ProgramInput.

(** ** Binary64: every rounding gives a well-formed value *)

Section Binary64Valid.

Abbreviation prec := Py.prec.
Abbreviation emax := Py.emax.
Abbreviation fexp := (SpecFloat.fexp Py.prec Py.emax).
Abbreviation digits := Zdigits2.

Lemma fexp_mono (a b : Z) : a <= b -> fexp a <= fexp b.
Proof. intros H. rewrite !fexp_eq. lia. Qed.

Lemma fexp_succ (a : Z) : fexp (a + 1) <= fexp a + 1.
Proof. rewrite !fexp_eq. lia. Qed.

Lemma digits_nonneg (z : Z) : 0 <= z -> 0 <= digits z.
Proof.
  intros H. destruct z as [|p|p]; [cbn; lia | | lia].
  pose proof (digits_pos p). lia.
Qed.

(** One right shift halves the mantissa. *)
Lemma shr_1_m (mrs : shr_record) :
  0 <= shr_m mrs -> shr_m (shr_1 mrs) = shr_m mrs / 2.
Proof.
  destruct mrs as [m r s]. cbn [shr_m]. intros Hm.
  destruct m as [|[p|p|]|]; cbn [shr_1 shr_m]; try reflexivity; try lia.
  - rewrite Pos2Z.inj_xI. apply (Z.div_unique_pos _ 2 _ 1); lia.
  - rewrite Pos2Z.inj_xO. apply (Z.div_unique_pos _ 2 _ 0); lia.
Qed.

Lemma shr_iter_m (n : nat) (mrs : shr_record) :
  0 <= shr_m mrs ->
  shr_m (Nat.iter n shr_1 mrs) = shr_m mrs / 2 ^ Z.of_nat n.
Proof.
  intros Hm. induction n as [|n IH].
  - cbn. now rewrite Z.div_1_r.
  - change (Nat.iter (S n) shr_1 mrs) with (shr_1 (Nat.iter n shr_1 mrs)).
    rewrite shr_1_m.
    + rewrite IH, Nat2Z.inj_succ, Z.pow_succ_r by lia.
      rewrite Z.div_div by (try apply Z.pow_pos_nonneg; lia).
      f_equal. lia.
    + rewrite IH. apply Z.div_pos; [exact Hm | apply Z.pow_pos_nonneg; lia].
Qed.

(** One call of [shr_fexp], whatever the location: the exponent reached
    and the mantissa left. *)
Lemma shr_fexp_value (m e : Z) (l : location) :
  0 <= m ->
  let n := Z.max 0 (fexp (digits m + e) - e) in
  exists mrs,
    shr_fexp prec emax m e l = (mrs, e + n) /\ shr_m mrs = m / 2 ^ n.
Proof.
  intros Hm. cbv zeta. unfold shr_fexp, shr.
  assert (Hrec : shr_m (shr_record_of_loc m l) = m)
    by (destruct l as [|[| |]]; reflexivity).
  destruct (fexp (digits m + e) - e) as [|n|n] eqn:E.
  - eexists. split; [rewrite Z.add_0_r; reflexivity|].
    now rewrite Hrec, Z.div_1_r.
  - eexists. split; [reflexivity|].
    rewrite iter_pos_nat, shr_iter_m by (rewrite Hrec; exact Hm).
    rewrite Hrec. f_equal. f_equal. lia.
  - eexists. split; [rewrite Z.add_0_r; reflexivity|].
    now rewrite Hrec, Z.div_1_r.
Qed.

Lemma digits_div (p : positive) (n : Z) :
  0 <= n < digits (Zpos p) ->
  digits (Zpos p / 2 ^ n) = digits (Zpos p) - n.
Proof.
  intros Hn. pose proof (digits_bounds p) as [Hl Hu].
  set (d := digits (Zpos p)) in *.
  assert (HP : 0 < 2 ^ n) by (apply Z.pow_pos_nonneg; lia).
  apply digits_unique; [|lia]. split.
  - apply Z.div_le_lower_bound; [lia|].
    rewrite <- Z.pow_add_r by lia. replace (n + (d - n - 1)) with (d - 1) by lia.
    exact Hl.
  - apply Z.div_lt_upper_bound; [lia|].
    rewrite <- Z.pow_add_r by lia. replace (n + (d - n)) with d by lia.
    exact Hu.
Qed.

Lemma round_nearest_even_cases (m : Z) (l : location) :
  round_nearest_even m l = m \/ round_nearest_even m l = m + 1.
Proof.
  destruct l as [|[| |]]; cbn [round_nearest_even]; auto.
  destruct (Z.even m); auto.
Qed.

(** The digits of a successor: the same, or one more at a power of two. *)
Lemma digits_succ (m : Z) :
  0 <= m ->
  digits (m + 1) = digits m
  \/ (digits (m + 1) = digits m + 1 /\ m + 1 = 2 ^ digits m).
Proof.
  intros Hm. destruct m as [|p|p]; [right; split; reflexivity | | lia].
  pose proof (digits_bounds p) as [Hl Hu]. pose proof (digits_pos p) as Hd.
  set (d := digits (Zpos p)) in *.
  destruct (Z.eq_dec (Zpos p + 1) (2 ^ d)) as [Heq|Hne].
  - right. split; [|exact Heq].
    apply digits_unique; [|lia]. replace (d + 1 - 1) with d by lia.
    rewrite Z.pow_add_r, Z.pow_1_r by lia. lia.
  - left. apply digits_unique; [|lia]. lia.
Qed.

(** The last step of a rounding: from a mantissa at the exponent that
    the format prescribes for it, or one more, to a well-formed value. *)
Lemma finish_valid (s : bool) (m1 m2 e1 : Z) :
  0 <= m1 -> fexp (digits m1 + e1) = e1 ->
  m2 = m1 \/ m2 = m1 + 1 ->
  Py.is_binary64
    (let '(mrs, e2) := shr_fexp prec emax m2 e1 loc_Exact in
     match shr_m mrs with
     | Z0 => S754_zero s
     | Zpos m => if e2 <=? emax - prec then S754_finite s m e2 else S754_infinity s
     | Zneg _ => S754_nan
     end) = true.
Proof.
  intros Hm1 Hcan Hm2.
  assert (Hm2' : 0 <= m2) by lia.
  assert (Hfin : forall m e, 0 <= m -> fexp (digits m + e) = e ->
            Py.is_binary64
              match m with
              | Z0 => S754_zero s
              | Zpos m' => if e <=? emax - prec then S754_finite s m' e
                           else S754_infinity s
              | Zneg _ => S754_nan
              end = true).
  { intros m e Hm Hc. destruct m as [|p|p]; [reflexivity| |lia].
    destruct (Z.leb_spec e (emax - prec)); [|reflexivity].
    apply valid_finite; [|assumption]. now apply canonical_intro. }
  destruct Hm2 as [->|Hsucc].
  - rewrite shr_fexp_noshift by lia. cbn [shr_m]. now apply Hfin.
  - destruct (digits_succ m1 Hm1) as [Hsame|[Hmore Hpow]]; rewrite <- Hsucc in *.
    + rewrite shr_fexp_noshift by (rewrite Hsame; lia). cbn [shr_m].
      apply Hfin; [lia | now rewrite Hsame].
    + pose proof (fexp_succ (digits m1 + e1)) as Hs.
      pose proof (fexp_mono (digits m1 + e1) (digits m1 + e1 + 1) ltac:(lia)) as Hm.
      replace (digits m1 + e1 + 1) with (digits m2 + e1) in Hs, Hm by lia.
      destruct (Z.eq_dec (fexp (digits m2 + e1)) e1) as [Heq|Hne].
      * rewrite shr_fexp_noshift by lia. cbn [shr_m]. now apply Hfin.
      * assert (Hone : fexp (digits m2 + e1) = e1 + 1) by lia.
        destruct (shr_fexp_value m2 e1 loc_Exact Hm2') as (mrs & Heq & Hv).
        cbv zeta in Heq, Hv. rewrite Heq.
        replace (Z.max 0 (fexp (digits m2 + e1) - e1)) with 1 in Hv |- * by lia.
        rewrite Hv. change (2 ^ 1) with 2.
        (* [m1] is not zero: at zero the exponent is the least one *)
        assert (Hd1 : 1 <= digits m1).
        { destruct m1 as [|p|p]; [|apply digits_pos|lia].
          exfalso. cbn in Hmore, Hcan. rewrite fexp_eq in Hcan, Hone.
          rewrite Hmore in Hone. lia. }
        assert (Hhalf : m2 / 2 = 2 ^ (digits m1 - 1)).
        { rewrite Hpow. replace (digits m1) with (digits m1 - 1 + 1) at 1 by lia.
          rewrite Z.pow_add_r, Z.pow_1_r by lia. apply Z.div_mul. lia. }
        rewrite Hhalf. apply Hfin.
        -- apply Z.pow_nonneg. lia.
        -- rewrite (digits_unique (2 ^ (digits m1 - 1)) (digits m1)); [| |lia].
           ++ rewrite <- Hone. f_equal. lia.
           ++ split; [lia|]. apply Z.pow_lt_mono_r; lia.
Qed.

(** Rounding gives a well-formed value, whatever the location of the
    exact value between the mantissa and its successor. *)
Lemma binary_round_aux_valid (s : bool) (m e : Z) (l : location) :
  0 <= m -> e <= fexp (digits m + e) ->
  Py.is_binary64 (binary_round_aux prec emax s m e l) = true.
Proof.
  intros Hm He. unfold binary_round_aux.
  destruct (shr_fexp_value m e l Hm) as (mrs & Heq & Hv). cbv zeta in Heq, Hv.
  rewrite Heq.
  set (n := Z.max 0 (fexp (digits m + e) - e)) in *.
  assert (Hn : n = fexp (digits m + e) - e) by (unfold n; lia).
  assert (HP : 0 < 2 ^ n) by (apply Z.pow_pos_nonneg; lia).
  apply (finish_valid s (shr_m mrs)).
  - rewrite Hv. apply Z.div_pos; lia.
  - rewrite Hv. destruct m as [|p|p]; [| |lia].
    + (* zero: the exponent is the least one *)
      rewrite Z.div_0_l by lia. cbn [Zdigits2] in *.
      rewrite !fexp_eq in *. lia.
    + destruct (Z.lt_ge_cases n (digits (Zpos p))) as [Hlt|Hge].
      * rewrite digits_div by lia.
        replace (digits (Zpos p) - n + (e + n)) with (digits (Zpos p) + e) by lia.
        lia.
      * (* everything is shifted out *)
        pose proof (digits_bounds p) as [_ Hu].
        assert (2 ^ digits (Zpos p) <= 2 ^ n) by (apply Z.pow_le_mono_r; lia).
        rewrite Z.div_small by lia. cbn [Zdigits2].
        rewrite !fexp_eq in *. lia.
  - apply round_nearest_even_cases.
Qed.

Lemma binary_round_valid (s : bool) (m : positive) (e : Z) :
  Py.is_binary64 (binary_round prec emax s m e) = true.
Proof.
  unfold binary_round.
  change (Zpos (digits2_pos m)) with (digits (Zpos m)).
  destruct (shl_align_spec m e (fexp (digits (Zpos m) + e))) as [Hez Hmz].
  destruct (shl_align m e (fexp (digits (Zpos m) + e))) as [mz ez].
  cbn [fst snd] in Hez, Hmz.
  apply binary_round_aux_valid; [lia|].
  rewrite Hmz, digits_shift by lia.
  replace (digits (Zpos m) + (e - Z.min e (fexp (digits (Zpos m) + e))) + ez)
    with (digits (Zpos m) + e) by lia.
  lia.
Qed.

Lemma binary_normalize_valid (m e : Z) (szero : bool) :
  Py.is_binary64 (binary_normalize prec emax m e szero) = true.
Proof.
  destruct m as [|p|p]; cbn [binary_normalize];
    [reflexivity | apply binary_round_valid | apply binary_round_valid].
Qed.

End Binary64Valid.

Section DivisionValid.

Abbreviation prec := Py.prec.
Abbreviation emax := Py.emax.
Abbreviation fexp := (SpecFloat.fexp Py.prec Py.emax).
Abbreviation digits := Zdigits2.

(** The quotient that the division hands to the rounding: not negative,
    and at an exponent that is not above the one that the format
    prescribes for it. *)
Lemma div_core_spec (m1 m2 : positive) (e1 e2 : Z) :
  exists q e' l,
    SFdiv_core_binary prec emax (Zpos m1) e1 (Zpos m2) e2 = (q, e', l)
    /\ 0 <= q /\ e' <= fexp (digits q + e').
Proof.
  unfold SFdiv_core_binary.
  pose proof (digits_bounds m1) as [Hl1 Hu1]. pose proof (digits_pos m1) as Hd1.
  pose proof (digits_bounds m2) as [Hl2 Hu2]. pose proof (digits_pos m2) as Hd2.
  set (d1 := digits (Zpos m1)) in *. set (d2 := digits (Zpos m2)) in *.
  set (D := d1 + e1 - (d2 + e2)).
  set (e' := Z.min (fexp D) (e1 - e2)) in *.
  set (s := e1 - e2 - e').
  assert (Hs : 0 <= s) by (unfold s, e'; lia).
  assert (HP : 0 < 2 ^ s) by (apply Z.pow_pos_nonneg; lia).
  set (m' := match s with
             | 0 => Zpos m1
             | Zpos _ => Z.shiftl (Zpos m1) s
             | Zneg _ => 0
             end).
  assert (Hm' : m' = Zpos m1 * 2 ^ s).
  { unfold m'. destruct s as [|ps|ps] eqn:Es; [lia | | lia].
    apply shiftl_pow2. lia. }
  pose proof (Z.div_eucl_eq m' (Zpos m2) ltac:(lia)) as Hdiv.
  pose proof (Z.mod_pos_bound m' (Zpos m2) ltac:(lia)) as Hmod.
  unfold Z.modulo in Hmod.
  destruct (Z.div_eucl m' (Zpos m2)) as [q r] eqn:Hqr.
  exists q, e', (new_location (Zpos m2) r). split; [reflexivity|].
  assert (Hq0 : 0 <= q) by nia.
  split; [exact Hq0|].
  assert (He' : e' <= fexp D) by (unfold e'; lia).
  assert (HD : D = d1 + s - d2 + e') by (unfold D, s; lia).
  destruct (Z.eq_dec q 0) as [Hz|Hnz].
  - (* the quotient is zero: the exponent is the least one *)
    subst q. cbn [Zdigits2].
    assert (Hlt : m' < Zpos m2) by lia.
    assert (Hpow : 2 ^ (d1 - 1 + s) < 2 ^ d2).
    { rewrite Z.pow_add_r by lia. nia. }
    apply Z.pow_lt_mono_r_iff in Hpow; [|lia|lia].
    rewrite fexp_eq in *. lia.
  - assert (Hqpos : 0 < q) by lia.
    assert (Hdq : d1 + s - d2 <= digits q).
    { destruct (Z.le_gt_cases (d1 + s - d2) 0) as [Hk|Hk].
      - destruct q as [|pq|pq]; try lia. pose proof (digits_pos pq). lia.
      - apply digits_ge; [|lia].
        assert (Hk2 : 2 ^ (d1 + s - d2 - 1) * 2 ^ d2 = 2 ^ (d1 - 1) * 2 ^ s).
        { rewrite <- !Z.pow_add_r by lia. f_equal. lia. }
        assert (Hpk : 0 < 2 ^ (d1 + s - d2 - 1)) by (apply Z.pow_pos_nonneg; lia).
        (* [2^(k-1) * m2 < m'], hence [2^(k-1) <= q] *)
        assert (Hlt : 2 ^ (d1 + s - d2 - 1) * Zpos m2 < Zpos m2 * (q + 1)) by nia.
        nia. }
    pose proof (fexp_mono D (digits q + e') ltac:(lia)). lia.
Qed.

Lemma SFdiv_valid (x y : spec_float) :
  Py.is_binary64 (SFdiv prec emax x y) = true.
Proof.
  destruct x as [sx|sx| |sx mx ex], y as [sy|sy| |sy my ey]; try reflexivity.
  cbn [SFdiv].
  destruct (div_core_spec mx my ex ey) as (q & e' & l & Heq & Hq & He).
  rewrite Heq. now apply binary_round_aux_valid.
Qed.

(** [float(s)] returns a well-formed binary64 value. *)
Lemma float_of_string_valid (s : string) (f : Py.float) :
  Fmt.float_of_string s = Ok f -> Py.is_binary64 f = true.
Proof.
  unfold Fmt.float_of_string.
  destruct (Fmt.scan_sign (Str.strip_by Fmt.is_float_space s)) as [neg body].
  destruct (_ || _); [intros [= <-]; reflexivity|].
  destruct (String.eqb _ _); [intros [= <-]; reflexivity|].
  destruct (Fmt.scan_number body) as [[n k]|]; [|discriminate].
  intros [= <-]. unfold Fmt.round_decimal.
  destruct n as [|p|p]; try reflexivity.
  destruct (0 <=? k); [apply binary_normalize_valid | apply SFdiv_valid].
Qed.

End DivisionValid.

(** ** The whole conversion *)

Section EndToEnd.

Lemma read_placemark_valid (pm : element) (w : waypoint) :
  read_placemark pm = Ok (Some w) ->
  Py.is_binary64 (wp_lat w) = true /\ Py.is_binary64 (wp_lon w) = true
  /\ Py.is_binary64 (wp_alt w) = true.
Proof.
  intros H. apply read_placemark_some in H.
  destruct H as (_ & _ & a & b & c & rest & _ & Ha & Hb & Hc).
  repeat split; eapply float_of_string_valid; eassumption.
Qed.

Lemma read_placemark_finite (pm : element) (w : waypoint) :
  read_placemark pm = Ok (Some w) -> placemark_finite pm = finite_position w.
Proof.
  intros H. apply read_placemark_some in H.
  destruct H as (_ & _ & a & b & c & rest & Hf & Ha & Hb & Hc).
  unfold placemark_finite, finite_position. rewrite Hf, Ha, Hb, Hc.
  now rewrite (andb_comm (Py.is_finite (wp_lon w))).
Qed.

Lemma parse_kml_root (fs : filesystem) (kml_path title : string)
  (wps : list waypoint) :
  parse_kml fs kml_path = Ok (title, wps) ->
  exists root, fs kml_path = Some (Xml root).
Proof.
  unfold parse_kml, et_parse.
  destruct (fs kml_path) as [[|root]|]; try discriminate. eauto.
Qed.

(** X25: every latitude, longitude and altitude that the reader stores is
    a well-formed binary64 value: what the properties of the DMS formatter
    ask of their argument holds of every waypoint read. *)
Theorem X25_reader_binary64 (fs : filesystem) (kml_path title : string)
  (wps : list waypoint) :
  parse_kml fs kml_path = Ok (title, wps) ->
  List.Forall (fun w => Py.is_binary64 (wp_lat w) = true
                        /\ Py.is_binary64 (wp_lon w) = true
                        /\ Py.is_binary64 (wp_alt w) = true) wps.
Proof.
  intros H. destruct (parse_kml_root _ _ _ _ H) as [root Hfs].
  destruct (parse_kml_inv _ _ _ _ _ Hfs H) as (_ & _ & Hall).
  clear H. induction Hall as [|pm w pms ws Hpm _ IH]; constructor; [|exact IH].
  now apply read_placemark_valid in Hpm.
Qed.

(** The waypoints of the sample route. *)
Lemma X25_reader_binary64_witness :
  exists wps,
    parse_kml (one_file "a.kml" (Xml doc_route)) "a.kml" = Ok ("KLAX to KJFK", wps)
    /\ List.Forall (fun w => Py.is_binary64 (wp_lat w) = true
                             /\ Py.is_binary64 (wp_lon w) = true
                             /\ Py.is_binary64 (wp_alt w) = true) wps.
Proof.
  destruct (parse_kml (one_file "a.kml" (Xml doc_route)) "a.kml")
    as [[t wps]|] eqn:E; [|vm_compute in E; discriminate E].
  assert (Ht : t = "KLAX to KJFK") by (vm_compute in E; congruence).
  subst t. exists wps. split; [reflexivity|].
  exact (X25_reader_binary64 _ _ _ _ E).
Defined.

Lemma forall2_finite (pms : list element) (wps : list waypoint) :
  List.Forall2 (fun pm w => read_placemark pm = Ok (Some w)) pms wps ->
  List.forallb placemark_finite pms = true
  <-> List.Forall (fun w => finite_position w = true) wps.
Proof.
  induction 1 as [|pm w pms ws Hpm _ IH]; [split; [constructor | reflexivity]|].
  cbn [List.forallb]. rewrite (read_placemark_finite _ _ Hpm). split.
  - intros H. apply andb_true_iff in H as [Hw Hrest].
    constructor; [exact Hw | now apply IH].
  - intros H. inversion H as [|? ? Hw Hrest]; subst.
    rewrite Hw. now apply IH.
Qed.

Lemma forall2_convertible (pms : list element) (wps : list waypoint) :
  List.Forall2 (fun pm w => read_placemark pm = Ok (Some w)) pms wps ->
  List.Forall (fun w => finite_position w = true) wps ->
  List.Forall (fun w => convertible w = true) wps.
Proof.
  induction 1 as [|pm w pms ws Hpm _ IH]; intros Hf; constructor;
    inversion Hf as [|? ? Hw Hrest]; subst.
  - destruct (read_placemark_valid _ _ Hpm) as (Hlat & Hlon & _).
    now apply convertible_finite.
  - now apply IH.
Qed.

Lemma forall2_length {A B : Type} (R : A -> B -> Prop) (l : list A) (l' : list B) :
  List.Forall2 R l l' -> List.length l = List.length l'.
Proof. induction 1; cbn [List.length]; congruence. Qed.

Lemma nodes_ids (wpts : list waypoint) :
  forall idx n nodes,
    atc_waypoints idx n wpts = Ok nodes ->
    List.map (fun node => get_attr "id" (attrib node)) nodes
    = List.map (fun w => Some (wp_name w)) wpts.
Proof.
  induction wpts as [|w rest IH]; intros idx n nodes H; cbn [atc_waypoints] in H.
  - injection H as <-. reflexivity.
  - destruct (atc_waypoint idx n w) as [e|] eqn:He; [|discriminate H].
    cbn [bind] in H.
    destruct (atc_waypoints (idx + 1) n rest) as [es|] eqn:Hes; [|discriminate H].
    cbn [bind] in H. injection H as <-.
    destruct (atc_waypoint_shape _ _ _ _ He) as [pos ->].
    cbn [List.map]. rewrite (IH _ _ _ Hes). reflexivity.
Qed.

(** X26: the whole conversion, the reader followed by the builder as
    [main] chains them.  On a well-formed document whose coordinates are
    written in ASCII the two yield a flight plan exactly when the title
    can be read, there is at least one placemark with a point, every such
    placemark has a name with text and coordinates of at least three
    numbers, and these numbers are finite, the altitude also once in
    feet.  The plan has one waypoint node for each placemark with a
    point, in document order, and when the names of the placemarks are in
    ASCII each node is identified by the stripped name of its
    placemark. *)
Theorem X26_conversion_succeeds_iff (fs : filesystem) (kml_path : string)
  (root : element) :
  fs kml_path = Some (Xml root) ->
  List.forallb ascii_coordinates (qualifying root) = true ->
  ((exists title wps plan,
       parse_kml fs kml_path = Ok (title, wps)
       /\ build_pln_xml title wps = Ok plan)
   <-> title_ok root = true
       /\ qualifying root <> []
       /\ List.forallb placemark_ok (qualifying root) = true
       /\ List.forallb placemark_finite (qualifying root) = true)
  /\ (forall title wps plan,
        parse_kml fs kml_path = Ok (title, wps) ->
        build_pln_xml title wps = Ok plan ->
        List.length (waypoint_nodes plan) = List.length (qualifying root)
        /\ (List.forallb ascii_name (qualifying root) = true ->
            List.map (fun node => get_attr "id" (attrib node))
              (waypoint_nodes plan)
            = List.map name_of (qualifying root))).
Proof.
  intros Hfs _. split.
  - split.
    + intros (title & wps & plan & Hp & Hb).
      destruct (parse_kml_inv _ _ _ _ _ Hfs Hp) as (Ht & Hne & Hall).
      split; [rewrite <- (read_title_ok kml_path), Ht; reflexivity|].
      split; [intros Hq; rewrite Hq in Hall; inversion Hall; now subst|].
      split; [exact (forall2_ok _ _ Hall)|].
      destruct (built_nodes _ _ _ Hb)
        as (dep & dest & w0 & wN & l0 & lN & nodes & _ & _ & _ & _ & _ & Hn & _).
      apply (forall2_finite _ _ Hall). now apply atc_waypoints_finite in Hn.
    + intros (Htok & Hq & Hok & Hfin).
      rewrite <- (read_title_ok kml_path) in Htok.
      destruct (read_title kml_path root) as [title|] eqn:Et; [|discriminate Htok].
      destruct (read_placemarks_ok root Hok) as (wps & Hr & Hall).
      assert (Hp : parse_kml fs kml_path = Ok (title, wps)).
      { rewrite (parse_kml_eq _ _ _ Hfs), Et. cbn [bind]. rewrite Hr. cbn [bind].
        destruct wps as [|w ws]; [|reflexivity].
        inversion Hall as [Hnil|]. now rewrite <- Hnil in Hq. }
      apply (forall2_finite _ _ Hall) in Hfin.
      pose proof (forall2_convertible _ _ Hall Hfin) as Hconv.
      pose proof (parse_kml_nonempty _ _ _ _ Hp) as Hne.
      destruct wps as [|w rest]; [now contradiction Hne|].
      destruct (build_total title w rest Hconv) as [plan Hplan].
      exists title, (w :: rest), plan. split; assumption.
  - intros title wps plan Hp Hb.
    destruct (parse_kml_inv _ _ _ _ _ Hfs Hp) as (_ & _ & Hall).
    destruct (built_nodes _ _ _ Hb)
      as (dep & dest & w0 & wN & l0 & lN & nodes & _ & _ & _ & _ & _ & Hn & _
          & Hwn & Hlen).
    rewrite Hwn, Hlen. split.
    + symmetry. exact (forall2_length _ _ _ Hall).
    + intros _. rewrite (nodes_ids _ _ _ _ Hn). symmetry.
      exact (proj2 (read_names _ _ Hall)).
Qed.

(** The sample route is converted; the document with a latitude that is
    not a number is read but not converted. *)
Lemma X26_conversion_succeeds_iff_witness :
  (exists title wps plan,
      parse_kml (one_file "a.kml" (Xml doc_route)) "a.kml" = Ok (title, wps)
      /\ build_pln_xml title wps = Ok plan
      /\ List.map (fun node => get_attr "id" (attrib node)) (waypoint_nodes plan)
         = [Some "KLAX"; Some "BRAVO"; Some "KJFK"])
  /\ is_ok (parse_kml (one_file "a.kml" (Xml doc_nan)) "a.kml") = true
  /\ ~ (exists title wps plan,
          parse_kml (one_file "a.kml" (Xml doc_nan)) "a.kml" = Ok (title, wps)
          /\ build_pln_xml title wps = Ok plan).
Proof.
  destruct (X26_conversion_succeeds_iff (one_file "a.kml" (Xml doc_route)) "a.kml"
              doc_route eq_refl eq_refl) as [H Hplan].
  destruct (X26_conversion_succeeds_iff (one_file "a.kml" (Xml doc_nan)) "a.kml"
              doc_nan eq_refl eq_refl) as [H' _].
  split; [|split; [reflexivity|]].
  - destruct (proj2 H) as (title & wps & plan & Hp & Hb).
    { split; [reflexivity|]. split; [discriminate|]. split; reflexivity. }
    exists title, wps, plan. split; [exact Hp|]. split; [exact Hb|].
    destruct (Hplan _ _ _ Hp Hb) as [_ Hids]. exact (Hids eq_refl).
  - intros Hr. apply H' in Hr. destruct Hr as (_ & _ & _ & Hf).
    discriminate Hf.
Defined.

End EndToEnd.

Section PlanPositions.

(** The value read back from a DMS string lies within a hundredth of an
    arc-second of the value printed. *)
Lemma dms_value_near (v : Py.float) (is_lat : bool) (s : string) :
  Py.is_binary64 v = true -> dec_to_dms v is_lat = Ok s ->
  exists q, dms_value s = Some q
            /\ (Qabs (q - Py.Q_of_float v) <= 1 # 360000)%Q.
Proof.
  intros Hv Hs. pose proof (dec_to_dms_finite _ _ _ Hs) as Hf.
  destruct (dec_to_dms_print v is_lat Hv Hf)
    as (d & m & c & Heq & Hd & Hm & Hc & Hfl & x & y & Hx & Hxm & Hy & Hcy).
  assert (Hinj : forall a b : string, @Ok string a = Ok b -> a = b)
    by (intros a b [= ->]; reflexivity).
  rewrite Heq in Hs. apply Hinj in Hs. subst s.
  pose proof (read_dms_print (hemisphere (Py.Q_of_float v) is_lat) d m c
                Hd (proj1 Hm) ltac:(lia)) as Hread.
  exists (if Qle_bool 0 (Py.Q_of_float v)
          then inject_Z d + inject_Z m / 60 + inject_Z c / 360000
          else - (inject_Z d + inject_Z m / 60 + inject_Z c / 360000))%Q.
  unfold dms_value. rewrite Hread.
  assert (Ht : (2 ^ (-48) <= 1 # 1000000000)%Q) by (vm_compute; discriminate).
  apply Qabs_Qle_condition in Hx. apply Qabs_Qle_condition in Hy.
  apply Qabs_Qle_condition in Hcy.
  set (A := Qabs (Py.Q_of_float v)) in *. set (t := (2 ^ (-48))%Q) in *.
  set (qd := inject_Z d) in *. set (qm := inject_Z m) in *.
  set (qc := inject_Z c) in *.
  assert (E : (qd + qm / 60 + qc / 360000
               == qd + qm * (1 # 60) + qc * (1 # 360000))%Q)
    by (unfold Qdiv; reflexivity).
  assert (HR : (- (1 # 360000) <= qd + qm / 60 + qc / 360000 - A <= 1 # 360000)%Q).
  { rewrite E. split; lra. }
  clear - HR. subst qd qm qc A.
  unfold hemisphere.
  destruct (Qle_bool 0 (Py.Q_of_float v)) eqn:Hsign.
  - apply Qle_bool_iff in Hsign.
    rewrite (Qabs_pos _ Hsign) in HR.
    destruct is_lat; cbn [Ascii.eqb Bool.eqb orb]; (split; [reflexivity|]);
      apply Qabs_Qle_condition; exact HR.
  - assert (Hneg : (Py.Q_of_float v <= 0)%Q).
    { apply Qlt_le_weak, Qnot_le_lt. intros Hle.
      apply Qle_bool_iff in Hle. congruence. }
    rewrite (Qabs_neg _ Hneg) in HR.
    destruct is_lat; cbn [Ascii.eqb Bool.eqb orb]; (split; [reflexivity|]);
      apply Qabs_Qle_condition; split; lra.
Qed.

Lemma alt_inv (alt_m : Py.float) (s : string) :
  alt_m_to_ft_str alt_m = Ok s ->
  exists ft, Py.round (Py.fmul alt_m FT_PER_M) = Ok ft
             /\ s = "+" ++ Str.format_0d 6 ft ++ ".00".
Proof.
  unfold alt_m_to_ft_str.
  destruct (Py.round (Py.fmul alt_m FT_PER_M)) as [ft|]; [|discriminate].
  cbn [bind]. intros [= <-]. exists ft. split; reflexivity.
Qed.

(** X27: the positions written in the flight plan can be read back.  For
    waypoints with well-formed binary64 coordinates, the position of each
    waypoint node splits at its commas into a latitude, a longitude and an
    altitude; the latitude and the longitude read back from their DMS
    strings are within 1/360000 of a degree of the coordinates of the
    waypoint, and the feet read back from the altitude string are the
    integer nearest to the altitude times 3.28084. *)
Theorem X27_plan_positions_accurate (title : string) (wpts : list waypoint)
  (plan : element) :
  List.Forall (fun w => Py.is_binary64 (wp_lat w) = true
                        /\ Py.is_binary64 (wp_lon w) = true) wpts ->
  build_pln_xml title wpts = Ok plan ->
  forall (i : nat) (w : waypoint),
    List.nth_error wpts i = Some w ->
    exists node pos a b c qa qb ft,
      List.nth_error (waypoint_nodes plan) i = Some node
      /\ world_position node = Some pos
      /\ Str.split "," pos = [a; b; c]
      /\ dms_value a = Some qa
      /\ (Qabs (qa - Py.Q_of_float (wp_lat w)) <= 1 # 360000)%Q
      /\ dms_value b = Some qb
      /\ (Qabs (qb - Py.Q_of_float (wp_lon w)) <= 1 # 360000)%Q
      /\ read_alt c = Some ft
      /\ (Qabs (inject_Z ft - Py.Q_of_float (Py.fmul (wp_alt w) FT_PER_M))
           <= 1 # 2)%Q.
Proof.
  intros Hvalid H i w Hw.
  destruct (built_nodes _ _ _ H)
    as (dep & dest & w0 & wN & l0 & lN & nodes & _ & _ & _ & _ & _ & Hn & _
        & Hwn & _).
  rewrite Hwn.
  destruct (atc_waypoints_pos _ _ _ _ Hn i w Hw) as (pos & Hpos & Hnode).
  destruct (lla_str_inv _ _ _ _ Hpos) as (a & b & c & Ha & Hb & Hc & ->).
  rewrite List.Forall_forall in Hvalid.
  destruct (Hvalid w (List.nth_error_In _ _ Hw)) as [Hvlat Hvlon].
  destruct (dms_value_near _ _ _ Hvlat Ha) as (qa & Hqa & Hea).
  destruct (dms_value_near _ _ _ Hvlon Hb) as (qb & Hqb & Heb).
  destruct (alt_inv _ _ Hc) as (ft & Hft & Hcs).
  eexists. exists (a ++ "," ++ b ++ "," ++ c), a, b, c, qa, qb, ft.
  split; [exact Hnode|].
  split; [unfold world_position, waypoint_node, child_text, find_child,
            findall_child; destruct (classify _ _ _); reflexivity|].
  split.
  { change (a ++ "," ++ b ++ "," ++ c) with (a ++ String "," (b ++ String "," c)).
    rewrite split_app by (exact (no_comma_dec_to_dms _ _ _ Ha)).
    rewrite split_app by (exact (no_comma_dec_to_dms _ _ _ Hb)).
    rewrite split_no_sep by (exact (no_comma_alt _ _ Hc)).
    reflexivity. }
  repeat split; try assumption.
  - rewrite Hcs. apply read_alt_format.
  - now apply round_nearest.
Qed.

(** The second waypoint of the route KLAX, KJFK: 4.0 m are 13 ft. *)
Lemma X27_plan_positions_accurate_witness :
  exists plan node pos,
    build_pln_xml "Evening Cruise" [KLAX; KJFK] = Ok plan
    /\ List.nth_error (waypoint_nodes plan) 1 = Some node
    /\ world_position node = Some pos
    /\ exists a b c qa,
         Str.split "," pos = [a; b; c] /\ dms_value a = Some qa
         /\ (Qabs (qa - Py.Q_of_float (wp_lat KJFK)) <= 1 # 360000)%Q
         /\ read_alt c = Some 13.
Proof.
  destruct (build_pln_xml "Evening Cruise" [KLAX; KJFK]) as [plan|] eqn:E;
    [|vm_compute in E; discriminate E].
  destruct (X27_plan_positions_accurate "Evening Cruise" [KLAX; KJFK] plan
              ltac:(repeat constructor) E 1%nat KJFK eq_refl)
    as (node & pos & a & b & c & qa & qb & ft & H1 & H2 & H3 & H4 & H5 & _ & _
        & H8 & _).
  exists plan, node, pos. split; [reflexivity|]. split; [exact H1|].
  split; [exact H2|]. exists a, b, c, qa.
  split; [exact H3|]. split; [exact H4|]. split; [exact H5|].
  rewrite H8. f_equal.
  vm_compute in E. injection E as <-.
  cbn [waypoint_nodes] in H1. vm_compute in H1. injection H1 as <-.
  vm_compute in H2. injection H2 as <-.
  vm_compute in H3. injection H3 as <- <- <-.
  vm_compute in H8. now injection H8.
Defined.

Lemma isascii_lstrip (p : ascii -> bool) (s : string) :
  Str.isascii s = true -> Str.isascii (Str.lstrip p s) = true.
Proof.
  induction s as [|c s IH]; [reflexivity|]. intros H. cbn [Str.lstrip].
  destruct (p c); [|exact H].
  unfold Str.isascii in *. cbn [Str.forallb] in H.
  apply andb_true_iff in H as [_ H]. exact (IH H).
Qed.

Lemma isascii_strip_by (p : ascii -> bool) (s : string) :
  Str.isascii s = true -> Str.isascii (Str.strip_by p s) = true.
Proof.
  intros H. unfold Str.strip_by, Str.rstrip, Str.isascii.
  rewrite forallb_rev. apply isascii_lstrip. unfold Str.isascii.
  rewrite forallb_rev. now apply isascii_lstrip.
Qed.

(** What the reader makes of a text in ASCII: a text in ASCII that is
    empty or begins and ends with a character that is not a blank. *)
Lemma strip_ascii (t : string) :
  Str.isascii t = true ->
  Str.isascii (Str.strip t) = true
  /\ (Str.strip t = "" \/ clean_ends Str.is_space (Str.strip t) = true).
Proof.
  intros H. split; [now apply isascii_strip_by | apply strip_by_ends].
Qed.

(** X28: when the names of the placemarks are in ASCII, the names of the
    waypoints that the reader returns carry no white space at either end:
    each is a text in ASCII that is empty or begins and ends with a
    character that is not a blank.  The same holds of a title taken from
    a document-level name in ASCII. *)
Theorem X28_reader_names_stripped (fs : filesystem) (kml_path : string)
  (root : element) (title : string) (wps : list waypoint) :
  fs kml_path = Some (Xml root) ->
  parse_kml fs kml_path = Ok (title, wps) ->
  (List.forallb ascii_name (qualifying root) = true ->
   List.Forall
     (fun w => Str.isascii (wp_name w) = true
               /\ (wp_name w = ""
                   \/ clean_ends Str.is_space (wp_name w) = true)) wps)
  /\ (forall el,
        find_desc_child (kml "Document") (kml "name") root = Some el ->
        ascii_text (text el) = true ->
        Str.isascii title = true
        /\ (title = "" \/ clean_ends Str.is_space title = true)).
Proof.
  intros Hfs H. destruct (parse_kml_inv _ _ _ _ _ Hfs H) as (Ht & _ & Hall).
  split.
  - clear H. induction Hall as [|pm w pms ws Hpm _ IH]; intros Hasc;
      constructor; cbn [List.forallb] in Hasc;
      apply andb_true_iff in Hasc as [Hpm' Hrest]; [|exact (IH Hrest)].
    apply read_placemark_some in Hpm. destruct Hpm as (_ & Hn & _).
    unfold name_of in Hn. unfold ascii_name in Hpm'.
    destruct (child_text (kml "name") pm) as [t|]; [|discriminate Hn].
    cbn [option_map] in Hn. injection Hn as <-. now apply strip_ascii.
  - intros el Hel Hasc. unfold read_title in Ht. rewrite Hel in Ht.
    destruct (text el) as [t|]; [|discriminate Ht].
    cbn [strip_of] in Ht. injection Ht as <-. now apply strip_ascii.
Qed.

(** The sample route: the name of the second point is written with
    blanks around it. *)
Lemma X28_reader_names_stripped_witness :
  exists wps,
    parse_kml (one_file "a.kml" (Xml doc_route)) "a.kml" = Ok ("KLAX to KJFK", wps)
    /\ List.map wp_name wps = ["KLAX"; "BRAVO"; "KJFK"]
    /\ List.Forall
         (fun w => Str.isascii (wp_name w) = true
                   /\ (wp_name w = ""
                       \/ clean_ends Str.is_space (wp_name w) = true)) wps
    /\ child_text (kml "name") (point_placemark " BRAVO " " -117.9,34.5,1500.0,7 ")
       = Some " BRAVO ".
Proof.
  destruct (parse_kml (one_file "a.kml" (Xml doc_route)) "a.kml")
    as [[t wps]|] eqn:E; [|vm_compute in E; discriminate E].
  pose proof (proj1 (X28_reader_names_stripped
                       (one_file "a.kml" (Xml doc_route)) "a.kml"
                       doc_route _ _ eq_refl E) eq_refl) as Hall.
  vm_compute in E. injection E as <- <-.
  eexists. split; [reflexivity|]. split; [reflexivity|].
  split; [exact Hall | reflexivity].
Defined.

End PlanPositions.
